(** * sukl-api: query translation and resilient transport

    A shallow embedding of the parts of [sukl-api/app] that build the
    provider filter expression ([routes/drugs.py], [routes/pharmacies.py]),
    shape document chunks ([routes/documents.py]) and talk to the search
    backend with retries ([search_client.py]), together with the properties
    of these functions.

    Conventions.
    - A Python [str] is a list of Unicode code points ([char := N]).
    - Status codes are [Z]; lengths and attempt numbers are [nat].
    - Effects (token acquisition, HTTP requests, sleeps) are threaded through
      an explicit [world] by a small state-and-exception monad.
    - [log.*] calls are observability only and are not modelled. *)

From Stdlib Require Import String Ascii NArith ZArith Bool Lia List.
Import ListNotations.

Set Warnings "-register-all".

(* ================================================================== *)
(** * Python strings                                                    *)
(* ================================================================== *)

Module Py.

(** A Unicode code point. *)
Definition char := N.
Definition str := list char.

(** Decoding of the UTF-8 bytes of a source literal into code points. *)
Fixpoint utf8_decode (bs : list N) : str :=
  match bs with
  | [] => []
  | b0 :: r0 =>
    if (b0 <? 128)%N then b0 :: utf8_decode r0
    else
      match r0 with
      | [] => []
      | b1 :: r1 =>
        if (b0 <? 224)%N
        then ((b0 - 192) * 64 + (b1 - 128))%N :: utf8_decode r1
        else
          match r1 with
          | [] => []
          | b2 :: r2 =>
            if (b0 <? 240)%N
            then ((b0 - 224) * 4096 + (b1 - 128) * 64 + (b2 - 128))%N
                   :: utf8_decode r2
            else
              match r2 with
              | [] => []
              | b3 :: r3 =>
                ((b0 - 240) * 262144 + (b1 - 128) * 4096
                 + (b2 - 128) * 64 + (b3 - 128))%N :: utf8_decode r3
              end
          end
      end
  end.

(** A string literal of the source, as code points. *)
Definition lit (s : string) : str :=
  utf8_decode (map N_of_ascii (list_ascii_of_string s)).

Definition eqb (a b : str) : bool :=
  if list_eq_dec N.eq_dec a b then true else false.

(** Truthiness of a [str]: only the empty string is falsy. *)
Definition truthy (s : str) : bool :=
  match s with [] => false | _ :: _ => true end.

(** Truthiness of [str | None]. *)
Definition truthy_opt (o : option str) : bool :=
  match o with None => false | Some s => truthy s end.

(** Truthiness of [bool | None]. *)
Definition truthy_obool (o : option bool) : bool :=
  match o with None => false | Some b => b end.

(** [str.isspace] on one code point (CPython's [_PyUnicode_IsWhitespace]). *)
Definition isspace (c : char) : bool :=
  ((9 <=? c) && (c <=? 13)
   || (28 <=? c) && (c <=? 32)
   || (c =? 133) || (c =? 160) || (c =? 5760)
   || (8192 <=? c) && (c <=? 8202)
   || (c =? 8232) || (c =? 8233) || (c =? 8239) || (c =? 8287)
   || (c =? 12288))%N.

Fixpoint lstrip (s : str) : str :=
  match s with
  | [] => []
  | c :: s' => if isspace c then lstrip s' else s
  end.

Definition rstrip (s : str) : str := rev (lstrip (rev s)).

(** [s.strip()] *)
Definition strip (s : str) : str := rstrip (lstrip s).

Definition is_prefix (p s : str) : bool := eqb p (firstn (length p) s).

(** [s.replace(old, new)]: non-overlapping occurrences of [old], scanned
    from the left.  [skip] counts the characters of a match still to be
    dropped. *)
Fixpoint replace_from (old new s : str) (skip : nat) : str :=
  match s with
  | [] => []
  | c :: s' =>
    match skip with
    | S k => replace_from old new s' k
    | O =>
      match old with
      | [] => c :: new ++ replace_from old new s' 0
      | _ :: old' =>
        if is_prefix old s
        then new ++ replace_from old new s' (length old')
        else c :: replace_from old new s' 0
      end
    end
  end.

Definition replace (old new s : str) : str :=
  match old with
  | [] => new ++ replace_from old new s 0
  | _ :: _ => replace_from old new s 0
  end.

(** [sep.join(parts)] *)
Fixpoint join (sep : str) (parts : list str) : str :=
  match parts with
  | [] => []
  | [p] => p
  | p :: rest => p ++ sep ++ join sep rest
  end.

(** [s.zfill(width)]: zeros go after a leading sign. *)
Definition zfill (width : nat) (s : str) : str :=
  if width <=? length s then s
  else
    let fill := repeat 48%N (width - length s) in
    match s with
    | c :: rest =>
      if ((c =? 43) || (c =? 45))%N then c :: fill ++ rest else fill ++ s
    | [] => fill
    end.

(** [re.fullmatch(r"[A-Z0-9]+", s)] *)
Definition in_AZ09 (c : char) : bool :=
  ((65 <=? c) && (c <=? 90) || (48 <=? c) && (c <=? 57))%N.

Definition fullmatch_AZ09 (s : str) : bool :=
  truthy s && forallb in_AZ09 s.

(** [str(b)] for a [bool]. *)
Definition str_of_bool (b : bool) : str :=
  if b then lit "True" else lit "False".

Definition is_ascii (c : char) : bool := (c <? 128)%N.

Definition ascii_lower (c : char) : char :=
  if ((65 <=? c) && (c <=? 90))%N then (c + 32)%N else c.

Definition ascii_upper (c : char) : char :=
  if ((97 <=? c) && (c <=? 122))%N then (c - 32)%N else c.

Definition is_ascii_digit (c : char) : bool :=
  ((48 <=? c) && (c <=? 57))%N.

(** [str.upper] and [str.lower] on ASCII text. *)
Definition upper_ascii (s : str) : str := map ascii_upper s.
Definition lower_ascii (s : str) : str := map ascii_lower s.

End Py.

Import Py.

(* ================================================================== *)
(** * JSON values and dictionaries                                      *)
(* ================================================================== *)

(** Decoded JSON.  Non-integral numbers are not needed by the functions
    modelled here.  A [dict] keeps insertion order. *)
Inductive jvalue :=
| JNull
| JBool (b : bool)
| JInt (z : Z)
| JStr (s : str)
| JList (l : list jvalue)
| JObj (o : list (str * jvalue)).

Definition dict := list (str * jvalue).

(** [d.get(key)] *)
Fixpoint dict_get (key : str) (d : dict) : option jvalue :=
  match d with
  | [] => None
  | (k, v) :: d' => if eqb k key then Some v else dict_get key d'
  end.

(** [d[key] = v] *)
Fixpoint dict_set (key : str) (v : jvalue) (d : dict) : dict :=
  match d with
  | [] => [(key, v)]
  | (k, x) :: d' =>
    if eqb k key then (k, v) :: d' else (k, x) :: dict_set key v d'
  end.

(* ================================================================== *)
(** * Effects: exceptions, the outside world, and the monad            *)
(* ================================================================== *)

Inductive exn :=
| SearchError (status : Z) (detail : str)
| AuthError (msg : str)          (* raised by the credential source *)
| IndexError
| TypeError
| OtherError (msg : str).

Inductive http_method := GET | POST.

Record request := {
  r_method : http_method;
  r_url : str;
  r_payload : dict;              (* JSON body of a POST, params of a GET *)
  r_authorization : option str   (* the client's Authorization header *)
}.

(** What one call of [self._client.post] / [self._client.get] yields. *)
Inductive outcome :=
| Response (status_code : Z) (text : str) (json : exn + dict)
| TimeoutException               (* httpx.TimeoutException *)
| HTTPError (msg : str)          (* any other httpx.HTTPError *)
| Failure (e : exn).             (* an exception that is not an httpx one *)

(** The collaborators outside the process: the credential source and the
    search backend, each answering its n-th call. *)
Record env := {
  get_token : nat -> exn + str;
  exchange : nat -> request -> outcome
}.

Inductive event :=
| EvGetToken (scope : str)
| EvSend (r : request)
| EvSleep (seconds : Z).

Record world := {
  w_token : option str;          (* self._token *)
  w_authorization : option str;  (* self._client.headers["Authorization"] *)
  w_acquired : nat;              (* calls of get_token so far *)
  w_sent : nat;                  (* HTTP exchanges so far *)
  w_trace : list event           (* what happened, oldest first *)
}.

Definition M (A : Type) : Type := world -> (exn + A) * world.

Definition ret {A} (a : A) : M A := fun w => (inr a, w).

Definition raise {A} (e : exn) : M A := fun w => (inl e, w).

Definition bind {A B} (c : M A) (k : A -> M B) : M B :=
  fun w =>
    match c w with
    | (inl e, w') => (inl e, w')
    | (inr a, w') => k a w'
    end.

Declare Scope m_scope.
Delimit Scope m_scope with m.
Notation "x <- c ;; k" := (bind c (fun x => k))
  (at level 100, c at next level, right associativity) : m_scope.
Notation "c ;;; k" := (bind c (fun _ => k))
  (at level 100, right associativity) : m_scope.
Open Scope m_scope.

Definition lift {A} (r : exn + A) : M A :=
  match r with inl e => raise e | inr a => ret a end.

Definition emit (ev : event) (w : world) : world :=
  {| w_token := w_token w; w_authorization := w_authorization w;
     w_acquired := w_acquired w; w_sent := w_sent w;
     w_trace := w_trace w ++ [ev] |}.

(** [await asyncio.sleep(seconds)] *)
Definition sleep (seconds : Z) : M unit :=
  fun w => (inr tt, emit (EvSleep seconds) w).

(** The request the client sends from world [w]: the Authorization header
    is whatever the client currently carries. *)
Definition request_of (m : http_method) (url : str) (payload : dict)
    (w : world) : request :=
  {| r_method := m; r_url := url; r_payload := payload;
     r_authorization := w_authorization w |}.

Definition sent (r : request) (w : world) : world :=
  {| w_token := w_token w; w_authorization := w_authorization w;
     w_acquired := w_acquired w; w_sent := S (w_sent w);
     w_trace := w_trace w ++ [EvSend r] |}.

(** One exchange with the backend; httpx failures come back as outcomes so
    that the caller's [except] clauses can dispatch on them. *)
Definition send (E : env) (m : http_method) (url : str) (payload : dict)
  : M outcome :=
  fun w =>
    let r := request_of m url payload w in
    (inr (exchange E (w_sent w) r), sent r w).

(** The client right after [__init__]. *)
Definition fresh_world : world :=
  {| w_token := None; w_authorization := None;
     w_acquired := 0; w_sent := 0; w_trace := [] |}.

(** An environment that answers by position only. *)
Definition scripted (tokens : nat -> exn + str) (script : nat -> outcome)
  : env :=
  {| get_token := tokens; exchange := fun n _ => script n |}.

(** The sleeps of a trace, in order; its exchanges; its token requests. *)
Fixpoint sleeps (tr : list event) : list Z :=
  match tr with
  | [] => []
  | EvSleep d :: tr' => d :: sleeps tr'
  | _ :: tr' => sleeps tr'
  end.

Fixpoint attempts (tr : list event) : nat :=
  match tr with
  | [] => 0
  | EvSend _ :: tr' => S (attempts tr')
  | _ :: tr' => attempts tr'
  end.

Fixpoint acquisitions (tr : list event) : nat :=
  match tr with
  | [] => 0
  | EvGetToken _ :: tr' => S (acquisitions tr')
  | _ :: tr' => acquisitions tr'
  end.

(** An event that, if it is a request, carries the header [auth]. *)
Definition sent_with (auth : option str) (ev : event) : Prop :=
  match ev with
  | EvSend r => r_authorization r = auth
  | _ => True
  end.

(* ================================================================== *)
(** * search_client.py                                                  *)
(* ================================================================== *)

Definition MAX_RETRIES : nat := 3.
(** Seconds; the source writes them as floats [1.0, 3.0, 8.0]. *)
Definition RETRY_DELAYS : list Z := [1; 3; 8]%Z.
Definition SEARCH_SCOPE : str := lit "https://search.azure.com/.default".
Definition RETRYABLE_STATUS : list Z := [408; 429; 500; 502; 503; 504]%Z.

(** [status in RETRYABLE_STATUS] *)
Definition retryable (status : Z) : bool :=
  existsb (Z.eqb status) RETRYABLE_STATUS.

(** [RETRY_DELAYS[attempt]] *)
Definition retry_delay (attempt : nat) : M Z :=
  match nth_error RETRY_DELAYS attempt with
  | Some d => ret d
  | None => raise IndexError
  end.

(** The world once the credential source has been asked, and once its
    token has been stored and put into the client's headers. *)
Definition asked (w : world) : world :=
  {| w_token := w_token w; w_authorization := w_authorization w;
     w_acquired := S (w_acquired w); w_sent := w_sent w;
     w_trace := w_trace w ++ [EvGetToken SEARCH_SCOPE] |}.

Definition refreshed (t : str) (w : world) : world :=
  {| w_token := Some t;
     w_authorization := Some (lit "Bearer " ++ t);
     w_acquired := S (w_acquired w); w_sent := w_sent w;
     w_trace := w_trace w ++ [EvGetToken SEARCH_SCOPE] |}.

(** [SearchClient._refresh_token] *)
Definition _refresh_token (E : env) : M unit :=
  fun w =>
    match get_token E (w_acquired w) with
    | inl e => (inl e, asked w)
    | inr t => (inr tt, refreshed t w)
    end.

(** How the [for attempt in range(MAX_RETRIES)] loop is left: by a
    [return] inside it, or by running out of attempts with the current
    [last_error]. *)
Inductive loop_exit (A : Type) :=
| Returned (a : A)
| Exhausted (last_error : option exn).
Arguments Returned {A} a.
Arguments Exhausted {A} last_error.

(** [raise last_error or SearchError(500, "All retries exhausted")] *)
Definition raise_last {A} (last_error : option exn) : M A :=
  match last_error with
  | Some e => raise e
  | None => raise (SearchError 500 (lit "All retries exhausted"))
  end.

(** The loop of [_post_with_retry]. *)
Fixpoint post_loop (E : env) (url : str) (body : dict)
    (range : list nat) (last_error : option exn) : M (loop_exit dict) :=
  match range with
  | [] => ret (Exhausted last_error)
  | attempt :: range' =>
    resp <- send E POST url body ;;
    match resp with
    | Response status_code text json =>
      if (status_code =? 200)%Z then
        r <- lift json ;;
        ret (Returned r)
      else if retryable status_code then
        let last_error := Some (SearchError status_code text) in
        d <- retry_delay attempt ;;
        sleep d ;;;
        post_loop E url body range' last_error
      else raise (SearchError status_code text)
    | TimeoutException =>
      let last_error := Some (SearchError 504 (lit "Request timeout")) in
      (if attempt <? MAX_RETRIES - 1
       then (d <- retry_delay attempt ;; sleep d)
       else ret tt) ;;;
      post_loop E url body range' last_error
    | HTTPError msg =>
      let last_error := Some (SearchError 502 msg) in
      (if attempt <? MAX_RETRIES - 1
       then (d <- retry_delay attempt ;; sleep d)
       else ret tt) ;;;
      post_loop E url body range' last_error
    | Failure e => raise e
    end
  end.

(** [SearchClient._post_with_retry] *)
Definition _post_with_retry (E : env) (url : str) (body : dict)
    (context : str) : M dict :=
  x <- post_loop E url body (seq 0 MAX_RETRIES) None ;;
  match x with
  | Returned d => ret d
  | Exhausted last_error => raise_last last_error
  end.

(** The loop of [_get_with_retry]; [None] is the not-found value. *)
Fixpoint get_loop (E : env) (url : str) (params : dict)
    (range : list nat) (last_error : option exn)
  : M (loop_exit (option dict)) :=
  match range with
  | [] => ret (Exhausted last_error)
  | attempt :: range' =>
    resp <- send E GET url params ;;
    match resp with
    | Response status_code text json =>
      if (status_code =? 200)%Z then
        r <- lift json ;;
        ret (Returned (Some r))
      else if (status_code =? 404)%Z then ret (Returned None)
      else if retryable status_code then
        let last_error := Some (SearchError status_code text) in
        d <- retry_delay attempt ;;
        sleep d ;;;
        get_loop E url params range' last_error
      else raise (SearchError status_code text)
    | TimeoutException =>
      let last_error := Some (SearchError 504 (lit "Request timeout")) in
      (if attempt <? MAX_RETRIES - 1
       then (d <- retry_delay attempt ;; sleep d)
       else ret tt) ;;;
      get_loop E url params range' last_error
    | HTTPError msg =>
      let last_error := Some (SearchError 502 msg) in
      (if attempt <? MAX_RETRIES - 1
       then (d <- retry_delay attempt ;; sleep d)
       else ret tt) ;;;
      get_loop E url params range' last_error
    | Failure e => raise e
    end
  end.

(** [SearchClient._get_with_retry] *)
Definition _get_with_retry (E : env) (url : str) (params : dict)
    (context : str) : M (option dict) :=
  x <- get_loop E url params (seq 0 MAX_RETRIES) None ;;
  match x with
  | Returned r => ret r
  | Exhausted last_error => raise_last last_error
  end.

(** The failure the retry loops record for an outcome that lets them go
    on to the next attempt ([last_error = SearchError(...)]). *)
Definition recorded_failure (resp : outcome) : option exn :=
  match resp with
  | Response status_code text _ =>
    if retryable status_code then Some (SearchError status_code text)
    else None
  | TimeoutException => Some (SearchError 504 (lit "Request timeout"))
  | HTTPError msg => Some (SearchError 502 msg)
  | Failure _ => None
  end.

(** A computation that only sends requests and sleeps: it leaves the
    client's token and header alone, and every request it sends carries
    the header the client had at the start. *)
Definition quiet {A} (c : M A) : Prop :=
  forall w r w', c w = (r, w') ->
    exists tr,
      w_trace w' = w_trace w ++ tr /\
      acquisitions tr = 0 /\
      Forall (sent_with (w_authorization w)) tr /\
      w_authorization w' = w_authorization w /\
      w_token w' = w_token w /\
      w_acquired w' = w_acquired w /\
      w_sent w' = w_sent w + attempts tr.

(** [if value: body[key] = value] for a [str | None] value. *)
Definition set_if_str (key : str) (value : option str) (d : dict) : dict :=
  match value with
  | Some v => if truthy v then dict_set key (JStr v) d else d
  | None => d
  end.

(** [if select: body[key] = ",".join(select)] *)
Definition set_if_select (key : str) (select : option (list str)) (d : dict)
  : dict :=
  match select with
  | Some (f :: fs) => dict_set key (JStr (join (lit ",") (f :: fs))) d
  | _ => d
  end.

(** [SearchClient.search] *)
Definition search (E : env) (index : str) (search_text : str)
    (filter : option str) (select : option (list str)) (top skip : Z)
    (order_by : option str) (query_type : str)
    (semantic_config : option str) (count : bool)
    (answers captions : option str) : M dict :=
  let body : dict :=
    [ (lit "search", JStr search_text);
      (lit "queryType", JStr query_type);
      (lit "top", JInt top);
      (lit "skip", JInt skip);
      (lit "count", JBool count) ] in
  let body := set_if_str (lit "filter") filter body in
  let body := set_if_select (lit "select") select body in
  let body := set_if_str (lit "orderby") order_by body in
  let body :=
    if truthy_opt semantic_config && eqb query_type (lit "semantic")
    then set_if_str (lit "semanticConfiguration") semantic_config body
    else body in
  let body := set_if_str (lit "answers") answers body in
  let body := set_if_str (lit "captions") captions body in
  let url :=
    lit "/indexes/" ++ index ++ lit "/docs/search?api-version=2024-07-01" in
  _refresh_token E ;;;
  _post_with_retry E url body (lit "search:" ++ index).

(** [SearchClient.hybrid_search] *)
Definition hybrid_search (E : env) (index : str) (search_text : str)
    (vector_fields vectorizer : str) (select : option (list str)) (top : Z)
    (semantic_config answers captions : option str) : M dict :=
  let body : dict :=
    [ (lit "search", JStr search_text);
      (lit "queryType", JStr (lit "semantic"));
      (lit "top", JInt top);
      (lit "count", JBool true);
      (lit "vectorQueries",
       JList [ JObj [ (lit "kind", JStr (lit "text"));
                      (lit "text", JStr search_text);
                      (lit "fields", JStr vector_fields);
                      (lit "k", JInt top) ] ]) ] in
  let body := set_if_select (lit "select") select body in
  let body := set_if_str (lit "semanticConfiguration") semantic_config body in
  let body := set_if_str (lit "answers") answers body in
  let body := set_if_str (lit "captions") captions body in
  let url :=
    lit "/indexes/" ++ index ++ lit "/docs/search?api-version=2024-07-01" in
  _refresh_token E ;;;
  _post_with_retry E url body (lit "hybrid:" ++ index).

(** The URL and the query parameters of a lookup by key. *)
Definition document_url (index key : str) : str :=
  lit "/indexes/" ++ index ++ lit "/docs('" ++ key ++ lit "')".

Definition document_params (select : option (list str)) : dict :=
  let params : dict := [ (lit "api-version", JStr (lit "2024-07-01")) ] in
  set_if_select (lit "$select") select params.

(** [SearchClient.get_document] *)
Definition get_document (E : env) (index key : str)
    (select : option (list str)) : M (option dict) :=
  let params := document_params select in
  let url := document_url index key in
  _refresh_token E ;;;
  _get_with_retry E url params (lit "doc:" ++ index ++ lit "/" ++ key).

(** A call that asks the credential source first, whatever token the
    client already holds: if that fails, the failure is the call's result
    and nothing else has happened; if it succeeds with [t], the call asks
    no second time and every request it sends carries [Bearer t]. *)
Definition acquires_fresh_token {A} (E : env) (call : M A) : Prop :=
  forall w : world,
    (forall e,
        get_token E (w_acquired w) = inl e ->
        fst (call w) = inl e
        /\ w_trace (snd (call w)) = w_trace w ++ [EvGetToken SEARCH_SCOPE])
    /\
    (forall t,
        get_token E (w_acquired w) = inr t ->
        exists tr,
          w_trace (snd (call w)) = w_trace w ++ EvGetToken SEARCH_SCOPE :: tr
          /\ acquisitions tr = 0
          /\ Forall (sent_with (Some (lit "Bearer " ++ t))) tr).

(* ================================================================== *)
(** * The routes                                                        *)
(* ================================================================== *)

(** What an endpoint hands back to the web layer. *)
Inductive http_response :=
| JSONResponse (status_code : Z) (content : dict)
| Payload (body : jvalue).

Definition error_content (message : str) : dict :=
  [ (lit "error", JStr message) ].

(** A [dict] from friendly names to backend codes, [m.get(key)]. *)
Fixpoint table_get (key : str) (m : list (str * str)) : option str :=
  match m with
  | [] => None
  | (k, v) :: m' => if eqb k key then Some v else table_get key m'
  end.

(** [for doc in value]: the elements Python iterates over. *)
Definition iterate (v : jvalue) : exn + list jvalue :=
  match v with
  | JList l => inr l
  | JStr s => inr (map (fun c => JStr [c]) s)
  | JObj o => inr (map (fun kv => JStr (fst kv)) o)
  | _ => inl TypeError
  end.

(** Runs [f] over the documents in order, stopping at the first exception. *)
Fixpoint format_all (f : jvalue -> exn + jvalue) (docs : list jvalue)
  : exn + list jvalue :=
  match docs with
  | [] => inr []
  | doc :: docs' =>
    match f doc with
    | inl e => inl e
    | inr r =>
      match format_all f docs' with
      | inl e => inl e
      | inr rs => inr (r :: rs)
      end
    end
  end.

(** [" and ".join(parts) if parts else None] *)
Definition join_parts (parts : list str) : option str :=
  match parts with
  | [] => None
  | _ :: _ => Some (join (lit " and ") parts)
  end.

(** Turns the exceptions of an endpoint body into its error responses:
    [except SearchError] first, then [except Exception]. *)
Definition handle (body : M http_response) (search_failed : str)
  : world -> http_response * world :=
  fun w =>
    match body w with
    | (inr r, w') => (r, w')
    | (inl (SearchError _ _), w') =>
      (JSONResponse 502 (error_content search_failed), w')
    | (inl _, w') =>
      (JSONResponse 500 (error_content (lit "Interní chyba serveru.")), w')
    end.

(** What the spec calls "every single quote doubled", written down
    independently of [replace]. *)
Fixpoint double_quotes (s : str) : str :=
  match s with
  | [] => []
  | c :: s' =>
    if (c =? 39)%N then 39%N :: 39%N :: double_quotes s'
    else c :: double_quotes s'
  end.

(** The shape of a [search.ismatch] predicate on [field]. *)
Definition ismatch_clause (value field : str) : str :=
  lit "search.ismatch('" ++ value ++ lit "', '" ++ field ++ lit "')".

(** What the spec calls "left-padded with zeros to [width] characters". *)
Definition left_pad_zeros (width : nat) (s : str) : str :=
  repeat 48%N (width - length s) ++ s.

(** ** routes/documents.py *)

Module Documents.

(** The chunk text of one result of [search_documents]: the value placed
    under ["content"]. *)
Definition chunk_content (doc : dict) : exn + jvalue :=
  let chunk_text :=
    match dict_get (lit "chunk") doc with
    | Some v => v
    | None => JStr []
    end in
  match chunk_text with
  | JStr s =>
    if 2000 <? length s
    then inr (JStr (firstn 2000 s ++ lit "…"))
    else inr chunk_text
  | JList l => if 2000 <? length l then inl TypeError else inr chunk_text
  | JObj o => if 2000 <? length o then inl TypeError else inr chunk_text
  | _ => inl TypeError
  end.

End Documents.

(* ================================================================== *)
(** * Vocabulary for the properties of the retry loops                  *)
(* ================================================================== *)

(** How one attempt ends, as the loop bodies decide it: the call stops
    with a result or an exception, or the failure [e] is recorded and the
    loop goes on; [always_sleeps] tells whether the pause before going on
    is unconditional (the retryable-status branch) or guarded by
    [attempt < MAX_RETRIES - 1] (the [except] branches). *)
Inductive verdict (A : Type) :=
| Stops (r : exn + A)
| Retries (e : exn) (always_sleeps : bool).
Arguments Stops {A} r.
Arguments Retries {A} e always_sleeps.

Definition post_verdict (resp : outcome) : verdict dict :=
  match resp with
  | Response status_code text json =>
    if (status_code =? 200)%Z then Stops json
    else if retryable status_code
    then Retries (SearchError status_code text) true
    else Stops (inl (SearchError status_code text))
  | TimeoutException =>
    Retries (SearchError 504 (lit "Request timeout")) false
  | HTTPError msg => Retries (SearchError 502 msg) false
  | Failure e => Stops (inl e)
  end.

Definition get_verdict (resp : outcome) : verdict (option dict) :=
  match resp with
  | Response status_code text json =>
    if (status_code =? 200)%Z then
      Stops (match json with inl e => inl e | inr d => inr (Some d) end)
    else if (status_code =? 404)%Z then Stops (inr None)
    else if retryable status_code
    then Retries (SearchError status_code text) true
    else Stops (inl (SearchError status_code text))
  | TimeoutException =>
    Retries (SearchError 504 (lit "Request timeout")) false
  | HTTPError msg => Retries (SearchError 502 msg) false
  | Failure e => Stops (inl e)
  end.

(** The longest trace a call can leave: three requests, each followed by
    its delay. *)
Definition full_trace (r : request) : list event :=
  [EvSend r; EvSleep 1; EvSend r; EvSleep 3; EvSend r; EvSleep 8].

(** The world after the events [tr] of a retry loop. *)
Definition after (w : world) (tr : list event) : world :=
  {| w_token := w_token w; w_authorization := w_authorization w;
     w_acquired := w_acquired w; w_sent := attempts tr + w_sent w;
     w_trace := w_trace w ++ tr |}.

(** The exception an attempt's outcome makes a POST call raise, if it is
    the one that ends the call. *)
Definition raised_by_post (resp : outcome) (e : exn) : Prop :=
  match resp with
  | Response status_code text json =>
    (status_code = 200%Z /\ json = inl e)
    \/ (status_code <> 200%Z /\ e = SearchError status_code text)
  | TimeoutException => e = SearchError 504 (lit "Request timeout")
  | HTTPError msg => e = SearchError 502 msg
  | Failure e' => e = e'
  end.

Definition raised_by_get (resp : outcome) (e : exn) : Prop :=
  match resp with
  | Response status_code text json =>
    (status_code = 200%Z /\ json = inl e)
    \/ (status_code <> 200%Z /\ status_code <> 404%Z
        /\ e = SearchError status_code text)
  | TimeoutException => e = SearchError 504 (lit "Request timeout")
  | HTTPError msg => e = SearchError 502 msg
  | Failure e' => e = e'
  end.

(** The outcome of the [k]-th attempt (from 0) of a call that starts in
    world [w]. *)
Definition outcome_at (E : env) (m : http_method) (url : str)
    (payload : dict) (w : world) (k : nat) : outcome :=
  exchange E (w_sent w + k) (request_of m url payload w).

(** The statements of [_post_with_retry] and of [_get_with_retry] with
    the loop run over [range]; the functions themselves are the case
    [range(MAX_RETRIES)], and the empty range is the only one that leaves
    the loop with no failure recorded. *)
Definition post_with_retry_over (range : list nat) (E : env) (url : str)
    (body : dict) (context : str) : M dict :=
  x <- post_loop E url body range None ;;
  match x with
  | Returned d => ret d
  | Exhausted last_error => raise_last last_error
  end.

Definition get_with_retry_over (range : list nat) (E : env) (url : str)
    (params : dict) (context : str) : M (option dict) :=
  x <- get_loop E url params range None ;;
  match x with
  | Returned r => ret r
  | Exhausted last_error => raise_last last_error
  end.

(** An outcome of the transport level: a timeout or another httpx error. *)
Definition transport_failure (resp : outcome) : Prop :=
  resp = TimeoutException \/ exists msg, resp = HTTPError msg.

(** Seconds slept over a trace. *)
Definition total_sleep (tr : list event) : Z :=
  fold_right Z.add 0%Z (sleeps tr).

(* ================================================================== *)
(** * Vocabulary for the properties of the filters and the bodies       *)
(* ================================================================== *)

(** The text of a quoted string literal of the filter grammar, read from
    just after its opening quote, and what follows the literal: the
    literal runs to the first quote that is not doubled, and a doubled
    quote stands for one quote. *)
Fixpoint read_quoted (s : str) : option (str * str) :=
  match s with
  | [] => None
  | c :: s' =>
    if (c =? 39)%N then
      match s' with
      | c' :: s'' =>
        if (c' =? 39)%N then
          match read_quoted s'' with
          | Some (v, rest) => Some (39%N :: v, rest)
          | None => None
          end
        else Some ([], s')
      | [] => Some ([], [])
      end
    else
      match read_quoted s' with
      | Some (v, rest) => Some (c :: v, rest)
      | None => None
      end
  end.

(** A literal at the start of [s]. *)
Definition read_literal (s : str) : option (str * str) :=
  match s with
  | c :: s' => if (c =? 39)%N then read_quoted s' else None
  | [] => None
  end.

(** [d.get(key, default)] *)
Definition dict_get_or (key : str) (default : jvalue) (d : dict) : jvalue :=
  match dict_get key d with
  | Some v => v
  | None => default
  end.

(** Truthiness of a decoded JSON value. *)
Definition jtruthy (v : jvalue) : bool :=
  match v with
  | JNull => false
  | JBool b => b
  | JInt z => negb (z =? 0)%Z
  | JStr s => truthy s
  | JList l => match l with [] => false | _ :: _ => true end
  | JObj o => match o with [] => false | _ :: _ => true end
  end.

(** [v == s] for a string [s]. *)
Definition is_str (v : jvalue) (s : str) : bool :=
  match v with
  | JStr s' => eqb s' s
  | _ => false
  end.

(** ["ano" if cond else "ne"] *)
Definition ano_ne (cond : bool) : jvalue :=
  JStr (if cond then lit "ano" else lit "ne").

(** Calling [.get] on a value that is not a dict. *)
Definition AttributeError : exn := OtherError (lit "AttributeError").

(** ** routes/drugs.py: shaping of documents *)

Module Drugs.

Definition SEARCH_FIELDS : list str :=
  map lit
    [ "kodSukl"; "nazev"; "sila"; "formaNazev"; "cestaNazev";
      "drzitelNazev"; "atc"; "atcNazev"; "ucinneLatky";
      "vydejNazev"; "indikacniSkupinaNazev"; "dodavky"; "doping" ]%string.

Definition SEMANTIC_CONFIG : str := lit "sukl-drugs-semantic".

(** [_format_drug_summary] *)
Definition _format_drug_summary (doc : jvalue) : exn + jvalue :=
  match doc with
  | JObj doc =>
    inr (JObj
      [ (lit "kodSukl", dict_get_or (lit "kodSukl") (JStr []) doc);
        (lit "nazev", dict_get_or (lit "nazev") (JStr []) doc);
        (lit "sila", dict_get_or (lit "sila") (JStr []) doc);
        (lit "forma", dict_get_or (lit "formaNazev") (JStr []) doc);
        (lit "cesta", dict_get_or (lit "cestaNazev") (JStr []) doc);
        (lit "drzitel", dict_get_or (lit "drzitelNazev") (JStr []) doc);
        (lit "atc", dict_get_or (lit "atc") (JStr []) doc);
        (lit "atcNazev", dict_get_or (lit "atcNazev") (JStr []) doc);
        (lit "ucinneLatky", dict_get_or (lit "ucinneLatky") (JStr []) doc);
        (lit "vydej", dict_get_or (lit "vydejNazev") (JStr []) doc);
        (lit "indikace",
         dict_get_or (lit "indikacniSkupinaNazev") (JStr []) doc);
        (lit "dodavky",
         ano_ne (is_str (dict_get_or (lit "dodavky") JNull doc) (lit "1")));
        (lit "doping", dict_get_or (lit "doping") (JBool false) doc) ])
  | _ => inl AttributeError
  end.

Section Detail.

(** Python's [str()] of a value that is not a [str], as an f-string
    formats it. *)
Variable py_str : jvalue -> str.

(** [f"{v}"] *)
Definition format_value (v : jvalue) : str :=
  match v with
  | JStr s => s
  | _ => py_str v
  end.

(** [_build_detail_url]; [JNull] is Python's [None]. *)
Definition _build_detail_url (kod_sukl : jvalue) : jvalue :=
  if negb (jtruthy kod_sukl) then JNull
  else JStr (lit "https://prehledy.sukl.cz/prehled_leciv.html#/leciva/"
               ++ format_value kod_sukl).

(** What [d[:5000]] raises for a dict [d]: [TypeError] up to Python 3.11
    (a slice is not hashable), [KeyError] from 3.12 on. *)
Variable unsliceable : exn.

(** The composition text of [_format_drug_detail]:
    [slozeni = doc.get("slozeni", "") or ""], cut when
    [len(slozeni) > 5000]. *)
Definition detail_slozeni (doc : dict) : exn + jvalue :=
  let slozeni := dict_get_or (lit "slozeni") (JStr []) doc in
  let slozeni := if jtruthy slozeni then slozeni else JStr [] in
  match slozeni with
  | JStr s =>
    if 5000 <? length s
    then inr (JStr (firstn 5000 s ++ lit " … (zkráceno)"))
    else inr slozeni
  | JList l => if 5000 <? length l then inl TypeError else inr slozeni
  | JObj o => if 5000 <? length o then inl unsliceable else inr slozeni
  | _ => inl TypeError
  end.

(** [_format_drug_detail] *)
Definition _format_drug_detail (doc : dict) : exn + jvalue :=
  match detail_slozeni doc with
  | inl e => inl e
  | inr slozeni =>
    inr (JObj
      [ (lit "kodSukl", dict_get_or (lit "kodSukl") (JStr []) doc);
        (lit "nazev", dict_get_or (lit "nazev") (JStr []) doc);
        (lit "doplnekNazvu", dict_get_or (lit "doplnekNazvu") (JStr []) doc);
        (lit "sila", dict_get_or (lit "sila") (JStr []) doc);
        (lit "forma", dict_get_or (lit "formaNazev") (JStr []) doc);
        (lit "baleni", dict_get_or (lit "baleni") (JStr []) doc);
        (lit "cesta", dict_get_or (lit "cestaNazev") (JStr []) doc);
        (lit "obal", dict_get_or (lit "obalNazev") (JStr []) doc);
        (lit "drzitel", dict_get_or (lit "drzitelNazev") (JStr []) doc);
        (lit "drzitelZeme", dict_get_or (lit "drzitelZeme") (JStr []) doc);
        (lit "regCislo", dict_get_or (lit "regCislo") (JStr []) doc);
        (lit "stavRegistrace",
         dict_get_or (lit "stavRegistraceNazev") (JStr []) doc);
        (lit "atc", dict_get_or (lit "atc") (JStr []) doc);
        (lit "atcNazev", dict_get_or (lit "atcNazev") (JStr []) doc);
        (lit "ucinneLatky", dict_get_or (lit "ucinneLatky") (JStr []) doc);
        (lit "vydej", dict_get_or (lit "vydejNazev") (JStr []) doc);
        (lit "dodavky",
         ano_ne (is_str (dict_get_or (lit "dodavky") JNull doc) (lit "1")));
        (lit "indikace",
         dict_get_or (lit "indikacniSkupinaNazev") (JStr []) doc);
        (lit "doping", dict_get_or (lit "doping") (JBool false) doc);
        (lit "ean", dict_get_or (lit "ean") (JStr []) doc);
        (lit "datumRegistrace",
         dict_get_or (lit "datumRegistrace") (JStr []) doc);
        (lit "platnostDo", dict_get_or (lit "platnostDo") (JStr []) doc);
        (lit "suklUrl",
         _build_detail_url (dict_get_or (lit "kodSukl") JNull doc));
        (lit "slozeni", slozeni);
        (lit "synonyma", dict_get_or (lit "synonyma") (JStr []) doc) ])
  end.

End Detail.

End Drugs.

(** ** routes/pharmacies.py: shaping of documents *)

Module Pharmacies.

Definition DETAIL_FIELDS : list str :=
  map lit
    [ "kodPracoviste"; "kodLekarny"; "icz"; "ico";
      "nazev"; "ulice"; "mesto"; "psc"; "adresa";
      "lekarnik"; "www"; "email"; "telefon";
      "typLekarnyNazev"; "zasilkovyProdej"; "pohotovost";
      "pracovniDoba"; "popisek" ]%string.

(** [_format_pharmacy_summary] *)
Definition _format_pharmacy_summary (doc : jvalue) : exn + jvalue :=
  match doc with
  | JObj doc =>
    inr (JObj
      [ (lit "kodPracoviste", dict_get_or (lit "kodPracoviste") (JStr []) doc);
        (lit "nazev", dict_get_or (lit "nazev") (JStr []) doc);
        (lit "adresa", dict_get_or (lit "adresa") (JStr []) doc);
        (lit "mesto", dict_get_or (lit "mesto") (JStr []) doc);
        (lit "psc", dict_get_or (lit "psc") (JStr []) doc);
        (lit "telefon", dict_get_or (lit "telefon") (JStr []) doc);
        (lit "typ", dict_get_or (lit "typLekarnyNazev") (JStr []) doc);
        (lit "pohotovost",
         ano_ne (jtruthy (dict_get_or (lit "pohotovost") JNull doc)));
        (lit "zasilkovyProdej",
         ano_ne (jtruthy (dict_get_or (lit "zasilkovyProdej") JNull doc)));
        (lit "lekarnik", dict_get_or (lit "lekarnik") (JStr []) doc) ])
  | _ => inl AttributeError
  end.

(** [_format_pharmacy_detail] *)
Definition _format_pharmacy_detail (doc : dict) : jvalue :=
  JObj
    [ (lit "kodPracoviste", dict_get_or (lit "kodPracoviste") (JStr []) doc);
      (lit "kodLekarny", dict_get_or (lit "kodLekarny") (JStr []) doc);
      (lit "icz", dict_get_or (lit "icz") (JStr []) doc);
      (lit "ico", dict_get_or (lit "ico") (JStr []) doc);
      (lit "nazev", dict_get_or (lit "nazev") (JStr []) doc);
      (lit "ulice", dict_get_or (lit "ulice") (JStr []) doc);
      (lit "mesto", dict_get_or (lit "mesto") (JStr []) doc);
      (lit "psc", dict_get_or (lit "psc") (JStr []) doc);
      (lit "adresa", dict_get_or (lit "adresa") (JStr []) doc);
      (lit "lekarnik", dict_get_or (lit "lekarnik") (JStr []) doc);
      (lit "www", dict_get_or (lit "www") (JStr []) doc);
      (lit "email", dict_get_or (lit "email") (JStr []) doc);
      (lit "telefon", dict_get_or (lit "telefon") (JStr []) doc);
      (lit "typ", dict_get_or (lit "typLekarnyNazev") (JStr []) doc);
      (lit "pohotovost",
       ano_ne (jtruthy (dict_get_or (lit "pohotovost") JNull doc)));
      (lit "zasilkovyProdej",
       ano_ne (jtruthy (dict_get_or (lit "zasilkovyProdej") JNull doc)));
      (lit "pracovniDoba", dict_get_or (lit "pracovniDoba") (JStr []) doc) ].

End Pharmacies.

(** What one [if] block of a filter builder may add to an empty list:
    nothing, or one clause, which is not the empty string. *)
Definition at_most_one_clause (added : list str) : Prop :=
  added = [] \/ exists clause, added = [clause] /\ clause <> [].

(** An event that, if it is a request, is the request [r]. *)
Definition is_request (r : request) (ev : event) : Prop :=
  match ev with
  | EvSend r' => r' = r
  | _ => True
  end.

(** The URL of a search query. *)
Definition search_url (index : str) : str :=
  lit "/indexes/" ++ index ++ lit "/docs/search?api-version=2024-07-01".

(** A document that is a JSON object. *)
Definition is_object (doc : jvalue) : Prop := exists o, doc = JObj o.

(** The answer of an endpoint to a failure of the search client or to any
    other exception: status 502 or 500 with a fixed text. *)
Definition canned_failure (search_failed : str) (r : http_response) : Prop :=
  r = JSONResponse 502 (error_content search_failed)
  \/ r = JSONResponse 500 (error_content (lit "Interní chyba serveru.")).

(** The answer to an exception of an endpoint's body: for a
    [SearchError], whatever its status and detail, the endpoint's own text
    with status 502; for any other exception the common text with status
    500. *)
Definition failure_answer (search_failed : str) (e : exn) : http_response :=
  match e with
  | SearchError _ _ => JSONResponse 502 (error_content search_failed)
  | _ => JSONResponse 500 (error_content (lit "Interní chyba serveru."))
  end.

(** The answer of a search endpoint to what the search client gave: the
    documents under [value] (none when the key is missing), each shaped by
    [format], listed under [items_key], and [total], which is
    [@odata.count] or else the number of items. *)
Definition search_answer (search_failed items_key : str)
    (format : jvalue -> exn + jvalue) (given : exn + dict) : http_response :=
  match given with
  | inl e => failure_answer search_failed e
  | inr result =>
    match iterate (dict_get_or (lit "value") (JList []) result) with
    | inl e => failure_answer search_failed e
    | inr docs =>
      match format_all format docs with
      | inl e => failure_answer search_failed e
      | inr items =>
        Payload
          (JObj
             [ (lit "total",
                dict_get_or (lit "@odata.count")
                  (JInt (Z.of_nat (length items))) result);
               (items_key, JList items) ])
      end
    end
  end.

(** The answer of a detail endpoint to what the lookup gave: the shaped
    document, or status 404 with the text [not_found] when there is
    none. *)
Definition detail_answer (search_failed not_found : str)
    (format : dict -> exn + jvalue) (given : exn + option dict)
  : http_response :=
  match given with
  | inl e => failure_answer search_failed e
  | inr None => JSONResponse 404 (error_content not_found)
  | inr (Some doc) =>
    match format doc with
    | inl e => failure_answer search_failed e
    | inr body => Payload body
    end
  end.

(** An event that, if it is a request, is a lookup of [key] in [index]. *)
Definition lookup_of (index key : str) (ev : event) : Prop :=
  match ev with
  | EvSend r => r_method r = GET /\ r_url r = document_url index key
  | _ => True
  end.

(* ================================================================== *)
(** * routes/documents.py: the document search                          *)
(* ================================================================== *)

Definition DOCUMENTS_INDEX : str := lit "sukl-documents".
Definition DOCUMENTS_SEMANTIC_CONFIG : str := lit "sukl-semantic".
Definition SELECT_FIELDS : list str :=
  map lit ["chunk_id"; "parent_id"; "chunk"; "title"; "drug_codes"]%string.

Section DocumentSearch.

(** The shaping of the backend's answer into the response (the chunks,
    the total and the extractive answers), which rounds and compares
    floating-point scores; it runs inside the [try] block. *)
Variable format_response : dict -> exn + jvalue.

(** [search_documents]; [vector_fields] and [vectorizer] are left at the
    defaults of [hybrid_search]. *)
Definition search_documents (E : env) (q : str) (max_results : Z)
  : world -> http_response * world :=
  handle
    (result <-
       hybrid_search E DOCUMENTS_INDEX q (lit "chunk_vector")
         (lit "openai-vectorizer") (Some SELECT_FIELDS) max_results
         (Some DOCUMENTS_SEMANTIC_CONFIG) (Some (lit "extractive|count-3"))
         (Some (lit "extractive|highlight-true")) ;;
     response <- lift (format_response result) ;;
     ret (Payload response))
    (lit "Vyhledávání v SPC dokumentech selhalo, zkuste to prosím znovu.").

End DocumentSearch.

(* ================================================================== *)
(** * main.py: the request middleware                                   *)
(* ================================================================== *)

Module Main.

(** [hmac.compare_digest(a, b)] on two [str]: it compares ASCII strings
    and raises [TypeError] when either holds another character. *)
Definition compare_digest (a b : str) : exn + bool :=
  if forallb is_ascii a && forallb is_ascii b then inr (eqb a b)
  else inl TypeError.

(** [request.headers.get("api-key") or
     request.query_params.get("api_key") or ""] *)
Definition provided_key (header_key query_key : option str) : str :=
  if truthy_opt header_key then
    match header_key with Some h => h | None => [] end
  else if truthy_opt query_key then
    match query_key with Some q => q | None => [] end
  else [].

(** [s.split(",")[0]] *)
Fixpoint before_comma (s : str) : str :=
  match s with
  | [] => []
  | c :: s' => if (c =? 44)%N then [] else c :: before_comma s'
  end.

(** The [caller] of the request log:
    [request.headers.get("x-forwarded-for", "").split(",")[0].strip()
     or "unknown"] *)
Definition caller_of (x_forwarded_for : option str) : str :=
  let first :=
    strip (before_comma
             (match x_forwarded_for with Some v => v | None => [] end)) in
  if truthy first then first else lit "unknown".

Section Middleware.

(** The framework's responses: the 401 answer built by the middleware,
    and the setting of [X-Request-Id], [X-Content-Type-Options] and
    [X-Frame-Options] on the handler's response. *)
Variable response : Type.
Variable unauthorized : response.
Variable with_headers : str -> response -> response.

(** [request_middleware]; [request_id] is the fresh UUID, [call_next] the
    rest of the application. *)
Definition request_middleware (path expected_key : str)
    (header_key query_key : option str) (request_id : str)
    (call_next : world -> response * world)
  : world -> (exn + response) * world :=
  fun w =>
    let served : (exn + response) * world :=
      (inr (with_headers request_id (fst (call_next w))),
       snd (call_next w)) in
    if negb (eqb path (lit "/health")) then
      if truthy expected_key then
        match compare_digest (provided_key header_key query_key)
                expected_key with
        | inl e => (inl e, w)
        | inr equal => if negb equal then (inr unauthorized, w) else served
        end
      else served
    else served.

End Middleware.

End Main.

(* ================================================================== *)
(** * logger.py: the entries of the structured log                      *)
(* ================================================================== *)

Module Logger.

Inductive level := DEBUG | INFO | WARNING | ERROR.

(** [record.levelname] *)
Definition levelname (l : level) : str :=
  match l with
  | DEBUG => lit "DEBUG"
  | INFO => lit "INFO"
  | WARNING => lit "WARNING"
  | ERROR => lit "ERROR"
  end.

Definition is_none (v : jvalue) : bool :=
  match v with JNull => true | _ => false end.

(** [{k: v for k, v in kwargs.items() if v is not None}] of
    [StructuredLogger._log] *)
Definition extra_of (kwargs : dict) : dict :=
  filter (fun kv => negb (is_none (snd kv))) kwargs.

(** [entry.update(extra)] *)
Definition dict_update (entry extra : dict) : dict :=
  fold_left (fun acc kv => dict_set (fst kv) (snd kv) acc) extra entry.

(** The entry that [JSONFormatter.format] builds, at time [ts], for a
    record of level [l] and message [msg] whose [_extra] is [extra]. *)
Definition format_entry (ts : str) (l : level) (msg : str) (extra : dict)
  : dict :=
  let entry :=
    [ (lit "ts", JStr ts);
      (lit "level", JStr (lower_ascii (levelname l)));
      (lit "msg", JStr msg) ] in
  dict_update entry extra.

(** Python's binding of [**kwargs] in a call that also gives [params]
    positionally: a keyword naming one of them is a second value for
    that parameter, a [TypeError]. *)
Definition bound_twice (params : list str) (kwargs : dict) : bool :=
  existsb (fun kv => existsb (eqb (fst kv)) params) kwargs.

(** [StructuredLogger._log(level, msg, **kwargs)], up to the record's
    [_extra]. *)
Definition _log (kwargs : dict) : exn + dict :=
  if bound_twice [lit "self"; lit "level"; lit "msg"] kwargs
  then inl TypeError
  else inr (extra_of kwargs).

(** [log.debug], [log.info], [log.warn] and [log.error], for the level
    [l] each passes on: [def info(self, msg, **kwargs):
    self._log(logging.INFO, msg, **kwargs)], and the entry the formatter
    builds for the record. *)
Definition log_entry (ts : str) (l : level) (msg : str) (kwargs : dict)
  : exn + dict :=
  if bound_twice [lit "self"; lit "msg"] kwargs then inl TypeError
  else
    match _log kwargs with
    | inl e => inl e
    | inr extra => inr (format_entry ts l msg extra)
    end.

End Logger.

Section Routes.

(** The Unicode tables behind [str.upper], [str.lower] and [str.isdigit],
    and the response formatters, on which the properties below do not
    depend. *)
Variable upper lower : str -> str.
Variable isdigit_char : char -> bool.
Variable _format_drug_detail : dict -> exn + jvalue.
Variable _format_pharmacy_summary : jvalue -> exn + jvalue.

(** [s.isdigit()] *)
Definition isdigit (s : str) : bool := truthy s && forallb isdigit_char s.

(** ** routes/drugs.py *)

Definition DRUGS_INDEX : str := lit "sukl-drugs".

Definition DRUG_DETAIL_FIELDS : list str :=
  map lit
    [ "kodSukl"; "nazev"; "doplnekNazvu"; "sila";
      "formaNazev"; "baleni"; "cestaNazev"; "obalNazev";
      "drzitelNazev"; "drzitelZeme"; "regCislo";
      "stavRegistraceNazev"; "atc"; "atcNazev"; "ucinneLatky";
      "vydejNazev"; "dodavky"; "indikacniSkupinaNazev";
      "doping"; "ean"; "datumRegistrace"; "platnostDo";
      "spcSoubor"; "pilSoubor"; "slozeni"; "synonyma"; "popisek" ]%string.

Definition DISPENSING_MAP : list (str * str) :=
  [ (lit "prescription", lit "R");
    (lit "otc", lit "F");
    (lit "restricted", lit "L");
    (lit "reserved", lit "V");
    (lit "otc-restricted", lit "P") ].

(** [_build_drug_filters] appends to the list [parts], one [if] block per
    parameter; each block is a step on [parts]. *)

(** [if atc: ...] *)
Definition step_atc (atc : option str) (parts : list str) : list str :=
  match atc with
  | Some atc =>
    if truthy atc then
      let atc_clean := upper (strip atc) in
      if negb (fullmatch_AZ09 atc_clean) then parts
      else if length atc_clean <? 7
      then parts ++ [lit "search.ismatch('" ++ atc_clean ++ lit "*', 'atc')"]
      else parts ++ [lit "atc eq '" ++ atc_clean ++ lit "'"]
    else parts
  | None => parts
  end.

(** [if holder: ...] *)
Definition step_holder (holder : option str) (parts : list str) : list str :=
  match holder with
  | Some holder =>
    if truthy holder then
      let safe_holder := replace (lit "'") (lit "''") holder in
      parts ++ [lit "search.ismatch('" ++ safe_holder
                  ++ lit "', 'drzitelNazev')"]
    else parts
  | None => parts
  end.

(** [if dispensing: ...] *)
Definition step_dispensing (dispensing : option str) (parts : list str)
  : list str :=
  match dispensing with
  | Some dispensing =>
    if truthy dispensing then
      match table_get (lower dispensing) DISPENSING_MAP with
      | Some code =>
        if truthy code
        then parts ++ [lit "vydej eq '" ++ code ++ lit "'"]
        else parts
      | None => parts
      end
    else parts
  | None => parts
  end.

(** [if doping is not None: ...] *)
Definition step_doping (doping : option bool) (parts : list str) : list str :=
  match doping with
  | Some doping => parts ++ [lit "doping eq " ++ lower (str_of_bool doping)]
  | None => parts
  end.

(** [if available is not None: ...] *)
Definition step_available (available : option bool) (parts : list str)
  : list str :=
  match available with
  | Some available =>
    if available
    then parts ++ [lit "dodavky eq '1'"]
    else parts ++ [lit "dodavky eq '0'"]
  | None => parts
  end.

(** [if form: ...] *)
Definition step_form (form : option str) (parts : list str) : list str :=
  match form with
  | Some form =>
    if truthy form then
      let safe_form := replace (lit "'") (lit "''") form in
      parts ++ [lit "search.ismatch('" ++ safe_form
                  ++ lit "', 'formaNazev')"]
    else parts
  | None => parts
  end.

(** The list [parts] of [_build_drug_filters] just before the final join. *)
Definition drug_filter_parts (atc holder dispensing : option str)
    (doping available : option bool) (form : option str) : list str :=
  let parts : list str := [] in
  let parts := step_atc atc parts in
  let parts := step_holder holder parts in
  let parts := step_dispensing dispensing parts in
  let parts := step_doping doping parts in
  let parts := step_available available parts in
  let parts := step_form form parts in
  parts.

(** [_build_drug_filters] *)
Definition _build_drug_filters (atc holder dispensing : option str)
    (doping available : option bool) (form : option str) : option str :=
  join_parts (drug_filter_parts atc holder dispensing doping available form).

(** [get_drug_detail] *)
Definition get_drug_detail (E : env) (kod_sukl : str)
  : world -> http_response * world :=
  handle
    (let key := zfill 7 (strip kod_sukl) in
     if negb (isdigit key) then
       ret (JSONResponse 400 (error_content (lit "Kód SÚKL musí být číslo.")))
     else
       doc <- get_document E DRUGS_INDEX key (Some DRUG_DETAIL_FIELDS) ;;
       match doc with
       | None =>
         ret (JSONResponse 404
                (error_content
                   (lit "Léčivý přípravek s kódem " ++ kod_sukl
                      ++ lit " nebyl nalezen.")))
       | Some doc =>
         r <- lift (_format_drug_detail doc) ;;
         ret (Payload r)
       end)
    (lit "Načtení detailu léku selhalo, zkuste to prosím znovu.").

(** ** routes/pharmacies.py *)

Definition PHARMACIES_INDEX : str := lit "sukl-pharmacies".
Definition PHARMACIES_SEMANTIC_CONFIG : str := lit "sukl-pharmacies-semantic".

Definition PHARMACY_SEARCH_FIELDS : list str :=
  map lit
    [ "kodPracoviste"; "nazev"; "adresa"; "mesto"; "psc";
      "telefon"; "typLekarnyNazev"; "pohotovost";
      "zasilkovyProdej"; "lekarnik" ]%string.

Definition PHARMACY_TYPE_MAP : list (str * str) :=
  [ (lit "pharmacy", lit "Z");
    (lit "hospital", lit "NO");
    (lit "outlet", lit "V") ].

(** The [if] blocks of [_build_pharmacy_filters], as steps on [parts]. *)

(** [if city: ...] *)
Definition step_city (city : option str) (parts : list str) : list str :=
  match city with
  | Some city =>
    if truthy city then
      let safe_city := replace (lit "'") (lit "''") city in
      parts ++ [lit "mesto eq '" ++ safe_city ++ lit "'"]
    else parts
  | None => parts
  end.

(** [if emergency is not None: ...] *)
Definition step_emergency (emergency : option bool) (parts : list str)
  : list str :=
  match emergency with
  | Some emergency =>
    parts ++ [lit "pohotovost eq " ++ lower (str_of_bool emergency)]
  | None => parts
  end.

(** [if mail_order is not None: ...] *)
Definition step_mail_order (mail_order : option bool) (parts : list str)
  : list str :=
  match mail_order with
  | Some mail_order =>
    parts ++ [lit "zasilkovyProdej eq " ++ lower (str_of_bool mail_order)]
  | None => parts
  end.

(** [if pharmacy_type: ...] *)
Definition step_pharmacy_type (pharmacy_type : option str) (parts : list str)
  : list str :=
  match pharmacy_type with
  | Some pharmacy_type =>
    if truthy pharmacy_type then
      match table_get (lower pharmacy_type) PHARMACY_TYPE_MAP with
      | Some code =>
        if truthy code
        then parts ++ [lit "typLekarny eq '" ++ code ++ lit "'"]
        else parts
      | None => parts
      end
    else parts
  | None => parts
  end.

(** [if postal_code: ...] *)
Definition step_postal_code (postal_code : option str) (parts : list str)
  : list str :=
  match postal_code with
  | Some postal_code =>
    if truthy postal_code then
      let safe_psc := strip (replace (lit "'") (lit "''") postal_code) in
      parts ++ [lit "psc eq '" ++ safe_psc ++ lit "'"]
    else parts
  | None => parts
  end.

(** The list [parts] of [_build_pharmacy_filters] before the final join. *)
Definition pharmacy_filter_parts (city : option str)
    (emergency mail_order : option bool)
    (pharmacy_type postal_code : option str) : list str :=
  let parts : list str := [] in
  let parts := step_city city parts in
  let parts := step_emergency emergency parts in
  let parts := step_mail_order mail_order parts in
  let parts := step_pharmacy_type pharmacy_type parts in
  let parts := step_postal_code postal_code parts in
  parts.

(** [_build_pharmacy_filters] *)
Definition _build_pharmacy_filters (city : option str)
    (emergency mail_order : option bool)
    (pharmacy_type postal_code : option str) : option str :=
  join_parts
    (pharmacy_filter_parts city emergency mail_order pharmacy_type postal_code).

(** [search_pharmacies] *)
Definition search_pharmacies (E : env) (q city : option str)
    (emergency mail_order : option bool)
    (pharmacy_type postal_code : option str) (max_results : Z)
  : world -> http_response * world :=
  handle
    (if negb (truthy_opt q) && negb (truthy_opt city)
        && negb (truthy_obool emergency) && negb (truthy_obool mail_order)
        && negb (truthy_opt pharmacy_type) && negb (truthy_opt postal_code)
     then
       ret (JSONResponse 400
              (error_content
                 (lit "Zadejte alespoň jeden parametr: q, city, emergency, mailOrder, type, nebo postalCode.")))
     else
       let search_text :=
         match q with
         | Some q' => if truthy q' then q' else lit "*"
         | None => lit "*"
         end in
       let filters :=
         _build_pharmacy_filters city emergency mail_order
           pharmacy_type postal_code in
       result <-
         search E PHARMACIES_INDEX search_text filters
           (Some PHARMACY_SEARCH_FIELDS) max_results 0 None
           (if truthy_opt q then lit "semantic" else lit "simple")
           (Some PHARMACIES_SEMANTIC_CONFIG) true None None ;;
       docs <-
         lift (iterate
                 (match dict_get (lit "value") result with
                  | Some v => v
                  | None => JList []
                  end)) ;;
       pharmacies <- lift (format_all _format_pharmacy_summary docs) ;;
       ret (Payload
              (JObj
                 [ (lit "total",
                    match dict_get (lit "@odata.count") result with
                    | Some n => n
                    | None => JInt (Z.of_nat (length pharmacies))
                    end);
                   (lit "pharmacies", JList pharmacies) ])))
    (lit "Vyhledávání lékáren selhalo, zkuste to prosím znovu.").

(** ** The remaining endpoints *)

(** [search_drugs] of routes/drugs.py; [q] is required by the web layer
    to be non-empty and [max_results] to lie between 1 and 50. *)
Definition search_drugs (E : env) (q : str)
    (atc holder dispensing : option str) (doping available : option bool)
    (form : option str) (max_results : Z)
  : world -> http_response * world :=
  handle
    (let filters :=
       _build_drug_filters atc holder dispensing doping available form in
     result <-
       search E DRUGS_INDEX q filters (Some Drugs.SEARCH_FIELDS)
         max_results 0 None (lit "semantic")
         (Some Drugs.SEMANTIC_CONFIG) true None None ;;
     docs <- lift (iterate (dict_get_or (lit "value") (JList []) result)) ;;
     drugs <- lift (format_all Drugs._format_drug_summary docs) ;;
     ret (Payload
            (JObj
               [ (lit "total",
                  dict_get_or (lit "@odata.count")
                    (JInt (Z.of_nat (length drugs))) result);
                 (lit "drugs", JList drugs) ])))
    (lit "Vyhledávání léků selhalo, zkuste to prosím znovu.").

(** [get_pharmacy_detail] of routes/pharmacies.py *)
Definition get_pharmacy_detail (E : env) (kod_pracoviste : str)
  : world -> http_response * world :=
  handle
    (let key := strip kod_pracoviste in
     if negb (isdigit key) then
       ret (JSONResponse 400
              (error_content (lit "Kód pracoviště musí být číslo.")))
     else
       doc <-
         get_document E PHARMACIES_INDEX key (Some Pharmacies.DETAIL_FIELDS) ;;
       match doc with
       | None =>
         ret (JSONResponse 404
                (error_content
                   (lit "Lékárna s kódem " ++ kod_pracoviste
                      ++ lit " nebyla nalezena.")))
       | Some doc => ret (Payload (Pharmacies._format_pharmacy_detail doc))
       end)
    (lit "Načtení detailu lékárny selhalo, zkuste to prosím znovu.").

(* ================================================================== *)
(** * Properties of the routes                                          *)
(* ================================================================== *)

(** ** Strings *)

Lemma eqb_singleton (a b : char) : eqb [a] [b] = (b =? a)%N.
Proof.
  unfold eqb. destruct (list_eq_dec N.eq_dec [a] [b]) as [H|H].
  - inversion H. symmetry. apply N.eqb_refl.
  - destruct (N.eqb_spec b a) as [->|Hne]; [contradiction H|]; reflexivity.
Qed.

(** [s.replace("'", "''")] doubles every single quote. *)
Lemma replace_quote_doubles (s : str) :
  replace (lit "'") (lit "''") s = double_quotes s.
Proof.
  change (lit "'") with [39%N]. change (lit "''") with [39%N; 39%N].
  unfold replace.
  induction s as [|c s IH]; [reflexivity|].
  cbn [replace_from double_quotes]. unfold is_prefix.
  cbn [length firstn]. rewrite eqb_singleton.
  destruct (c =? 39)%N; cbn [length app]; rewrite IH; reflexivity.
Qed.

Lemma double_quotes_count (s : str) :
  count_occ N.eq_dec (double_quotes s) 39%N
  = 2 * count_occ N.eq_dec s 39%N.
Proof.
  induction s as [|c s IH]; [reflexivity|].
  cbn [double_quotes].
  destruct (N.eqb_spec c 39) as [->|Hne].
  - rewrite !count_occ_cons_eq by reflexivity. rewrite IH. unfold char. lia.
  - rewrite !count_occ_cons_neq by exact Hne. exact IH.
Qed.

Lemma digit_not_space (c : char) : is_ascii_digit c = true -> isspace c = false.
Proof.
  unfold is_ascii_digit, isspace. intros H.
  apply andb_true_iff in H. destruct H as [H1 H2].
  apply N.leb_le in H1. apply N.leb_le in H2.
  repeat match goal with
         | |- context [(?a <=? ?b)%N] => destruct (N.leb_spec a b); try lia
         | |- context [(?a =? ?b)%N] => destruct (N.eqb_spec a b); try lia
         end;
  try reflexivity.
Qed.

Lemma lstrip_no_space (s : str) :
  Forall (fun c => isspace c = false) s -> lstrip s = s.
Proof.
  intros H. destruct H as [|c s Hc _]; [reflexivity|].
  simpl. rewrite Hc. reflexivity.
Qed.

Lemma strip_no_space (s : str) :
  Forall (fun c => isspace c = false) s -> strip s = s.
Proof.
  intros H. unfold strip, rstrip.
  rewrite (lstrip_no_space _ H).
  rewrite lstrip_no_space by (apply Forall_rev; exact H).
  apply rev_involutive.
Qed.

Lemma fullmatch_AZ09_spec (s : str) :
  fullmatch_AZ09 s = true
  <-> s <> [] /\
      Forall (fun c => (65 <= c <= 90)%N \/ (48 <= c <= 57)%N) s.
Proof.
  unfold fullmatch_AZ09. rewrite andb_true_iff, forallb_forall, Forall_forall.
  split.
  - intros [Ht Hall]. split.
    + destruct s; [discriminate Ht | discriminate].
    + intros c Hc. specialize (Hall c Hc). unfold in_AZ09 in Hall.
      apply orb_true_iff in Hall.
      destruct Hall as [H|H]; apply andb_true_iff in H; destruct H as [H1 H2];
        apply N.leb_le in H1; apply N.leb_le in H2; [left | right]; lia.
  - intros [Hne Hall]. split.
    + destruct s; [contradiction Hne; reflexivity | reflexivity].
    + intros c Hc. specialize (Hall c Hc). unfold in_AZ09.
      apply orb_true_iff.
      destruct Hall as [[H1 H2]|[H1 H2]]; [left | right];
        apply andb_true_iff; split; apply N.leb_le; assumption.
Qed.

Lemma fullmatch_AZ09_outside (s : str) (c : char) :
  In c s -> ~ ((65 <= c <= 90)%N \/ (48 <= c <= 57)%N) ->
  fullmatch_AZ09 s = false.
Proof.
  intros Hin Hout. destruct (fullmatch_AZ09 s) eqn:Hm; [|reflexivity].
  apply fullmatch_AZ09_spec in Hm. destruct Hm as [_ Hall].
  rewrite Forall_forall in Hall. contradiction (Hout (Hall c Hin)).
Qed.


(** ** The filter builders *)

(** Every step only appends: what it adds does not depend on the clauses
    already there. *)
Ltac step_appends :=
  intros;
  repeat match goal with
         | |- context [match ?x with _ => _ end] => destruct x
         end;
  rewrite ?app_nil_r; reflexivity.

Lemma step_atc_app (atc : option str) (parts : list str) :
  step_atc atc parts = parts ++ step_atc atc [].
Proof. unfold step_atc. step_appends. Qed.

Lemma step_holder_app (holder : option str) (parts : list str) :
  step_holder holder parts = parts ++ step_holder holder [].
Proof. unfold step_holder. step_appends. Qed.

Lemma step_dispensing_app (dispensing : option str) (parts : list str) :
  step_dispensing dispensing parts = parts ++ step_dispensing dispensing [].
Proof. unfold step_dispensing. step_appends. Qed.

Lemma step_doping_app (doping : option bool) (parts : list str) :
  step_doping doping parts = parts ++ step_doping doping [].
Proof. unfold step_doping. step_appends. Qed.

Lemma step_available_app (available : option bool) (parts : list str) :
  step_available available parts = parts ++ step_available available [].
Proof. unfold step_available. step_appends. Qed.

Lemma step_form_app (form : option str) (parts : list str) :
  step_form form parts = parts ++ step_form form [].
Proof. unfold step_form. step_appends. Qed.

Lemma step_city_app (city : option str) (parts : list str) :
  step_city city parts = parts ++ step_city city [].
Proof. unfold step_city. step_appends. Qed.

Lemma step_emergency_app (emergency : option bool) (parts : list str) :
  step_emergency emergency parts = parts ++ step_emergency emergency [].
Proof. unfold step_emergency. step_appends. Qed.

Lemma step_mail_order_app (mail_order : option bool) (parts : list str) :
  step_mail_order mail_order parts = parts ++ step_mail_order mail_order [].
Proof. unfold step_mail_order. step_appends. Qed.

Lemma step_pharmacy_type_app (pharmacy_type : option str) (parts : list str) :
  step_pharmacy_type pharmacy_type parts
  = parts ++ step_pharmacy_type pharmacy_type [].
Proof. unfold step_pharmacy_type. step_appends. Qed.

Lemma step_postal_code_app (postal_code : option str) (parts : list str) :
  step_postal_code postal_code parts
  = parts ++ step_postal_code postal_code [].
Proof. unfold step_postal_code. step_appends. Qed.

(** The clauses come in the order of the [if] blocks. *)
Lemma drug_filter_parts_concat (atc holder dispensing : option str)
    (doping available : option bool) (form : option str) :
  drug_filter_parts atc holder dispensing doping available form
  = step_atc atc [] ++ step_holder holder [] ++ step_dispensing dispensing []
    ++ step_doping doping [] ++ step_available available []
    ++ step_form form [].
Proof.
  unfold drug_filter_parts. cbv zeta.
  rewrite step_form_app, step_available_app, step_doping_app,
    step_dispensing_app, step_holder_app.
  rewrite <- !app_assoc. reflexivity.
Qed.

Lemma pharmacy_filter_parts_concat (city : option str)
    (emergency mail_order : option bool)
    (pharmacy_type postal_code : option str) :
  pharmacy_filter_parts city emergency mail_order pharmacy_type postal_code
  = step_city city [] ++ step_emergency emergency []
    ++ step_mail_order mail_order [] ++ step_pharmacy_type pharmacy_type []
    ++ step_postal_code postal_code [].
Proof.
  unfold pharmacy_filter_parts. cbv zeta.
  rewrite step_postal_code_app, step_pharmacy_type_app, step_mail_order_app,
    step_emergency_app.
  rewrite <- !app_assoc. reflexivity.
Qed.

(** C3.  For a provided ATC value, with [atc_clean] its stripped and
    upper-cased form: if [atc_clean] is a non-empty string over [A-Z0-9]
    of length at least 7 the builder emits [atc eq '<atc_clean>']; if it
    is such a string of length below 7 the builder emits
    [search.ismatch('<atc_clean>*', 'atc')]; if it has a character outside
    [A-Z0-9] the builder emits nothing for it.  The other parameters
    contribute what they contribute without an ATC value, and the builder
    is a total function: it has no error to raise. *)
Theorem C3_atc_clause_by_length_and_alphabet
    (atc : str) (holder dispensing : option str)
    (doping available : option bool) (form : option str)
    (Hprovided : atc <> []) :
  let atc_clean := upper (strip atc) in
  let alnum := fun c : char => (65 <= c <= 90)%N \/ (48 <= c <= 57)%N in
  let parts :=
    drug_filter_parts (Some atc) holder dispensing doping available form in
  let others :=
    drug_filter_parts None holder dispensing doping available form in
  (atc_clean <> [] -> Forall alnum atc_clean -> 7 <= length atc_clean ->
   parts = (lit "atc eq '" ++ atc_clean ++ lit "'") :: others)
  /\
  (atc_clean <> [] -> Forall alnum atc_clean -> length atc_clean < 7 ->
   parts = (lit "search.ismatch('" ++ atc_clean ++ lit "*', 'atc')") :: others)
  /\
  ((exists c, In c atc_clean /\ ~ alnum c) -> parts = others).
Proof.
  cbv zeta. rewrite !drug_filter_parts_concat.
  assert (truthy atc = true) as Ht
      by (destruct atc; [contradiction Hprovided; reflexivity | reflexivity]).
  unfold step_atc. rewrite Ht.
  split; [|split].
  - intros Hne Hall Hlen.
    rewrite (proj2 (fullmatch_AZ09_spec _) (conj Hne Hall)).
    cbn [negb].
    destruct (Nat.ltb_spec (length (upper (strip atc))) 7) as [Hlt|_]; [lia|].
    reflexivity.
  - intros Hne Hall Hlen.
    rewrite (proj2 (fullmatch_AZ09_spec _) (conj Hne Hall)).
    cbn [negb].
    destruct (Nat.ltb_spec (length (upper (strip atc))) 7) as [_|Hge]; [|lia].
    reflexivity.
  - intros [c [Hin Hout]].
    rewrite (fullmatch_AZ09_outside _ _ Hin Hout). reflexivity.
Qed.

Lemma truthy_nonempty (s : str) : s <> [] -> truthy s = true.
Proof. destruct s; [intros H; contradiction H; reflexivity | reflexivity]. Qed.

(** C2 (amended).  A provided holder name and a provided dosage form each
    yield a [search.ismatch] clause on [drzitelNazev], respectively
    [formaNazev], and a provided pharmacy city yields the equality clause
    [mesto eq '<value>']; in all three the value has every single quote
    doubled. *)
Theorem C2_free_text_values_are_quote_doubled
    (atc holder dispensing form : option str)
    (doping available emergency mail_order : option bool)
    (pharmacy_type postal_code : option str)
    (value : str) (Hprovided : value <> []) :
  In (ismatch_clause (double_quotes value) (lit "drzitelNazev"))
     (drug_filter_parts atc (Some value) dispensing doping available form)
  /\
  In (ismatch_clause (double_quotes value) (lit "formaNazev"))
     (drug_filter_parts atc holder dispensing doping available (Some value))
  /\
  In (lit "mesto eq '" ++ double_quotes value ++ lit "'")
     (pharmacy_filter_parts (Some value) emergency mail_order
        pharmacy_type postal_code).
Proof.
  pose proof (truthy_nonempty _ Hprovided) as Ht.
  rewrite !drug_filter_parts_concat, pharmacy_filter_parts_concat.
  unfold step_holder, step_form, step_city.
  rewrite Ht, replace_quote_doubles. cbn [app].
  split; [|split].
  - apply in_or_app. right. left. reflexivity.
  - do 5 (apply in_or_app; right). left. reflexivity.
  - left. reflexivity.
Qed.


(** ** The pharmacy search *)

(** C9.  A pharmacy search whose only criterion is [emergency=false] or
    [mailOrder=false] (or both), with [q], [city], [type] and [postalCode]
    absent, is answered with the 400 "at least one parameter" response, and
    neither the credential source nor the backend is contacted; yet the
    filter builder does have a clause for a flag that is [false]. *)
Theorem C9_false_flag_alone_is_rejected
    (E : env) (emergency mail_order : option bool) (max_results : Z)
    (w : world)
    (Hfalse : emergency = Some false \/ mail_order = Some false)
    (Hemergency : emergency <> Some true)
    (Hmail_order : mail_order <> Some true) :
  search_pharmacies E None None emergency mail_order None None max_results w
  = (JSONResponse 400
       (error_content
          (lit "Zadejte alespoň jeden parametr: q, city, emergency, mailOrder, type, nebo postalCode.")),
     w)
  /\
  (emergency = Some false ->
   In (lit "pohotovost eq " ++ lower (str_of_bool false))
      (pharmacy_filter_parts None emergency mail_order None None))
  /\
  (mail_order = Some false ->
   In (lit "zasilkovyProdej eq " ++ lower (str_of_bool false))
      (pharmacy_filter_parts None emergency mail_order None None)).
Proof.
  split; [|split].
  - destruct emergency as [[|]|]; [contradiction Hemergency; reflexivity| |];
      (destruct mail_order as [[|]|];
       [contradiction Hmail_order; reflexivity| |]);
      reflexivity.
  - intros ->. rewrite pharmacy_filter_parts_concat.
    left. reflexivity.
  - intros ->. rewrite pharmacy_filter_parts_concat.
    apply in_or_app. right. apply in_or_app. right. left. reflexivity.
Qed.

(** ** The drug detail lookup *)

(** On ASCII, [str.isdigit] accepts exactly the characters 0 to 9. *)
Hypothesis isdigit_ascii :
  forall c, is_ascii c = true -> isdigit_char c = is_ascii_digit c.

Lemma isdigit_char_of_digit (c : char) :
  is_ascii_digit c = true -> isdigit_char c = true.
Proof.
  intros H. rewrite isdigit_ascii; [exact H|].
  unfold is_ascii_digit in H. apply andb_true_iff in H. destruct H as [_ H].
  apply N.leb_le in H. unfold is_ascii. apply N.ltb_lt. lia.
Qed.

Lemma isdigit_with_sign (c : char) (pre post : str) :
  ((c =? 43) || (c =? 45))%N = true -> isdigit (pre ++ c :: post) = false.
Proof.
  intros Hc. unfold isdigit. rewrite forallb_app. cbn [forallb].
  assert (isdigit_char c = false) as ->.
  { apply orb_true_iff in Hc.
    destruct Hc as [H|H]; apply N.eqb_eq in H; subst c;
      rewrite isdigit_ascii; reflexivity. }
  rewrite andb_false_l, !andb_false_r. reflexivity.
Qed.

(** [zfill] and plain left padding agree on whether the result is all
    digits, and agree on the result when it is. *)
Lemma zfill_left_pad (width : nat) (s : str) :
  isdigit (zfill width s) = isdigit (left_pad_zeros width s)
  /\ (isdigit (zfill width s) = true -> zfill width s = left_pad_zeros width s).
Proof.
  unfold zfill, left_pad_zeros.
  destruct (Nat.leb_spec width (length s)) as [Hle|Hlt].
  - replace (width - length s) with 0 by lia. split; [reflexivity|auto].
  - destruct s as [|c rest].
    + rewrite app_nil_r. split; [reflexivity|auto].
    + destruct ((c =? 43) || (c =? 45))%N eqn:Hc; [|split; [reflexivity|auto]].
      pose proof (isdigit_with_sign c []
                    (repeat 48%N (width - length (c :: rest)) ++ rest) Hc) as H1.
      cbn [app] in H1. rewrite H1.
      rewrite (isdigit_with_sign c _ rest Hc).
      split; [reflexivity | discriminate].
Qed.

Lemma zfill_digits (width : nat) (s : str) :
  Forall (fun c => is_ascii_digit c = true) s ->
  length s < width ->
  zfill width s = repeat 48%N (width - length s) ++ s.
Proof.
  intros Hd Hlt. unfold zfill.
  destruct (Nat.leb_spec width (length s)) as [Hle|_]; [lia|].
  destruct Hd as [|c rest Hc _]; [rewrite app_nil_r; reflexivity|].
  unfold is_ascii_digit in Hc. apply andb_true_iff in Hc.
  destruct Hc as [Hc _]. apply N.leb_le in Hc.
  destruct (N.eqb_spec c 43); [lia|]. destruct (N.eqb_spec c 45); [lia|].
  reflexivity.
Qed.

(** C10.  The key of a drug-detail lookup is the path value stripped and
    then zero-filled to 7 characters.  If that key is not all digits the
    answer is the 400 response and nothing is contacted; otherwise the
    document is looked up under that key.  Whenever the key is looked up
    it is the stripped value left-padded with zeros; in particular up to
    six digits 0-9 are looked up under their 7-character zero-padded
    form. *)
Theorem C10_detail_key_is_stripped_and_zero_padded
    (E : env) (kod_sukl : str) (w : world) :
  let key := zfill 7 (strip kod_sukl) in
  let res := get_drug_detail E kod_sukl w in
  let looked := get_document E DRUGS_INDEX key (Some DRUG_DETAIL_FIELDS) w in
  (isdigit key = false ->
   res = (JSONResponse 400 (error_content (lit "Kód SÚKL musí být číslo.")), w))
  /\
  (isdigit key = true ->
   snd res = snd looked
   /\ (fst looked = inr None ->
       fst res
       = JSONResponse 404
           (error_content
              (lit "Léčivý přípravek s kódem " ++ kod_sukl
                 ++ lit " nebyl nalezen.")))
   /\ (forall doc r,
          fst looked = inr (Some doc) -> _format_drug_detail doc = inr r ->
          fst res = Payload r))
  /\
  (isdigit key = isdigit (left_pad_zeros 7 (strip kod_sukl))
   /\ (isdigit key = true -> key = left_pad_zeros 7 (strip kod_sukl)))
  /\
  (Forall (fun c => is_ascii_digit c = true) kod_sukl ->
   length kod_sukl < 7 ->
   key = repeat 48%N (7 - length kod_sukl) ++ kod_sukl
   /\ length key = 7
   /\ isdigit key = true).
Proof.
  cbv zeta. split; [|split; [|split]].
  - intros Hk. unfold get_drug_detail, handle. rewrite Hk. reflexivity.
  - intros Hk. unfold get_drug_detail, handle. rewrite Hk. cbn [negb].
    unfold bind, lift.
    destruct (get_document E DRUGS_INDEX (zfill 7 (strip kod_sukl))
                (Some DRUG_DETAIL_FIELDS) w) as [[e|[doc|]] w'] eqn:Hget;
      cbn [fst snd].
    + split; [destruct e; reflexivity|]. split; [discriminate|].
      intros doc r Hd. discriminate Hd.
    + destruct (_format_drug_detail doc) as [e|r] eqn:Hf.
      * split; [destruct e; reflexivity|]. split; [discriminate|].
        intros doc' r' Hd Hf'.
        assert (doc' = doc) by congruence. subst doc'. congruence.
      * split; [reflexivity|]. split; [discriminate|].
        intros doc' r' Hd Hf'.
        assert (doc' = doc) by congruence. subst doc'.
        cbn [fst ret]. congruence.
    + split; [reflexivity|]. split; [reflexivity|].
      intros doc r Hd. discriminate Hd.
  - apply zfill_left_pad.
  - intros Hd Hlen.
    assert (strip kod_sukl = kod_sukl) as ->.
    { apply strip_no_space.
      eapply Forall_impl; [|exact Hd]. apply digit_not_space. }
    rewrite (zfill_digits 7 kod_sukl Hd Hlen).
    split; [reflexivity|]. split.
    + rewrite length_app, repeat_length. unfold char in *. lia.
    + unfold isdigit. rewrite forallb_app. apply andb_true_iff. split.
      * destruct (repeat 48%N (7 - length kod_sukl)) eqn:Hr; [|reflexivity].
        apply (f_equal (@length _)) in Hr. rewrite repeat_length in Hr.
        cbn [length] in Hr. unfold char in *. lia.
      * apply andb_true_iff. split.
        -- apply forallb_forall. intros c Hc. apply repeat_spec in Hc. subst c.
           apply isdigit_char_of_digit. reflexivity.
        -- apply forallb_forall. intros c Hc. apply isdigit_char_of_digit.
           rewrite Forall_forall in Hd. exact (Hd c Hc).
Qed.


(* ================================================================== *)
(** * Further properties of the filter builders                         *)
(* ================================================================== *)

Lemma table_get_in (key : str) (m : list (str * str)) (v : str) :
  table_get key m = Some v -> In (key, v) m.
Proof.
  induction m as [|[k x] m IH]; [discriminate|].
  cbn [table_get]. unfold eqb.
  destruct (list_eq_dec N.eq_dec k key) as [->|_].
  - intros H. injection H as ->. left. reflexivity.
  - intros H. right. exact (IH H).
Qed.

(** X6.  The dispensing mode and the pharmacy type never reach the filter
    as text: each either adds nothing, or adds [vydej eq '<code>'],
    respectively [typLekarny eq '<code>'], where the code is the table's
    value for the lower-cased input; so the only codes are R, F, L, V, P
    and Z, NO, V. *)
Theorem X6_categorical_clauses_come_from_the_tables
    (dispensing pharmacy_type : option str) (parts : list str) :
  (step_dispensing dispensing parts = parts
   \/ exists value code,
        dispensing = Some value
        /\ In (lower value, code) DISPENSING_MAP
        /\ In code (map lit ["R"; "F"; "L"; "V"; "P"]%string)
        /\ step_dispensing dispensing parts
           = parts ++ [lit "vydej eq '" ++ code ++ lit "'"])
  /\
  (step_pharmacy_type pharmacy_type parts = parts
   \/ exists value code,
        pharmacy_type = Some value
        /\ In (lower value, code) PHARMACY_TYPE_MAP
        /\ In code (map lit ["Z"; "NO"; "V"]%string)
        /\ step_pharmacy_type pharmacy_type parts
           = parts ++ [lit "typLekarny eq '" ++ code ++ lit "'"]).
Proof.
  split.
  - unfold step_dispensing.
    destruct dispensing as [value|]; [|left; reflexivity].
    destruct (truthy value); [|left; reflexivity].
    destruct (table_get (lower value) DISPENSING_MAP) as [code|] eqn:Hg;
      [|left; reflexivity].
    apply table_get_in in Hg.
    assert (In code (map lit ["R"; "F"; "L"; "V"; "P"]%string)) as Hcode.
    { change (map lit ["R"; "F"; "L"; "V"; "P"]%string)
        with (map snd DISPENSING_MAP).
      apply (in_map snd) in Hg. exact Hg. }
    destruct (truthy code); [|left; reflexivity].
    right. exists value, code. repeat split; assumption.
  - unfold step_pharmacy_type.
    destruct pharmacy_type as [value|]; [|left; reflexivity].
    destruct (truthy value); [|left; reflexivity].
    destruct (table_get (lower value) PHARMACY_TYPE_MAP) as [code|] eqn:Hg;
      [|left; reflexivity].
    apply table_get_in in Hg.
    assert (In code (map lit ["Z"; "NO"; "V"]%string)) as Hcode.
    { change (map lit ["Z"; "NO"; "V"]%string)
        with (map snd PHARMACY_TYPE_MAP).
      apply (in_map snd) in Hg. exact Hg. }
    destruct (truthy code); [|left; reflexivity].
    right. exists value, code. repeat split; assumption.
Qed.

(** ** Quoted literals *)

Lemma read_quoted_double_quotes (value rest : str) :
  hd_error rest <> Some 39%N ->
  read_quoted (double_quotes value ++ 39%N :: rest) = Some (value, rest).
Proof.
  intros Hrest.
  induction value as [|c value IH].
  - cbn [double_quotes app read_quoted]. rewrite N.eqb_refl.
    destruct rest as [|c' rest']; [reflexivity|].
    destruct (N.eqb_spec c' 39) as [->|_]; [contradiction Hrest; reflexivity|].
    reflexivity.
  - cbn [double_quotes].
    destruct (N.eqb_spec c 39) as [->|Hne].
    + cbn [app read_quoted]. rewrite N.eqb_refl. cbn [N.eqb Pos.eqb].
      rewrite IH. reflexivity.
    + cbn [app read_quoted].
      destruct (N.eqb_spec c 39) as [Heq|_]; [contradiction|].
      rewrite IH. reflexivity.
Qed.

Lemma read_literal_escaped (value rest : str) :
  hd_error rest <> Some 39%N ->
  read_literal (lit "'" ++ replace (lit "'") (lit "''") value ++ lit "'" ++ rest)
  = Some (value, rest).
Proof.
  intros Hrest. rewrite replace_quote_doubles.
  change (lit "'") with [39%N]. cbn [app read_literal]. rewrite N.eqb_refl.
  apply read_quoted_double_quotes. exact Hrest.
Qed.

(** X7.  Quote doubling is read back exactly: the literal made of a
    quote, the value after [replace("'", "''")] and a quote, followed by
    anything that does not start with a quote, reads as the original
    value and leaves what followed.  So in the holder and form clauses
    the first argument of [search.ismatch] is the user's text, and the
    city clause compares [mesto] with the user's text, whatever quotes
    the text contains. *)
Theorem X7_escaped_value_reads_back_as_the_input
    (value : str) (Hprovided : value <> []) :
  (forall rest,
      hd_error rest <> Some 39%N ->
      read_literal
        (lit "'" ++ replace (lit "'") (lit "''") value ++ lit "'" ++ rest)
      = Some (value, rest))
  /\ (exists literal,
         step_holder (Some value) []
         = [lit "search.ismatch(" ++ literal]
         /\ read_literal literal = Some (value, lit ", 'drzitelNazev')"))
  /\ (exists literal,
         step_form (Some value) []
         = [lit "search.ismatch(" ++ literal]
         /\ read_literal literal = Some (value, lit ", 'formaNazev')"))
  /\ (exists literal,
         step_city (Some value) [] = [lit "mesto eq " ++ literal]
         /\ read_literal literal = Some (value, [])).
Proof.
  pose proof (truthy_nonempty _ Hprovided) as Ht.
  split; [intros rest Hrest; apply read_literal_escaped; exact Hrest|].
  split; [|split].
  - exists (lit "'" ++ replace (lit "'") (lit "''") value ++ lit "'"
              ++ lit ", 'drzitelNazev')").
    split.
    + unfold step_holder. rewrite Ht. reflexivity.
    + apply read_literal_escaped. discriminate.
  - exists (lit "'" ++ replace (lit "'") (lit "''") value ++ lit "'"
              ++ lit ", 'formaNazev')").
    split.
    + unfold step_form. rewrite Ht. reflexivity.
    + apply read_literal_escaped. discriminate.
  - exists (lit "'" ++ replace (lit "'") (lit "''") value ++ lit "'" ++ []).
    split.
    + unfold step_city. rewrite Ht. cbn [app]. rewrite app_nil_r.
      reflexivity.
    + apply read_literal_escaped. discriminate.
Qed.

(** ** The postal code *)

Lemma double_quotes_app (a b : str) :
  double_quotes (a ++ b) = double_quotes a ++ double_quotes b.
Proof.
  induction a as [|c a IH]; [reflexivity|].
  cbn [app double_quotes]. destruct (c =? 39)%N; rewrite IH; reflexivity.
Qed.

Lemma double_quotes_rev (s : str) :
  double_quotes (rev s) = rev (double_quotes s).
Proof.
  induction s as [|c s IH]; [reflexivity|].
  cbn [rev double_quotes]. rewrite double_quotes_app, IH.
  cbn [double_quotes]. destruct (c =? 39)%N; cbn [rev].
  - rewrite <- app_assoc. reflexivity.
  - reflexivity.
Qed.

Lemma lstrip_double_quotes (s : str) :
  lstrip (double_quotes s) = double_quotes (lstrip s).
Proof.
  induction s as [|c s IH]; [reflexivity|].
  cbn [double_quotes lstrip].
  destruct (N.eqb_spec c 39) as [->|Hne].
  - reflexivity.
  - cbn [lstrip]. destruct (isspace c); [exact IH|].
    cbn [double_quotes]. destruct (N.eqb_spec c 39); [contradiction|reflexivity].
Qed.

Lemma strip_double_quotes (s : str) :
  strip (double_quotes s) = double_quotes (strip s).
Proof.
  unfold strip, rstrip.
  rewrite lstrip_double_quotes, <- double_quotes_rev, lstrip_double_quotes,
    double_quotes_rev.
  reflexivity.
Qed.

Lemma lstrip_blank (s : str) :
  Forall (fun c => isspace c = true) s -> lstrip s = [].
Proof.
  induction 1 as [|c s Hc _ IH]; [reflexivity|].
  cbn [lstrip]. rewrite Hc. exact IH.
Qed.

Lemma strip_blank (s : str) :
  Forall (fun c => isspace c = true) s -> strip s = [].
Proof.
  intros H. unfold strip, rstrip. rewrite (lstrip_blank _ H). reflexivity.
Qed.

(** X8.  A provided postal code is compared after stripping: the clause
    is [psc eq] followed by a literal that reads back as the stripped
    postal code, whatever quotes it contains.  A postal code made of
    white space only is still "provided" and yields [psc eq '']. *)
Theorem X8_postal_code_is_compared_stripped
    (postal_code : str) (Hprovided : postal_code <> []) :
  (exists literal,
      step_postal_code (Some postal_code) [] = [lit "psc eq " ++ literal]
      /\ read_literal literal = Some (strip postal_code, []))
  /\
  (Forall (fun c => isspace c = true) postal_code ->
   step_postal_code (Some postal_code) [] = [lit "psc eq ''"]).
Proof.
  pose proof (truthy_nonempty _ Hprovided) as Ht.
  assert (step_postal_code (Some postal_code) []
          = [lit "psc eq " ++ lit "'" ++ double_quotes (strip postal_code)
               ++ lit "'" ++ []]) as Hstep.
  { unfold step_postal_code. rewrite Ht.
    rewrite replace_quote_doubles, strip_double_quotes.
    cbn [app]. rewrite app_nil_r. reflexivity. }
  split.
  - eexists. split; [exact Hstep|].
    rewrite <- replace_quote_doubles.
    apply read_literal_escaped. discriminate.
  - intros Hblank. rewrite Hstep, (strip_blank _ Hblank). reflexivity.
Qed.

(** ** The shape of a filter *)

Lemma at_most_one_nil : at_most_one_clause [].
Proof. left. reflexivity. Qed.

Lemma at_most_one_prefixed (prefix rest : str) :
  prefix <> [] -> at_most_one_clause ([] ++ [prefix ++ rest]).
Proof.
  intros Hp. right. eexists. split; [reflexivity|].
  destruct prefix; [contradiction Hp; reflexivity | discriminate].
Qed.

Lemma at_most_one_single (clause : str) :
  clause <> [] -> at_most_one_clause ([] ++ [clause]).
Proof. intros Hc. right. exists clause. split; [reflexivity | exact Hc]. Qed.

Ltac one_clause :=
  cbv zeta;
  repeat match goal with
         | |- context [match ?x with _ => _ end] => destruct x
         end;
  first [ apply at_most_one_nil
        | apply at_most_one_prefixed;
          let H := fresh in intro H; vm_compute in H; discriminate H
        | apply at_most_one_single;
          let H := fresh in intro H; vm_compute in H; discriminate H ].

Lemma step_atc_one (atc : option str) : at_most_one_clause (step_atc atc []).
Proof. unfold step_atc. one_clause. Qed.

Lemma step_holder_one (holder : option str) :
  at_most_one_clause (step_holder holder []).
Proof. unfold step_holder. one_clause. Qed.

Lemma step_dispensing_one (dispensing : option str) :
  at_most_one_clause (step_dispensing dispensing []).
Proof. unfold step_dispensing. one_clause. Qed.

Lemma step_doping_one (doping : option bool) :
  at_most_one_clause (step_doping doping []).
Proof. unfold step_doping. one_clause. Qed.

Lemma step_available_one (available : option bool) :
  at_most_one_clause (step_available available []).
Proof. unfold step_available. one_clause. Qed.

Lemma step_form_one (form : option str) :
  at_most_one_clause (step_form form []).
Proof. unfold step_form. one_clause. Qed.

Lemma step_city_one (city : option str) :
  at_most_one_clause (step_city city []).
Proof. unfold step_city. one_clause. Qed.

Lemma step_emergency_one (emergency : option bool) :
  at_most_one_clause (step_emergency emergency []).
Proof. unfold step_emergency. one_clause. Qed.

Lemma step_mail_order_one (mail_order : option bool) :
  at_most_one_clause (step_mail_order mail_order []).
Proof. unfold step_mail_order. one_clause. Qed.

Lemma step_pharmacy_type_one (pharmacy_type : option str) :
  at_most_one_clause (step_pharmacy_type pharmacy_type []).
Proof. unfold step_pharmacy_type. one_clause. Qed.

Lemma step_postal_code_one (postal_code : option str) :
  at_most_one_clause (step_postal_code postal_code []).
Proof. unfold step_postal_code. one_clause. Qed.

Lemma at_most_one_length (added : list str) :
  at_most_one_clause added -> length added <= 1.
Proof. intros [->|[c [-> _]]]; simpl; lia. Qed.

Lemma at_most_one_nonempty (added : list str) :
  at_most_one_clause added -> Forall (fun c => c <> []) added.
Proof.
  intros [->|[c [-> Hc]]]; [constructor|].
  constructor; [exact Hc | constructor].
Qed.

Lemma join_nonempty (sep : str) (parts : list str) :
  parts <> [] -> Forall (fun c => c <> []) parts -> join sep parts <> [].
Proof.
  intros Hne Hall. destruct Hall as [|p rest Hp _]; [contradiction Hne; reflexivity|].
  destruct p as [|c p]; [contradiction Hp; reflexivity|].
  destruct rest; cbn [join app]; discriminate.
Qed.

Lemma join_parts_spec (parts : list str) :
  Forall (fun c => c <> []) parts ->
  (join_parts parts = None <-> parts = [])
  /\ (forall s, join_parts parts = Some s ->
                s <> [] /\ s = join (lit " and ") parts).
Proof.
  intros Hall. unfold join_parts. destruct parts as [|p rest].
  - split; [tauto|]. intros s H. discriminate H.
  - split; [split; discriminate|].
    intros s H. assert (s = join (lit " and ") (p :: rest)) as -> by congruence.
    split; [|reflexivity].
    apply join_nonempty; [discriminate | exact Hall].
Qed.

(** X9.  Each parameter of a filter builder contributes at most one
    clause, the clauses stand in the order of the parameters, and no
    clause is empty; hence a drug filter has at most 6 clauses and a
    pharmacy filter at most 5, a builder returns [None] exactly when no
    parameter contributed, and otherwise the clauses joined by [" and "],
    which is never the empty string. *)
Theorem X9_filter_is_absent_or_a_nonempty_conjunction
    (atc holder dispensing form city pharmacy_type postal_code : option str)
    (doping available emergency mail_order : option bool) :
  let drug_parts :=
    drug_filter_parts atc holder dispensing doping available form in
  let drug_filter :=
    _build_drug_filters atc holder dispensing doping available form in
  let pharmacy_parts :=
    pharmacy_filter_parts city emergency mail_order pharmacy_type
      postal_code in
  let pharmacy_filter :=
    _build_pharmacy_filters city emergency mail_order pharmacy_type
      postal_code in
  (drug_parts
   = step_atc atc [] ++ step_holder holder []
     ++ step_dispensing dispensing [] ++ step_doping doping []
     ++ step_available available [] ++ step_form form []
   /\ length drug_parts <= 6
   /\ Forall (fun c => c <> []) drug_parts
   /\ (drug_filter = None <-> drug_parts = [])
   /\ (forall s, drug_filter = Some s ->
                 s <> [] /\ s = join (lit " and ") drug_parts))
  /\
  (pharmacy_parts
   = step_city city [] ++ step_emergency emergency []
     ++ step_mail_order mail_order []
     ++ step_pharmacy_type pharmacy_type []
     ++ step_postal_code postal_code []
   /\ length pharmacy_parts <= 5
   /\ Forall (fun c => c <> []) pharmacy_parts
   /\ (pharmacy_filter = None <-> pharmacy_parts = [])
   /\ (forall s, pharmacy_filter = Some s ->
                 s <> [] /\ s = join (lit " and ") pharmacy_parts)).
Proof.
  cbv zeta. split.
  - assert (Forall (fun c : str => c <> [])
              (drug_filter_parts atc holder dispensing doping available form))
      as Hall.
    { rewrite drug_filter_parts_concat.
      repeat (apply Forall_app; split); apply at_most_one_nonempty;
        auto using step_atc_one, step_holder_one, step_dispensing_one,
          step_doping_one, step_available_one, step_form_one. }
    split; [apply drug_filter_parts_concat|]. split.
    + rewrite drug_filter_parts_concat, !length_app.
      pose proof (at_most_one_length _ (step_atc_one atc)).
      pose proof (at_most_one_length _ (step_holder_one holder)).
      pose proof (at_most_one_length _ (step_dispensing_one dispensing)).
      pose proof (at_most_one_length _ (step_doping_one doping)).
      pose proof (at_most_one_length _ (step_available_one available)).
      pose proof (at_most_one_length _ (step_form_one form)).
      lia.
    + split; [exact Hall|]. apply join_parts_spec. exact Hall.
  - assert (Forall (fun c : str => c <> [])
              (pharmacy_filter_parts city emergency mail_order pharmacy_type
                 postal_code)) as Hall.
    { rewrite pharmacy_filter_parts_concat.
      repeat (apply Forall_app; split); apply at_most_one_nonempty;
        auto using step_city_one, step_emergency_one, step_mail_order_one,
          step_pharmacy_type_one, step_postal_code_one. }
    split; [apply pharmacy_filter_parts_concat|]. split.
    + rewrite pharmacy_filter_parts_concat, !length_app.
      pose proof (at_most_one_length _ (step_city_one city)).
      pose proof (at_most_one_length _ (step_emergency_one emergency)).
      pose proof (at_most_one_length _ (step_mail_order_one mail_order)).
      pose proof (at_most_one_length _ (step_pharmacy_type_one pharmacy_type)).
      pose proof (at_most_one_length _ (step_postal_code_one postal_code)).
      lia.
    + split; [exact Hall|]. apply join_parts_spec. exact Hall.
Qed.

End Routes.

(* ================================================================== *)
(** * Properties of the transport                                       *)
(* ================================================================== *)

Lemma retryable_false_iff (status : Z) :
  retryable status = false <-> ~ In status RETRYABLE_STATUS.
Proof.
  unfold retryable. split.
  - intros H Hin.
    assert (existsb (Z.eqb status) RETRYABLE_STATUS = true) as Ht.
    { apply existsb_exists. exists status. split; [exact Hin | apply Z.eqb_refl]. }
    congruence.
  - intros H. destruct (existsb (Z.eqb status) RETRYABLE_STATUS) eqn:Hx; [|reflexivity].
    apply existsb_exists in Hx. destruct Hx as [x [Hin Heq]].
    apply Z.eqb_eq in Heq. subst x. contradiction.
Qed.

Lemma request_of_same (m : http_method) (url : str) (payload : dict)
    (w1 w2 : world) :
  w_authorization w1 = w_authorization w2 ->
  request_of m url payload w1 = request_of m url payload w2.
Proof. unfold request_of. intros ->. reflexivity. Qed.

Lemma sleeps_app (a b : list event) : sleeps (a ++ b) = sleeps a ++ sleeps b.
Proof.
  induction a as [|ev a IH]; [reflexivity|].
  destruct ev; simpl; rewrite IH; reflexivity.
Qed.

Lemma attempts_app (a b : list event) :
  attempts (a ++ b) = attempts a + attempts b.
Proof.
  induction a as [|ev a IH]; [reflexivity|].
  destruct ev; simpl; rewrite IH; reflexivity.
Qed.

Lemma acquisitions_app (a b : list event) :
  acquisitions (a ++ b) = acquisitions a + acquisitions b.
Proof.
  induction a as [|ev a IH]; [reflexivity|].
  destruct ev; simpl; rewrite IH; reflexivity.
Qed.


Lemma quiet_ret {A} (a : A) : quiet (ret a).
Proof.
  intros w r w' H. inversion H; subst. exists [].
  rewrite app_nil_r. simpl. repeat split; auto.
Qed.

Lemma quiet_raise {A} (e : exn) : quiet (@raise A e).
Proof.
  intros w r w' H. inversion H; subst. exists [].
  rewrite app_nil_r. simpl. repeat split; auto.
Qed.

Lemma quiet_lift {A} (x : exn + A) : quiet (lift x).
Proof. destruct x; [apply quiet_raise | apply quiet_ret]. Qed.

Lemma quiet_raise_last {A} (last_error : option exn) :
  quiet (@raise_last A last_error).
Proof. destruct last_error; apply quiet_raise. Qed.

Lemma quiet_sleep (d : Z) : quiet (sleep d).
Proof.
  intros w r w' H. inversion H; subst. exists [EvSleep d].
  simpl. repeat split; auto. repeat constructor.
Qed.

Lemma quiet_retry_delay (attempt : nat) : quiet (retry_delay attempt).
Proof.
  unfold retry_delay.
  destruct (nth_error RETRY_DELAYS attempt); [apply quiet_ret | apply quiet_raise].
Qed.

Lemma quiet_send (E : env) (m : http_method) (url : str) (payload : dict) :
  quiet (send E m url payload).
Proof.
  intros w r w' H. inversion H; subst.
  exists [EvSend (request_of m url payload w)].
  simpl. repeat split; auto; [repeat constructor | lia].
Qed.

Lemma quiet_bind {A B} (c : M A) (k : A -> M B) :
  quiet c -> (forall a, quiet (k a)) -> quiet (bind c k).
Proof.
  intros Hc Hk w r w' H. unfold bind in H.
  destruct (c w) as [[e|a] w1] eqn:Hcw.
  - inversion H; subst. exact (Hc _ _ _ Hcw).
  - destruct (Hc _ _ _ Hcw) as (tr1 & T1 & A1 & F1 & U1 & K1 & Q1 & S1).
    destruct (Hk a _ _ _ H) as (tr2 & T2 & A2 & F2 & U2 & K2 & Q2 & S2).
    exists (tr1 ++ tr2).
    rewrite acquisitions_app, attempts_app, A1, A2.
    repeat split; try congruence.
    + rewrite T2, T1, app_assoc. reflexivity.
    + apply Forall_app. split; [exact F1 | rewrite <- U1; exact F2].
    + lia.
Qed.

Lemma quiet_pause (attempt : nat) :
  quiet (if attempt <? MAX_RETRIES - 1
         then (d <- retry_delay attempt ;; sleep d)
         else ret tt).
Proof.
  destruct (attempt <? MAX_RETRIES - 1).
  - apply quiet_bind; [apply quiet_retry_delay | intros; apply quiet_sleep].
  - apply quiet_ret.
Qed.

Lemma quiet_post_loop (E : env) (url : str) (body : dict) (range : list nat) :
  forall last_error, quiet (post_loop E url body range last_error).
Proof.
  induction range as [|attempt range IH]; intros last_error; simpl.
  - apply quiet_ret.
  - apply quiet_bind; [apply quiet_send|].
    intros [status text json| |msg|e].
    + destruct (status =? 200)%Z.
      * apply quiet_bind; [apply quiet_lift | intros; apply quiet_ret].
      * destruct (retryable status); [|apply quiet_raise].
        apply quiet_bind; [apply quiet_retry_delay|]. intros d.
        apply quiet_bind; [apply quiet_sleep|]. intros _. apply IH.
    + apply quiet_bind; [apply quiet_pause | intros _; apply IH].
    + apply quiet_bind; [apply quiet_pause | intros _; apply IH].
    + apply quiet_raise.
Qed.

Lemma quiet_get_loop (E : env) (url : str) (params : dict) (range : list nat) :
  forall last_error, quiet (get_loop E url params range last_error).
Proof.
  induction range as [|attempt range IH]; intros last_error; simpl.
  - apply quiet_ret.
  - apply quiet_bind; [apply quiet_send|].
    intros [status text json| |msg|e].
    + destruct (status =? 200)%Z.
      * apply quiet_bind; [apply quiet_lift | intros; apply quiet_ret].
      * destruct (status =? 404)%Z; [apply quiet_ret|].
        destruct (retryable status); [|apply quiet_raise].
        apply quiet_bind; [apply quiet_retry_delay|]. intros d.
        apply quiet_bind; [apply quiet_sleep|]. intros _. apply IH.
    + apply quiet_bind; [apply quiet_pause | intros _; apply IH].
    + apply quiet_bind; [apply quiet_pause | intros _; apply IH].
    + apply quiet_raise.
Qed.

Lemma quiet_post_with_retry (E : env) (url : str) (body : dict) (context : str) :
  quiet (_post_with_retry E url body context).
Proof.
  unfold _post_with_retry.
  apply quiet_bind; [apply quiet_post_loop|].
  intros [d|last_error]; [apply quiet_ret | apply quiet_raise_last].
Qed.

Lemma quiet_get_with_retry (E : env) (url : str) (params : dict) (context : str) :
  quiet (_get_with_retry E url params context).
Proof.
  unfold _get_with_retry.
  apply quiet_bind; [apply quiet_get_loop|].
  intros [d|last_error]; [apply quiet_ret | apply quiet_raise_last].
Qed.


(** ** One iteration of the loops *)

Lemma post_loop_fatal (E : env) (url : str) (body : dict) (attempt : nat)
    (range : list nat) (last_error : option exn) (w : world)
    (status : Z) (text : str) (json : exn + dict) :
  exchange E (w_sent w) (request_of POST url body w) = Response status text json ->
  status <> 200%Z ->
  ~ In status RETRYABLE_STATUS ->
  post_loop E url body (attempt :: range) last_error w
  = (inl (SearchError status text), sent (request_of POST url body w) w).
Proof.
  intros Hx H200 Hr. apply retryable_false_iff in Hr.
  simpl. unfold bind, send. rewrite Hx.
  destruct (status =? 200)%Z eqn:Heq; [apply Z.eqb_eq in Heq; contradiction|].
  rewrite Hr. reflexivity.
Qed.

Lemma get_loop_fatal (E : env) (url : str) (params : dict) (attempt : nat)
    (range : list nat) (last_error : option exn) (w : world)
    (status : Z) (text : str) (json : exn + dict) :
  exchange E (w_sent w) (request_of GET url params w) = Response status text json ->
  status <> 200%Z ->
  status <> 404%Z ->
  ~ In status RETRYABLE_STATUS ->
  get_loop E url params (attempt :: range) last_error w
  = (inl (SearchError status text), sent (request_of GET url params w) w).
Proof.
  intros Hx H200 H404 Hr. apply retryable_false_iff in Hr.
  simpl. unfold bind, send. rewrite Hx.
  destruct (status =? 200)%Z eqn:Heq; [apply Z.eqb_eq in Heq; contradiction|].
  destruct (status =? 404)%Z eqn:Heq'; [apply Z.eqb_eq in Heq'; contradiction|].
  rewrite Hr. reflexivity.
Qed.

Lemma get_loop_not_found (E : env) (url : str) (params : dict) (attempt : nat)
    (range : list nat) (last_error : option exn) (w : world)
    (text : str) (json : exn + dict) :
  exchange E (w_sent w) (request_of GET url params w) = Response 404 text json ->
  get_loop E url params (attempt :: range) last_error w
  = (inr (Returned None), sent (request_of GET url params w) w).
Proof.
  intros Hx. simpl. unfold bind, send. rewrite Hx. reflexivity.
Qed.

(** ** C1: the backoff after a retryable status *)

(** C1 (fails on the code).  When the backend answers 500 to all three
    attempts of a POST query, [_post_with_retry] raises the failure of the
    last response, with status 500 and that response's text, but it sleeps
    three times, for 1, 3 and 8 seconds: the pause of the retryable-status
    branch is not guarded by [attempt < MAX_RETRIES - 1], so a sleep
    follows the final attempt, and [RETRY_DELAYS] has three entries. *)
Theorem C1_status_500_thrice_sleeps_three_times
    (tokens : nat -> exn + str) (d0 d1 d2 : str) (j0 j1 j2 : exn + dict)
    (url : str) (body : dict) (context : str) :
  let E :=
    scripted tokens
      (fun n =>
         match n with
         | 0 => Response 500 d0 j0
         | 1 => Response 500 d1 j1
         | _ => Response 500 d2 j2
         end) in
  let res := _post_with_retry E url body context fresh_world in
  fst res = inl (SearchError 500 d2)
  /\ attempts (w_trace (snd res)) = 3
  /\ sleeps (w_trace (snd res)) = [1; 3; 8]%Z
  /\ length RETRY_DELAYS = MAX_RETRIES.
Proof. cbv zeta. repeat split. Qed.

(** The sibling [except] branches do guard the pause: three timeouts give
    two sleeps, 1s then 3s, and none after the final attempt. *)
Lemma timeout_thrice_sleeps_twice
    (tokens : nat -> exn + str) (url : str) (body : dict) (context : str) :
  let E := scripted tokens (fun _ => TimeoutException) in
  let res := _post_with_retry E url body context fresh_world in
  fst res = inl (SearchError 504 (lit "Request timeout"))
  /\ attempts (w_trace (snd res)) = 3
  /\ sleeps (w_trace (snd res)) = [1; 3]%Z.
Proof. cbv zeta. repeat split. Qed.

(** ** C4: a status that is neither 200 nor retryable *)

(** C4.  If the first response of a call has a status other than 200 that
    is not in the retryable set {408, 429, 500, 502, 503, 504} (and, for
    GET, is not 404), then the call raises [SearchError] with that status
    and that response's text, and all it has done is send one request:
    one attempt, no sleep. *)
Theorem C4_non_retryable_status_raises_at_once
    (E : env) (url : str) (payload : dict) (context : str) (w : world)
    (status : Z) (text : str) (json : exn + dict)
    (Hnot200 : status <> 200%Z)
    (Hnot_retryable : ~ In status [408; 429; 500; 502; 503; 504]%Z) :
  (exchange E (w_sent w) (request_of POST url payload w)
     = Response status text json ->
   let res := _post_with_retry E url payload context w in
   fst res = inl (SearchError status text)
   /\ w_trace (snd res) = w_trace w ++ [EvSend (request_of POST url payload w)])
  /\
  (status <> 404%Z ->
   exchange E (w_sent w) (request_of GET url payload w)
     = Response status text json ->
   let res := _get_with_retry E url payload context w in
   fst res = inl (SearchError status text)
   /\ w_trace (snd res) = w_trace w ++ [EvSend (request_of GET url payload w)]).
Proof.
  split.
  - intros Hx. cbv zeta. unfold _post_with_retry, bind.
    change (seq 0 MAX_RETRIES) with [0; 1; 2].
    rewrite (post_loop_fatal _ _ _ _ _ _ _ _ _ _ Hx Hnot200 Hnot_retryable).
    split; reflexivity.
  - intros H404 Hx. cbv zeta. unfold _get_with_retry, bind.
    change (seq 0 MAX_RETRIES) with [0; 1; 2].
    rewrite (get_loop_fatal _ _ _ _ _ _ _ _ _ _ Hx Hnot200 H404 Hnot_retryable).
    split; reflexivity.
Qed.

(** ** C5: 404 on a lookup by key *)

(** C5.  A 404 answer to a GET is not an error and is not retried: at
    whatever attempt it arrives, the loop returns [None] at once, having
    only sent that request; so [get_document], once it has its token,
    returns [None] after a single request and no sleep.  [None] differs
    from every decoded body and from every raised failure. *)
Theorem C5_get_404_returns_not_found
    (E : env) (index key : str) (select : option (list str)) (w : world)
    (t text : str) (json : exn + dict)
    (Htoken : get_token E (w_acquired w) = inr t)
    (H404 : exchange E (w_sent w)
              (request_of GET (document_url index key)
                 (document_params select) (refreshed t w))
            = Response 404 text json) :
  let r := request_of GET (document_url index key) (document_params select)
             (refreshed t w) in
  let res := get_document E index key select w in
  fst res = inr None
  /\ w_trace (snd res) = w_trace w ++ [EvGetToken SEARCH_SCOPE; EvSend r]
  /\ (forall attempt range last_error,
        get_loop E (document_url index key) (document_params select)
          (attempt :: range) last_error (refreshed t w)
        = (inr (Returned None), sent r (refreshed t w)))
  /\ (forall d : dict, fst res <> inr (Some d))
  /\ (forall e : exn, fst res <> inl e).
Proof.
  cbv zeta.
  assert (get_document E index key select w
          = (inr None,
             sent (request_of GET (document_url index key)
                     (document_params select) (refreshed t w))
                  (refreshed t w))) as Hres.
  { unfold get_document, bind, _refresh_token. rewrite Htoken.
    unfold _get_with_retry, bind.
    change (seq 0 MAX_RETRIES) with [0; 1; 2].
    rewrite (get_loop_not_found E _ _ 0 [1; 2] None (refreshed t w) _ _ H404).
    reflexivity. }
  rewrite Hres. simpl fst. simpl snd.
  repeat split.
  - simpl. rewrite <- app_assoc. reflexivity.
  - intros. apply (get_loop_not_found E _ _ _ _ _ (refreshed t w) _ _ H404).
  - discriminate.
  - discriminate.
Qed.

(** ** C6: running out of attempts *)

Ltac pause_cases H :=
  match type of H with
  | context [if ?c then _ else ret tt] => destruct c
  end;
  [ unfold retry_delay in H;
    match type of H with
    | context [nth_error RETRY_DELAYS ?a] =>
      destruct (nth_error RETRY_DELAYS a); [|discriminate H]
    end
  | ];
  simpl in H.

Lemma post_loop_exhausted (E : env) (url : str) (body : dict) :
  forall (range : list nat) (last_error : option exn) (w : world)
         (last' : option exn) (w' : world),
    post_loop E url body range last_error w = (inr (Exhausted last'), w') ->
    match range with
    | [] => last' = last_error
    | _ :: _ =>
      exists e,
        last' = Some e /\
        recorded_failure
          (exchange E (w_sent w + length range - 1)
             (request_of POST url body w)) = Some e
    end.
Proof.
  induction range as [|attempt range IH]; intros last_error w last' w' H.
  - inversion H. reflexivity.
  - simpl in H. unfold bind, send in H.
    assert (forall w2 le,
               w_sent w2 = S (w_sent w) ->
               w_authorization w2 = w_authorization w ->
               recorded_failure
                 (exchange E (w_sent w) (request_of POST url body w)) = Some le ->
               post_loop E url body range (Some le) w2
               = (inr (Exhausted last'), w') ->
               exists e,
                 last' = Some e /\
                 recorded_failure
                   (exchange E (w_sent w + length (attempt :: range) - 1)
                      (request_of POST url body w)) = Some e) as Hstep.
    { intros w2 le Hs Ha Hrec Hloop. specialize (IH _ _ _ _ Hloop).
      destruct range as [|a' range'].
      - exists le. split; [congruence|].
        simpl length. replace (w_sent w + 1 - 1) with (w_sent w) by lia.
        exact Hrec.
      - destruct IH as [e [He Hr]]. exists e. split; [exact He|].
        rewrite Hs in Hr.
        rewrite (request_of_same POST url body w2 w Ha) in Hr.
        simpl length in *.
        replace (w_sent w + S (S (length range')) - 1)
          with (S (w_sent w) + S (length range') - 1) by lia.
        exact Hr. }
    destruct (exchange E (w_sent w) (request_of POST url body w))
      as [status text json| |msg|e] eqn:Hx.
    + destruct (status =? 200)%Z.
      { destruct json; simpl in H; discriminate H. }
      destruct (retryable status) eqn:Hr; [|discriminate H].
      unfold retry_delay in H.
      destruct (nth_error RETRY_DELAYS attempt); [|discriminate H].
      simpl in H.
      apply (Hstep _ (SearchError status text)) in H; auto.
      simpl. rewrite Hr. reflexivity.
    + pause_cases H; apply (Hstep _ _) in H; auto.
    + pause_cases H; apply (Hstep _ _) in H; auto.
    + discriminate H.
Qed.

Lemma get_loop_exhausted (E : env) (url : str) (params : dict) :
  forall (range : list nat) (last_error : option exn) (w : world)
         (last' : option exn) (w' : world),
    get_loop E url params range last_error w = (inr (Exhausted last'), w') ->
    match range with
    | [] => last' = last_error
    | _ :: _ =>
      exists e,
        last' = Some e /\
        recorded_failure
          (exchange E (w_sent w + length range - 1)
             (request_of GET url params w)) = Some e
    end.
Proof.
  induction range as [|attempt range IH]; intros last_error w last' w' H.
  - inversion H. reflexivity.
  - simpl in H. unfold bind, send in H.
    assert (forall w2 le,
               w_sent w2 = S (w_sent w) ->
               w_authorization w2 = w_authorization w ->
               recorded_failure
                 (exchange E (w_sent w) (request_of GET url params w)) = Some le ->
               get_loop E url params range (Some le) w2
               = (inr (Exhausted last'), w') ->
               exists e,
                 last' = Some e /\
                 recorded_failure
                   (exchange E (w_sent w + length (attempt :: range) - 1)
                      (request_of GET url params w)) = Some e) as Hstep.
    { intros w2 le Hs Ha Hrec Hloop. specialize (IH _ _ _ _ Hloop).
      destruct range as [|a' range'].
      - exists le. split; [congruence|].
        simpl length. replace (w_sent w + 1 - 1) with (w_sent w) by lia.
        exact Hrec.
      - destruct IH as [e [He Hr]]. exists e. split; [exact He|].
        rewrite Hs in Hr.
        rewrite (request_of_same GET url params w2 w Ha) in Hr.
        simpl length in *.
        replace (w_sent w + S (S (length range')) - 1)
          with (S (w_sent w) + S (length range') - 1) by lia.
        exact Hr. }
    destruct (exchange E (w_sent w) (request_of GET url params w))
      as [status text json| |msg|e] eqn:Hx.
    + destruct (status =? 200)%Z.
      { destruct json; simpl in H; discriminate H. }
      destruct (status =? 404)%Z; [discriminate H|].
      destruct (retryable status) eqn:Hr; [|discriminate H].
      unfold retry_delay in H.
      destruct (nth_error RETRY_DELAYS attempt); [|discriminate H].
      simpl in H.
      apply (Hstep _ (SearchError status text)) in H; auto.
      simpl. rewrite Hr. reflexivity.
    + pause_cases H; apply (Hstep _ _) in H; auto.
    + pause_cases H; apply (Hstep _ _) in H; auto.
    + discriminate H.
Qed.

Lemma retryable_not_200_404 (status : Z) :
  retryable status = true ->
  (status =? 200)%Z = false /\ (status =? 404)%Z = false.
Proof.
  intros H. split.
  - destruct (Z.eqb_spec status 200) as [->|_]; [discriminate H | reflexivity].
  - destruct (Z.eqb_spec status 404) as [->|_]; [discriminate H | reflexivity].
Qed.

(** The loops do run out of attempts when every attempt ends in an outcome
    for which a failure is recorded. *)
Lemma post_loop_exhausts (E : env) (url : str) (body : dict) :
  forall (range : list nat) (last_error : option exn) (w : world),
    Forall (fun a => a < length RETRY_DELAYS) range ->
    (forall k, k < length range ->
       recorded_failure
         (exchange E (w_sent w + k) (request_of POST url body w)) <> None) ->
    exists last' w',
      post_loop E url body range last_error w = (inr (Exhausted last'), w').
Proof.
  induction range as [|attempt range IH]; intros last_error w Hrange Hout.
  - eexists. eexists. reflexivity.
  - inversion Hrange as [|? ? Hattempt Hrange']; subst.
    assert (forall w2 : world,
               w_sent w2 = S (w_sent w) ->
               w_authorization w2 = w_authorization w ->
               forall k, k < length range ->
                 recorded_failure
                   (exchange E (w_sent w2 + k) (request_of POST url body w2))
                 <> None) as Hnext.
    { intros w2 Hs Ha k Hk. rewrite Hs, (request_of_same POST url body w2 w Ha).
      replace (S (w_sent w) + k) with (w_sent w + S k) by lia.
      apply Hout. simpl. lia. }
    pose proof (Hout 0 ltac:(simpl; lia)) as H0.
    rewrite Nat.add_0_r in H0.
    destruct (nth_error RETRY_DELAYS attempt) as [d|] eqn:Hd;
      [|apply nth_error_None in Hd; lia].
    cbn [post_loop]. unfold bind, send, retry_delay. rewrite Hd.
    destruct (exchange E (w_sent w) (request_of POST url body w))
      as [status text json| |msg|e]; cbn [recorded_failure] in H0.
    + destruct (retryable status) eqn:Hr; [|contradiction H0; reflexivity].
      destruct (retryable_not_200_404 _ Hr) as [-> _].
      apply IH; [exact Hrange' | apply Hnext; reflexivity].
    + destruct (attempt <? MAX_RETRIES - 1);
        (apply IH; [exact Hrange' | apply Hnext; reflexivity]).
    + destruct (attempt <? MAX_RETRIES - 1);
        (apply IH; [exact Hrange' | apply Hnext; reflexivity]).
    + contradiction H0; reflexivity.
Qed.

Lemma get_loop_exhausts (E : env) (url : str) (params : dict) :
  forall (range : list nat) (last_error : option exn) (w : world),
    Forall (fun a => a < length RETRY_DELAYS) range ->
    (forall k, k < length range ->
       recorded_failure
         (exchange E (w_sent w + k) (request_of GET url params w)) <> None) ->
    exists last' w',
      get_loop E url params range last_error w = (inr (Exhausted last'), w').
Proof.
  induction range as [|attempt range IH]; intros last_error w Hrange Hout.
  - eexists. eexists. reflexivity.
  - inversion Hrange as [|? ? Hattempt Hrange']; subst.
    assert (forall w2 : world,
               w_sent w2 = S (w_sent w) ->
               w_authorization w2 = w_authorization w ->
               forall k, k < length range ->
                 recorded_failure
                   (exchange E (w_sent w2 + k) (request_of GET url params w2))
                 <> None) as Hnext.
    { intros w2 Hs Ha k Hk. rewrite Hs, (request_of_same GET url params w2 w Ha).
      replace (S (w_sent w) + k) with (w_sent w + S k) by lia.
      apply Hout. simpl. lia. }
    pose proof (Hout 0 ltac:(simpl; lia)) as H0.
    rewrite Nat.add_0_r in H0.
    destruct (nth_error RETRY_DELAYS attempt) as [d|] eqn:Hd;
      [|apply nth_error_None in Hd; lia].
    cbn [get_loop]. unfold bind, send, retry_delay. rewrite Hd.
    destruct (exchange E (w_sent w) (request_of GET url params w))
      as [status text json| |msg|e]; cbn [recorded_failure] in H0.
    + destruct (retryable status) eqn:Hr; [|contradiction H0; reflexivity].
      destruct (retryable_not_200_404 _ Hr) as [-> ->].
      apply IH; [exact Hrange' | apply Hnext; reflexivity].
    + destruct (attempt <? MAX_RETRIES - 1);
        (apply IH; [exact Hrange' | apply Hnext; reflexivity]).
    + destruct (attempt <? MAX_RETRIES - 1);
        (apply IH; [exact Hrange' | apply Hnext; reflexivity]).
    + contradiction H0; reflexivity.
Qed.

(** Conversely, a loop that has run out of attempts has seen, at every
    attempt, an outcome for which a failure is recorded. *)
Lemma post_loop_exhausted_all (E : env) (url : str) (body : dict) :
  forall (range : list nat) (last_error : option exn) (w : world)
         (last' : option exn) (w' : world),
    post_loop E url body range last_error w = (inr (Exhausted last'), w') ->
    forall k, k < length range ->
      recorded_failure
        (exchange E (w_sent w + k) (request_of POST url body w)) <> None.
Proof.
  induction range as [|attempt range IH]; intros last_error w last' w' H k Hk.
  - simpl in Hk. lia.
  - simpl in H. unfold bind, send in H.
    assert (forall w2 le,
               w_sent w2 = S (w_sent w) ->
               w_authorization w2 = w_authorization w ->
               recorded_failure
                 (exchange E (w_sent w) (request_of POST url body w)) <> None ->
               post_loop E url body range le w2
               = (inr (Exhausted last'), w') ->
               recorded_failure
                 (exchange E (w_sent w + k) (request_of POST url body w))
               <> None) as Hstep.
    { intros w2 le Hs Ha Hrec Hloop. destruct k as [|k'].
      - rewrite Nat.add_0_r. exact Hrec.
      - pose proof (IH _ _ _ _ Hloop k' ltac:(simpl in Hk; lia)) as Hk'.
        rewrite Hs, (request_of_same POST url body w2 w Ha) in Hk'.
        replace (w_sent w + S k') with (S (w_sent w) + k') by lia.
        exact Hk'. }
    destruct (exchange E (w_sent w) (request_of POST url body w))
      as [status text json| |msg|e] eqn:Hx.
    + destruct (status =? 200)%Z.
      { destruct json; simpl in H; discriminate H. }
      destruct (retryable status) eqn:Hr; [|discriminate H].
      unfold retry_delay in H.
      destruct (nth_error RETRY_DELAYS attempt); [|discriminate H].
      simpl in H.
      apply (Hstep _ _) in H; auto.
      simpl. rewrite Hr. discriminate.
    + pause_cases H; apply (Hstep _ _) in H; auto; simpl; discriminate.
    + pause_cases H; apply (Hstep _ _) in H; auto; simpl; discriminate.
    + discriminate H.
Qed.

Lemma get_loop_exhausted_all (E : env) (url : str) (params : dict) :
  forall (range : list nat) (last_error : option exn) (w : world)
         (last' : option exn) (w' : world),
    get_loop E url params range last_error w = (inr (Exhausted last'), w') ->
    forall k, k < length range ->
      recorded_failure
        (exchange E (w_sent w + k) (request_of GET url params w)) <> None.
Proof.
  induction range as [|attempt range IH]; intros last_error w last' w' H k Hk.
  - simpl in Hk. lia.
  - simpl in H. unfold bind, send in H.
    assert (forall w2 le,
               w_sent w2 = S (w_sent w) ->
               w_authorization w2 = w_authorization w ->
               recorded_failure
                 (exchange E (w_sent w) (request_of GET url params w)) <> None ->
               get_loop E url params range le w2
               = (inr (Exhausted last'), w') ->
               recorded_failure
                 (exchange E (w_sent w + k) (request_of GET url params w))
               <> None) as Hstep.
    { intros w2 le Hs Ha Hrec Hloop. destruct k as [|k'].
      - rewrite Nat.add_0_r. exact Hrec.
      - pose proof (IH _ _ _ _ Hloop k' ltac:(simpl in Hk; lia)) as Hk'.
        rewrite Hs, (request_of_same GET url params w2 w Ha) in Hk'.
        replace (w_sent w + S k') with (S (w_sent w) + k') by lia.
        exact Hk'. }
    destruct (exchange E (w_sent w) (request_of GET url params w))
      as [status text json| |msg|e] eqn:Hx.
    + destruct (status =? 200)%Z.
      { destruct json; simpl in H; discriminate H. }
      destruct (status =? 404)%Z; [discriminate H|].
      destruct (retryable status) eqn:Hr; [|discriminate H].
      unfold retry_delay in H.
      destruct (nth_error RETRY_DELAYS attempt); [|discriminate H].
      simpl in H.
      apply (Hstep _ _) in H; auto.
      simpl. rewrite Hr. discriminate.
    + pause_cases H; apply (Hstep _ _) in H; auto; simpl; discriminate.
    + pause_cases H; apply (Hstep _ _) in H; auto; simpl; discriminate.
    + discriminate H.
Qed.

(** ** C7: the bearer token *)

Lemma refresh_then_quiet {A} (E : env) (c : M A) :
  quiet c -> acquires_fresh_token E (_refresh_token E ;;; c).
Proof.
  intros Hq w. unfold bind, _refresh_token. split.
  - intros e He. rewrite He. split; reflexivity.
  - intros t Ht. rewrite Ht.
    destruct (c (refreshed t w)) as [r w'] eqn:Hc.
    destruct (Hq _ _ _ Hc) as (tr & T & Acq & F & _).
    exists tr. simpl snd. repeat split.
    + rewrite T. simpl. rewrite <- app_assoc. reflexivity.
    + exact Acq.
    + exact F.
Qed.

(** C7.  [search], [hybrid_search] and [get_document] each ask the
    credential source before anything else, whatever token the client
    already holds; a failure there is the result of the call and no
    request is sent and no sleep taken; on success that token, and no
    earlier one, is the bearer of every request of the call. *)
Theorem C7_token_acquired_per_call_and_failure_not_retried
    (E : env) (index key search_text query_type vector_fields vectorizer : str)
    (filter order_by semantic_config answers captions : option str)
    (select : option (list str)) (top skip : Z) (count : bool) :
  acquires_fresh_token E
    (search E index search_text filter select top skip order_by query_type
       semantic_config count answers captions)
  /\ acquires_fresh_token E
       (hybrid_search E index search_text vector_fields vectorizer select top
          semantic_config answers captions)
  /\ acquires_fresh_token E (get_document E index key select).
Proof.
  split; [|split].
  - unfold search. cbv zeta.
    apply refresh_then_quiet, quiet_post_with_retry.
  - unfold hybrid_search. cbv zeta.
    apply refresh_then_quiet, quiet_post_with_retry.
  - unfold get_document. cbv zeta.
    apply refresh_then_quiet, quiet_get_with_retry.
Qed.

(** ** C8: truncation of the chunk text *)

Lemma ellipsis_is_one_char : lit "…" = [8230%N].
Proof. reflexivity. Qed.

(** C8.  A chunk text of more than 2000 characters is replaced by its
    first 2000 characters followed by one ellipsis character (U+2026), so
    by a text of exactly 2001 characters; a chunk text of at most 2000
    characters is passed on unchanged. *)
Theorem C8_long_chunk_is_cut_to_2000_and_ellipsis
    (doc : dict) (s : str)
    (Hchunk : dict_get (lit "chunk") doc = Some (JStr s)) :
  (2000 < length s ->
   Documents.chunk_content doc = inr (JStr (firstn 2000 s ++ [8230%N]))
   /\ length (firstn 2000 s ++ [8230%N]) = 2001)
  /\
  (length s <= 2000 -> Documents.chunk_content doc = inr (JStr s)).
Proof.
  unfold Documents.chunk_content. rewrite Hchunk, ellipsis_is_one_char.
  split.
  - intros Hlong.
    destruct (Nat.ltb_spec 2000 (length s)) as [_|Hle]; [|lia].
    split; [reflexivity|].
    rewrite length_app, length_firstn. cbn [length]. lia.
  - intros Hshort.
    destruct (Nat.ltb_spec 2000 (length s)) as [Hlt|_]; [lia|].
    reflexivity.
Qed.

(* ================================================================== *)
(** * The retry loops, attempt by attempt                               *)
(* ================================================================== *)

Lemma after_nil (w : world) : after w [] = w.
Proof. destruct w. unfold after. simpl. rewrite app_nil_r. reflexivity. Qed.

Lemma after_sent (w : world) (tr : list event) (r : request) :
  sent r (after w tr) = after w (tr ++ [EvSend r]).
Proof.
  unfold sent, after. cbn [w_token w_authorization w_acquired w_sent w_trace].
  rewrite attempts_app, <- app_assoc. cbn [attempts].
  f_equal. lia.
Qed.

Lemma after_slept (w : world) (tr : list event) (d : Z) :
  emit (EvSleep d) (after w tr) = after w (tr ++ [EvSleep d]).
Proof.
  unfold emit, after. cbn [w_token w_authorization w_acquired w_sent w_trace].
  rewrite attempts_app, <- app_assoc. cbn [attempts].
  f_equal. lia.
Qed.

Lemma request_of_after (m : http_method) (url : str) (payload : dict)
    (w : world) (tr : list event) :
  request_of m url payload (after w tr) = request_of m url payload w.
Proof. reflexivity. Qed.

(** One iteration of the POST loop, from a world [after w tr]. *)
Lemma post_loop_step (E : env) (url : str) (body : dict) (attempt : nat)
    (range : list nat) (last_error : option exn) (w : world)
    (tr : list event) (d : Z) :
  nth_error RETRY_DELAYS attempt = Some d ->
  let r := request_of POST url body w in
  post_loop E url body (attempt :: range) last_error (after w tr)
  = match post_verdict (exchange E (attempts tr + w_sent w) r) with
    | Stops (inl e) => (inl e, after w (tr ++ [EvSend r]))
    | Stops (inr b) => (inr (Returned b), after w (tr ++ [EvSend r]))
    | Retries e always =>
      post_loop E url body range (Some e)
        (after w (if always || (attempt <? MAX_RETRIES - 1)
                  then tr ++ [EvSend r; EvSleep d]
                  else tr ++ [EvSend r]))
    end.
Proof.
  intros Hd r. cbn [post_loop]. unfold bind, send, retry_delay.
  rewrite Hd, request_of_after, after_sent. fold r.
  cbn [w_sent after].
  destruct (exchange E (attempts tr + w_sent w) r)
    as [status text json| |msg|e]; cbn [post_verdict].
  - destruct (status =? 200)%Z.
    + destruct json; reflexivity.
    + destruct (retryable status); [|reflexivity].
      cbn [orb ret sleep]. rewrite after_slept, <- app_assoc. reflexivity.
  - cbn [orb]. destruct (attempt <? MAX_RETRIES - 1); cbn [ret sleep];
      [rewrite after_slept, <- app_assoc|]; reflexivity.
  - cbn [orb]. destruct (attempt <? MAX_RETRIES - 1); cbn [ret sleep];
      [rewrite after_slept, <- app_assoc|]; reflexivity.
  - reflexivity.
Qed.

Lemma get_loop_step (E : env) (url : str) (params : dict) (attempt : nat)
    (range : list nat) (last_error : option exn) (w : world)
    (tr : list event) (d : Z) :
  nth_error RETRY_DELAYS attempt = Some d ->
  let r := request_of GET url params w in
  get_loop E url params (attempt :: range) last_error (after w tr)
  = match get_verdict (exchange E (attempts tr + w_sent w) r) with
    | Stops (inl e) => (inl e, after w (tr ++ [EvSend r]))
    | Stops (inr b) => (inr (Returned b), after w (tr ++ [EvSend r]))
    | Retries e always =>
      get_loop E url params range (Some e)
        (after w (if always || (attempt <? MAX_RETRIES - 1)
                  then tr ++ [EvSend r; EvSleep d]
                  else tr ++ [EvSend r]))
    end.
Proof.
  intros Hd r. cbn [get_loop]. unfold bind, send, retry_delay.
  rewrite Hd, request_of_after, after_sent. fold r.
  cbn [w_sent after].
  destruct (exchange E (attempts tr + w_sent w) r)
    as [status text json| |msg|e]; cbn [get_verdict].
  - destruct (status =? 200)%Z.
    + destruct json; reflexivity.
    + destruct (status =? 404)%Z; [reflexivity|].
      destruct (retryable status); [|reflexivity].
      cbn [orb ret sleep]. rewrite after_slept, <- app_assoc. reflexivity.
  - cbn [orb]. destruct (attempt <? MAX_RETRIES - 1); cbn [ret sleep];
      [rewrite after_slept, <- app_assoc|]; reflexivity.
  - cbn [orb]. destruct (attempt <? MAX_RETRIES - 1); cbn [ret sleep];
      [rewrite after_slept, <- app_assoc|]; reflexivity.
  - reflexivity.
Qed.

(** A whole call, as a decision over the outcomes of its three attempts. *)
Lemma post_with_retry_unrolled (E : env) (url : str) (body : dict)
    (context : str) (w : world) :
  let r := request_of POST url body w in
  let v := fun k => post_verdict (exchange E (k + w_sent w) r) in
  _post_with_retry E url body context w
  = match v 0 with
    | Stops x => (x, after w (firstn 1 (full_trace r)))
    | Retries _ _ =>
      match v 1 with
      | Stops x => (x, after w (firstn 3 (full_trace r)))
      | Retries _ _ =>
        match v 2 with
        | Stops x => (x, after w (firstn 5 (full_trace r)))
        | Retries e always =>
          (inl e, after w (firstn (if always then 6 else 5) (full_trace r)))
        end
      end
    end.
Proof.
  intros r v. unfold _post_with_retry, bind.
  change (seq 0 MAX_RETRIES) with [0; 1; 2].
  rewrite <- (after_nil w) at 1.
  rewrite (post_loop_step E url body 0 [1; 2] None w [] 1 eq_refl).
  fold r. change (post_verdict (exchange E (attempts [] + w_sent w) r)) with (v 0).
  destruct (v 0) as [[e0|b0]|e0 a0]; [reflexivity | reflexivity |].
  cbn [Nat.ltb Nat.leb MAX_RETRIES Nat.sub app]. rewrite orb_true_r.
  rewrite (post_loop_step E url body 1 [2] (Some e0) w _ 3 eq_refl).
  fold r.
  change (post_verdict (exchange E (attempts [EvSend r; EvSleep 1] + w_sent w) r))
    with (v 1).
  destruct (v 1) as [[e1|b1]|e1 a1]; [reflexivity | reflexivity |].
  cbn [Nat.ltb Nat.leb MAX_RETRIES Nat.sub app]. rewrite orb_true_r.
  rewrite (post_loop_step E url body 2 [] (Some e1) w _ 8 eq_refl).
  fold r.
  change (post_verdict
            (exchange E
               (attempts [EvSend r; EvSleep 1; EvSend r; EvSleep 3] + w_sent w) r))
    with (v 2).
  destruct (v 2) as [[e2|b2]|e2 a2]; [reflexivity | reflexivity |].
  cbn [Nat.ltb Nat.leb MAX_RETRIES Nat.sub app]. rewrite orb_false_r.
  destruct a2; reflexivity.
Qed.

Lemma get_with_retry_unrolled (E : env) (url : str) (params : dict)
    (context : str) (w : world) :
  let r := request_of GET url params w in
  let v := fun k => get_verdict (exchange E (k + w_sent w) r) in
  _get_with_retry E url params context w
  = match v 0 with
    | Stops x => (x, after w (firstn 1 (full_trace r)))
    | Retries _ _ =>
      match v 1 with
      | Stops x => (x, after w (firstn 3 (full_trace r)))
      | Retries _ _ =>
        match v 2 with
        | Stops x => (x, after w (firstn 5 (full_trace r)))
        | Retries e always =>
          (inl e, after w (firstn (if always then 6 else 5) (full_trace r)))
        end
      end
    end.
Proof.
  intros r v. unfold _get_with_retry, bind.
  change (seq 0 MAX_RETRIES) with [0; 1; 2].
  rewrite <- (after_nil w) at 1.
  rewrite (get_loop_step E url params 0 [1; 2] None w [] 1 eq_refl).
  fold r. change (get_verdict (exchange E (attempts [] + w_sent w) r)) with (v 0).
  destruct (v 0) as [[e0|b0]|e0 a0]; [reflexivity | reflexivity |].
  cbn [Nat.ltb Nat.leb MAX_RETRIES Nat.sub app]. rewrite orb_true_r.
  rewrite (get_loop_step E url params 1 [2] (Some e0) w _ 3 eq_refl).
  fold r.
  change (get_verdict (exchange E (attempts [EvSend r; EvSleep 1] + w_sent w) r))
    with (v 1).
  destruct (v 1) as [[e1|b1]|e1 a1]; [reflexivity | reflexivity |].
  cbn [Nat.ltb Nat.leb MAX_RETRIES Nat.sub app]. rewrite orb_true_r.
  rewrite (get_loop_step E url params 2 [] (Some e1) w _ 8 eq_refl).
  fold r.
  change (get_verdict
            (exchange E
               (attempts [EvSend r; EvSleep 1; EvSend r; EvSleep 3] + w_sent w) r))
    with (v 2).
  destruct (v 2) as [[e2|b2]|e2 a2]; [reflexivity | reflexivity |].
  cbn [Nat.ltb Nat.leb MAX_RETRIES Nat.sub app]. rewrite orb_false_r.
  destruct a2; reflexivity.
Qed.

(** ** What a verdict says about the outcome *)

Lemma post_verdict_returns (resp : outcome) (b : dict) :
  post_verdict resp = Stops (inr b) <->
  exists text, resp = Response 200 text (inr b).
Proof.
  split.
  - destruct resp as [status text json| |msg|e]; cbn [post_verdict];
      try discriminate.
    destruct (Z.eqb_spec status 200) as [->|_].
    + intros H. injection H as ->. exists text. reflexivity.
    + destruct (retryable status); discriminate.
  - intros [text ->]. reflexivity.
Qed.

Lemma post_verdict_raises (resp : outcome) (e : exn) :
  post_verdict resp = Stops (inl e) -> raised_by_post resp e.
Proof.
  destruct resp as [status text json| |msg|e']; cbn [post_verdict raised_by_post];
    try discriminate.
  - destruct (Z.eqb_spec status 200) as [->|Hne].
    + intros H. injection H as ->. left. split; reflexivity.
    + destruct (retryable status); [discriminate|].
      intros H. injection H as <-. right. split; [exact Hne | reflexivity].
  - intros H. injection H as <-. reflexivity.
Qed.

Lemma post_verdict_retries (resp : outcome) (e : exn) (always : bool) :
  post_verdict resp = Retries e always ->
  recorded_failure resp = Some e
  /\ raised_by_post resp e
  /\ (always = false <-> transport_failure resp).
Proof.
  unfold transport_failure.
  destruct resp as [status text json| |msg|e']; cbn [post_verdict raised_by_post recorded_failure];
    try discriminate.
  - destruct (Z.eqb_spec status 200) as [->|Hne]; [discriminate|].
    destruct (retryable status); [|discriminate].
    intros H. injection H as <- <-. split; [reflexivity|]. split.
    + right. split; [exact Hne | reflexivity].
    + split; [discriminate|]. intros [H|[msg H]]; discriminate H.
  - intros H. injection H as <- <-. repeat split. left. reflexivity.
  - intros H. injection H as <- <-. repeat split. right. exists msg. reflexivity.
Qed.

Lemma post_verdict_of_recorded (resp : outcome) :
  recorded_failure resp <> None ->
  exists e always, post_verdict resp = Retries e always.
Proof.
  destruct resp as [status text json| |msg|e']; cbn [post_verdict recorded_failure].
  - destruct (retryable status) eqn:Hr; [|intros H; contradiction H; reflexivity].
    destruct (retryable_not_200_404 _ Hr) as [-> _]. intros _.
    eexists. eexists. reflexivity.
  - intros _. eexists. eexists. reflexivity.
  - intros _. eexists. eexists. reflexivity.
  - intros H. contradiction H. reflexivity.
Qed.

Lemma get_verdict_returns (resp : outcome) (d : dict) :
  get_verdict resp = Stops (inr (Some d)) <->
  exists text, resp = Response 200 text (inr d).
Proof.
  split.
  - destruct resp as [status text json| |msg|e]; cbn [get_verdict];
      try discriminate.
    destruct (Z.eqb_spec status 200) as [->|_].
    + destruct json as [e|d']; [discriminate|].
      intros H. injection H as ->. exists text. reflexivity.
    + destruct (status =? 404)%Z; [discriminate|].
      destruct (retryable status); discriminate.
  - intros [text ->]. reflexivity.
Qed.

Lemma get_verdict_not_found (resp : outcome) :
  get_verdict resp = Stops (inr None) <->
  exists text json, resp = Response 404 text json.
Proof.
  split.
  - destruct resp as [status text json| |msg|e]; cbn [get_verdict];
      try discriminate.
    destruct (Z.eqb_spec status 200) as [->|_].
    + destruct json; discriminate.
    + destruct (Z.eqb_spec status 404) as [->|_].
      * intros _. exists text, json. reflexivity.
      * destruct (retryable status); discriminate.
  - intros [text [json ->]]. reflexivity.
Qed.

Lemma get_verdict_raises (resp : outcome) (e : exn) :
  get_verdict resp = Stops (inl e) -> raised_by_get resp e.
Proof.
  destruct resp as [status text json| |msg|e']; cbn [get_verdict raised_by_get];
    try discriminate.
  - destruct (Z.eqb_spec status 200) as [->|Hne].
    + destruct json as [e'|d]; [|discriminate].
      intros H. injection H as ->. left. split; reflexivity.
    + destruct (Z.eqb_spec status 404) as [->|Hne']; [discriminate|].
      destruct (retryable status); [discriminate|].
      intros H. injection H as <-. right. repeat split; assumption.
  - intros H. injection H as <-. reflexivity.
Qed.

Lemma get_verdict_retries (resp : outcome) (e : exn) (always : bool) :
  get_verdict resp = Retries e always ->
  recorded_failure resp = Some e
  /\ raised_by_get resp e
  /\ (always = false <-> transport_failure resp).
Proof.
  unfold transport_failure.
  destruct resp as [status text json| |msg|e']; cbn [get_verdict raised_by_get recorded_failure];
    try discriminate.
  - destruct (Z.eqb_spec status 200) as [->|Hne]; [discriminate|].
    destruct (Z.eqb_spec status 404) as [->|Hne']; [discriminate|].
    destruct (retryable status); [|discriminate].
    intros H. injection H as <- <-. split; [reflexivity|]. split.
    + right. repeat split; assumption.
    + split; [discriminate|]. intros [H|[msg H]]; discriminate H.
  - intros H. injection H as <- <-. repeat split. left. reflexivity.
  - intros H. injection H as <- <-. repeat split. right. exists msg. reflexivity.
Qed.

Lemma get_verdict_of_recorded (resp : outcome) :
  recorded_failure resp <> None ->
  exists e always, get_verdict resp = Retries e always.
Proof.
  destruct resp as [status text json| |msg|e']; cbn [get_verdict recorded_failure].
  - destruct (retryable status) eqn:Hr; [|intros H; contradiction H; reflexivity].
    destruct (retryable_not_200_404 _ Hr) as [-> ->]. intros _.
    eexists. eexists. reflexivity.
  - intros _. eexists. eexists. reflexivity.
  - intros _. eexists. eexists. reflexivity.
  - intros H. contradiction H. reflexivity.
Qed.

(** ** A call ends at its first attempt that is not retried *)

Lemma outcome_at_comm (E : env) (m : http_method) (url : str) (payload : dict)
    (w : world) (k : nat) :
  exchange E (k + w_sent w) (request_of m url payload w)
  = outcome_at E m url payload w k.
Proof. unfold outcome_at. rewrite Nat.add_comm. reflexivity. Qed.

Lemma post_call_stops_at (E : env) (url : str) (body : dict) (context : str)
    (w : world) (k : nat) (x : exn + dict) :
  k < MAX_RETRIES ->
  (forall j, j < k ->
     recorded_failure (outcome_at E POST url body w j) <> None) ->
  post_verdict (outcome_at E POST url body w k) = Stops x ->
  _post_with_retry E url body context w
  = (x, after w (firstn (2 * k + 1) (full_trace (request_of POST url body w)))).
Proof.
  intros Hk Hbefore Hstop.
  pose proof (post_with_retry_unrolled E url body context w) as U.
  cbv beta zeta in U. rewrite !outcome_at_comm in U. rewrite U. clear U.
  destruct k as [|[|[|k]]]; [| | |unfold MAX_RETRIES in Hk; lia].
  - rewrite Hstop. reflexivity.
  - destruct (post_verdict_of_recorded _ (Hbefore 0 ltac:(lia))) as [e0 [a0 ->]].
    rewrite Hstop. reflexivity.
  - destruct (post_verdict_of_recorded _ (Hbefore 0 ltac:(lia))) as [e0 [a0 ->]].
    destruct (post_verdict_of_recorded _ (Hbefore 1 ltac:(lia))) as [e1 [a1 ->]].
    rewrite Hstop. reflexivity.
Qed.

Lemma post_call_runs_out (E : env) (url : str) (body : dict) (context : str)
    (w : world) (e : exn) (always : bool) :
  (forall j, j < 2 ->
     recorded_failure (outcome_at E POST url body w j) <> None) ->
  post_verdict (outcome_at E POST url body w 2) = Retries e always ->
  _post_with_retry E url body context w
  = (inl e,
     after w (firstn (if always then 6 else 5)
                (full_trace (request_of POST url body w)))).
Proof.
  intros Hbefore Hlast.
  pose proof (post_with_retry_unrolled E url body context w) as U.
  cbv beta zeta in U. rewrite !outcome_at_comm in U. rewrite U. clear U.
  destruct (post_verdict_of_recorded _ (Hbefore 0 ltac:(lia))) as [e0 [a0 ->]].
  destruct (post_verdict_of_recorded _ (Hbefore 1 ltac:(lia))) as [e1 [a1 ->]].
  rewrite Hlast. reflexivity.
Qed.

Lemma post_call_cases (E : env) (url : str) (body : dict) (context : str)
    (w : world) :
  let out := outcome_at E POST url body w in
  let r := request_of POST url body w in
  let res := _post_with_retry E url body context w in
  exists k,
    k < MAX_RETRIES
    /\ (forall j, j < k -> recorded_failure (out j) <> None)
    /\ ((exists x,
            post_verdict (out k) = Stops x
            /\ res = (x, after w (firstn (2 * k + 1) (full_trace r))))
        \/ (k = 2
            /\ exists e always,
                post_verdict (out 2) = Retries e always
                /\ res = (inl e,
                          after w (firstn (if always then 6 else 5)
                                     (full_trace r))))).
Proof.
  cbv zeta.
  assert (forall o e a, post_verdict o = Retries e a ->
                        recorded_failure o <> None) as Hrec.
  { intros o e a H. apply post_verdict_retries in H.
    destruct H as [H _]. congruence. }
  destruct (post_verdict (outcome_at E POST url body w 0)) as [x0|e0 a0] eqn:V0.
  { exists 0. split; [unfold MAX_RETRIES; lia|]. split; [intros j Hj; lia|].
    left. exists x0. split; [exact V0|].
    apply post_call_stops_at; [unfold MAX_RETRIES; lia | intros j Hj; lia | exact V0]. }
  destruct (post_verdict (outcome_at E POST url body w 1)) as [x1|e1 a1] eqn:V1.
  { assert (forall j, j < 1 ->
               recorded_failure (outcome_at E POST url body w j) <> None) as Hb.
    { intros j Hj. assert (j = 0) as -> by lia. exact (Hrec _ _ _ V0). }
    exists 1. split; [unfold MAX_RETRIES; lia|]. split; [exact Hb|].
    left. exists x1. split; [exact V1|].
    apply post_call_stops_at; [unfold MAX_RETRIES; lia | exact Hb | exact V1]. }
  assert (forall j, j < 2 ->
             recorded_failure (outcome_at E POST url body w j) <> None) as Hb.
  { intros j Hj. destruct j as [|[|j]]; [exact (Hrec _ _ _ V0) | exact (Hrec _ _ _ V1) | lia]. }
  exists 2. split; [unfold MAX_RETRIES; lia|]. split; [exact Hb|].
  destruct (post_verdict (outcome_at E POST url body w 2)) as [x2|e2 a2] eqn:V2.
  - left. exists x2. split; [reflexivity|].
    apply post_call_stops_at; [unfold MAX_RETRIES; lia | exact Hb | exact V2].
  - right. split; [reflexivity|]. exists e2, a2. split; [reflexivity|].
    apply post_call_runs_out; [exact Hb | exact V2].
Qed.

Lemma get_call_stops_at (E : env) (url : str) (params : dict) (context : str)
    (w : world) (k : nat) (x : exn + option dict) :
  k < MAX_RETRIES ->
  (forall j, j < k ->
     recorded_failure (outcome_at E GET url params w j) <> None) ->
  get_verdict (outcome_at E GET url params w k) = Stops x ->
  _get_with_retry E url params context w
  = (x, after w (firstn (2 * k + 1) (full_trace (request_of GET url params w)))).
Proof.
  intros Hk Hbefore Hstop.
  pose proof (get_with_retry_unrolled E url params context w) as U.
  cbv beta zeta in U. rewrite !outcome_at_comm in U. rewrite U. clear U.
  destruct k as [|[|[|k]]]; [| | |unfold MAX_RETRIES in Hk; lia].
  - rewrite Hstop. reflexivity.
  - destruct (get_verdict_of_recorded _ (Hbefore 0 ltac:(lia))) as [e0 [a0 ->]].
    rewrite Hstop. reflexivity.
  - destruct (get_verdict_of_recorded _ (Hbefore 0 ltac:(lia))) as [e0 [a0 ->]].
    destruct (get_verdict_of_recorded _ (Hbefore 1 ltac:(lia))) as [e1 [a1 ->]].
    rewrite Hstop. reflexivity.
Qed.

Lemma get_call_runs_out (E : env) (url : str) (params : dict) (context : str)
    (w : world) (e : exn) (always : bool) :
  (forall j, j < 2 ->
     recorded_failure (outcome_at E GET url params w j) <> None) ->
  get_verdict (outcome_at E GET url params w 2) = Retries e always ->
  _get_with_retry E url params context w
  = (inl e,
     after w (firstn (if always then 6 else 5)
                (full_trace (request_of GET url params w)))).
Proof.
  intros Hbefore Hlast.
  pose proof (get_with_retry_unrolled E url params context w) as U.
  cbv beta zeta in U. rewrite !outcome_at_comm in U. rewrite U. clear U.
  destruct (get_verdict_of_recorded _ (Hbefore 0 ltac:(lia))) as [e0 [a0 ->]].
  destruct (get_verdict_of_recorded _ (Hbefore 1 ltac:(lia))) as [e1 [a1 ->]].
  rewrite Hlast. reflexivity.
Qed.

Lemma get_call_cases (E : env) (url : str) (params : dict) (context : str)
    (w : world) :
  let out := outcome_at E GET url params w in
  let r := request_of GET url params w in
  let res := _get_with_retry E url params context w in
  exists k,
    k < MAX_RETRIES
    /\ (forall j, j < k -> recorded_failure (out j) <> None)
    /\ ((exists x,
            get_verdict (out k) = Stops x
            /\ res = (x, after w (firstn (2 * k + 1) (full_trace r))))
        \/ (k = 2
            /\ exists e always,
                get_verdict (out 2) = Retries e always
                /\ res = (inl e,
                          after w (firstn (if always then 6 else 5)
                                     (full_trace r))))).
Proof.
  cbv zeta.
  assert (forall o e a, get_verdict o = Retries e a ->
                        recorded_failure o <> None) as Hrec.
  { intros o e a H. apply get_verdict_retries in H.
    destruct H as [H _]. congruence. }
  destruct (get_verdict (outcome_at E GET url params w 0)) as [x0|e0 a0] eqn:V0.
  { exists 0. split; [unfold MAX_RETRIES; lia|]. split; [intros j Hj; lia|].
    left. exists x0. split; [exact V0|].
    apply get_call_stops_at; [unfold MAX_RETRIES; lia | intros j Hj; lia | exact V0]. }
  destruct (get_verdict (outcome_at E GET url params w 1)) as [x1|e1 a1] eqn:V1.
  { assert (forall j, j < 1 ->
               recorded_failure (outcome_at E GET url params w j) <> None) as Hb.
    { intros j Hj. assert (j = 0) as -> by lia. exact (Hrec _ _ _ V0). }
    exists 1. split; [unfold MAX_RETRIES; lia|]. split; [exact Hb|].
    left. exists x1. split; [exact V1|].
    apply get_call_stops_at; [unfold MAX_RETRIES; lia | exact Hb | exact V1]. }
  assert (forall j, j < 2 ->
             recorded_failure (outcome_at E GET url params w j) <> None) as Hb.
  { intros j Hj. destruct j as [|[|j]]; [exact (Hrec _ _ _ V0) | exact (Hrec _ _ _ V1) | lia]. }
  exists 2. split; [unfold MAX_RETRIES; lia|]. split; [exact Hb|].
  destruct (get_verdict (outcome_at E GET url params w 2)) as [x2|e2 a2] eqn:V2.
  - left. exists x2. split; [reflexivity|].
    apply get_call_stops_at; [unfold MAX_RETRIES; lia | exact Hb | exact V2].
  - right. split; [reflexivity|]. exists e2, a2. split; [reflexivity|].
    apply get_call_runs_out; [exact Hb | exact V2].
Qed.

(** ** Properties of whole calls *)

(** ** Running out of attempts *)

Lemma attempts_run_out (w : world) (r : request) (always : bool) :
  attempts (w_trace (after w (firstn (if always then 6 else 5) (full_trace r))))
  = attempts (w_trace w) + MAX_RETRIES.
Proof.
  unfold after. cbn [w_trace]. rewrite attempts_app.
  destruct always; reflexivity.
Qed.

(** C6.  The loop of [_post_with_retry], and likewise of
    [_get_with_retry], completes all its attempts exactly when each of the
    three attempts ends in an outcome for which a failure is recorded (a
    retryable status, a timeout, a transport error).  The call then has
    sent three requests and raises the failure recorded for the third
    one, the most recent: the status and text of a retryable response, 504
    for a timeout, 502 with its message for a transport error.  A loop is
    left with no failure recorded only when it makes no attempt at all,
    and the statements of the function then raise
    [SearchError(500, "All retries exhausted")] with nothing sent. *)
Theorem C6_exhausted_raises_last_recorded_failure
    (E : env) (url : str) (payload : dict) (context : str) (w : world) :
  let all_fail m :=
    forall k, k < MAX_RETRIES ->
      recorded_failure (outcome_at E m url payload w k) <> None in
  let generic := SearchError 500 (lit "All retries exhausted") in
  ((exists last w',
       post_loop E url payload (seq 0 MAX_RETRIES) None w
       = (inr (Exhausted last), w'))
   <-> all_fail POST)
  /\
  ((exists last w',
       get_loop E url payload (seq 0 MAX_RETRIES) None w
       = (inr (Exhausted last), w'))
   <-> all_fail GET)
  /\
  (all_fail POST ->
   exists e,
     recorded_failure (outcome_at E POST url payload w (MAX_RETRIES - 1))
     = Some e
     /\ fst (_post_with_retry E url payload context w) = inl e
     /\ attempts (w_trace (snd (_post_with_retry E url payload context w)))
        = attempts (w_trace w) + MAX_RETRIES)
  /\
  (all_fail GET ->
   exists e,
     recorded_failure (outcome_at E GET url payload w (MAX_RETRIES - 1))
     = Some e
     /\ fst (_get_with_retry E url payload context w) = inl e
     /\ attempts (w_trace (snd (_get_with_retry E url payload context w)))
        = attempts (w_trace w) + MAX_RETRIES)
  /\
  (forall range last w',
      (post_loop E url payload range None w = (inr (Exhausted last), w')
       \/ get_loop E url payload range None w = (inr (Exhausted last), w')) ->
      (last = None <-> range = []))
  /\ _post_with_retry E url payload context
     = post_with_retry_over (seq 0 MAX_RETRIES) E url payload context
  /\ _get_with_retry E url payload context
     = get_with_retry_over (seq 0 MAX_RETRIES) E url payload context
  /\ post_with_retry_over [] E url payload context w = (inl generic, w)
  /\ get_with_retry_over [] E url payload context w = (inl generic, w).
Proof.
  cbv zeta.
  assert (Forall (fun a => a < length RETRY_DELAYS) (seq 0 MAX_RETRIES))
    as Hrange by (repeat constructor).
  split; [|split; [|split; [|split; [|split]]]].
  - split.
    + intros (last & w' & H) k Hk.
      exact (post_loop_exhausted_all E url payload _ _ _ _ _ H k Hk).
    + intros Hall.
      exact (post_loop_exhausts E url payload _ None w Hrange Hall).
  - split.
    + intros (last & w' & H) k Hk.
      exact (get_loop_exhausted_all E url payload _ _ _ _ _ H k Hk).
    + intros Hall.
      exact (get_loop_exhausts E url payload _ None w Hrange Hall).
  - intros Hall.
    destruct (post_verdict_of_recorded _ (Hall 2 ltac:(unfold MAX_RETRIES; lia)))
      as (e & always & Hlast).
    exists e.
    destruct (post_verdict_retries _ _ _ Hlast) as [Hrec _].
    rewrite (post_call_runs_out E url payload context w e always
               (fun j Hj => Hall j ltac:(unfold MAX_RETRIES; lia)) Hlast).
    split; [exact Hrec|]. split; [reflexivity|].
    cbn [snd]. apply attempts_run_out.
  - intros Hall.
    destruct (get_verdict_of_recorded _ (Hall 2 ltac:(unfold MAX_RETRIES; lia)))
      as (e & always & Hlast).
    exists e.
    destruct (get_verdict_retries _ _ _ Hlast) as [Hrec _].
    rewrite (get_call_runs_out E url payload context w e always
               (fun j Hj => Hall j ltac:(unfold MAX_RETRIES; lia)) Hlast).
    split; [exact Hrec|]. split; [reflexivity|].
    cbn [snd]. apply attempts_run_out.
  - intros range last w' [H|H].
    + pose proof (post_loop_exhausted E url payload _ _ _ _ _ H) as Hx.
      destruct range as [|a range].
      * split; [reflexivity | intros _; exact Hx].
      * destruct Hx as (e & -> & _). split; discriminate.
    + pose proof (get_loop_exhausted E url payload _ _ _ _ _ H) as Hx.
      destruct range as [|a range].
      * split; [reflexivity | intros _; exact Hx].
      * destruct Hx as (e & -> & _). split; discriminate.
  - repeat split.
Qed.

Lemma schedule_prefix_bounds (r : request) (n : nat) :
  1 <= n <= 6 ->
  1 <= attempts (firstn n (full_trace r)) <= MAX_RETRIES
  /\ (total_sleep (firstn n (full_trace r)) <= 12)%Z
  /\ sleeps (firstn n (full_trace r)) = firstn (n / 2) RETRY_DELAYS.
Proof.
  intros Hn. unfold MAX_RETRIES, total_sleep.
  destruct n as [|[|[|[|[|[|[|n]]]]]]]; try lia;
    cbn; repeat split; try lia; reflexivity.
Qed.

(** X1.  Whatever the backend does, the events of one call of
    [_post_with_retry] or [_get_with_retry] are a non-empty prefix of:
    request, sleep 1, request, sleep 3, request, sleep 8, each request
    being the same one; so a call sends at least one and at most
    [MAX_RETRIES] requests, sleeps the delays of [RETRY_DELAYS] in order,
    and sleeps at most 12 seconds in all.  The call changes nothing else
    in the client. *)
Theorem X1_call_trace_is_a_prefix_of_the_schedule
    (E : env) (m : http_method) (url : str) (payload : dict) (context : str)
    (w : world) :
  let r := request_of m url payload w in
  let w' :=
    match m with
    | POST => snd (_post_with_retry E url payload context w)
    | GET => snd (_get_with_retry E url payload context w)
    end in
  exists n,
    1 <= n <= 6
    /\ w' = after w (firstn n (full_trace r))
    /\ 1 <= attempts (firstn n (full_trace r)) <= MAX_RETRIES
    /\ sleeps (firstn n (full_trace r)) = firstn (n / 2) RETRY_DELAYS
    /\ (total_sleep (firstn n (full_trace r)) <= 12)%Z.
Proof.
  cbv zeta.
  assert (forall n (w' : world),
             1 <= n <= 6 ->
             w' = after w (firstn n (full_trace (request_of m url payload w))) ->
             exists n,
               1 <= n <= 6
               /\ w' = after w (firstn n (full_trace (request_of m url payload w)))
               /\ 1 <= attempts (firstn n (full_trace (request_of m url payload w)))
                  <= MAX_RETRIES
               /\ sleeps (firstn n (full_trace (request_of m url payload w)))
                  = firstn (n / 2) RETRY_DELAYS
               /\ (total_sleep (firstn n (full_trace (request_of m url payload w)))
                   <= 12)%Z) as Hfin.
  { intros n w' Hn Hw. exists n.
    destruct (schedule_prefix_bounds (request_of m url payload w) n Hn)
      as (Ha & Ht & Hs).
    repeat split; try assumption; lia. }
  destruct m.
  - destruct (get_call_cases E url payload context w)
      as (k & Hk & _ & [(x & _ & Hres)|(_ & e & a & _ & Hres)]);
      rewrite Hres; cbn [snd].
    + apply (Hfin (2 * k + 1)); [unfold MAX_RETRIES in Hk; lia | reflexivity].
    + apply (Hfin (if a then 6 else 5)); [destruct a; lia | reflexivity].
  - destruct (post_call_cases E url payload context w)
      as (k & Hk & _ & [(x & _ & Hres)|(_ & e & a & _ & Hres)]);
      rewrite Hres; cbn [snd].
    + apply (Hfin (2 * k + 1)); [unfold MAX_RETRIES in Hk; lia | reflexivity].
    + apply (Hfin (if a then 6 else 5)); [destruct a; lia | reflexivity].
Qed.

(** X2.  [_post_with_retry] returns a body exactly when some attempt is
    answered with status 200 and a decodable body while every attempt
    before it ended in a recorded failure; the body returned is the
    decoded body of that response, and the call ends with that request:
    no sleep follows the success. *)
Theorem X2_post_returns_the_body_of_the_first_200
    (E : env) (url : str) (body : dict) (context : str) (w : world)
    (b : dict) :
  let out := outcome_at E POST url body w in
  let r := request_of POST url body w in
  let res := _post_with_retry E url body context w in
  (fst res = inr b <->
   exists k text,
     k < MAX_RETRIES
     /\ out k = Response 200 text (inr b)
     /\ forall j, j < k -> recorded_failure (out j) <> None)
  /\
  (forall k text,
      k < MAX_RETRIES ->
      out k = Response 200 text (inr b) ->
      (forall j, j < k -> recorded_failure (out j) <> None) ->
      res = (inr b, after w (firstn (2 * k + 1) (full_trace r)))).
Proof.
  cbv zeta.
  assert (forall k text,
             k < MAX_RETRIES ->
             outcome_at E POST url body w k = Response 200 text (inr b) ->
             (forall j, j < k ->
                recorded_failure (outcome_at E POST url body w j) <> None) ->
             _post_with_retry E url body context w
             = (inr b,
                after w (firstn (2 * k + 1)
                           (full_trace (request_of POST url body w))))) as Hback.
  { intros k text Hk Hout Hbefore.
    apply post_call_stops_at; [exact Hk | exact Hbefore |].
    apply post_verdict_returns. exists text. exact Hout. }
  split; [|exact Hback]. split.
  - intros Hret.
    destruct (post_call_cases E url body context w)
      as (k & Hk & Hbefore & [(x & Hv & Hres)|(_ & e & a & _ & Hres)]);
      rewrite Hres in Hret; cbn [fst] in Hret; [|discriminate Hret].
    subst x. apply post_verdict_returns in Hv. destruct Hv as [text Hv].
    exists k, text. repeat split; assumption.
  - intros (k & text & Hk & Hout & Hbefore).
    rewrite (Hback k text Hk Hout Hbefore). reflexivity.
Qed.

(** X3.  [_get_with_retry] returns the document [d] exactly when some
    attempt is answered with status 200 and the body [d], every attempt
    before it having ended in a recorded failure.  It returns, rather
    than raises, exactly when the first attempt that does not end in a
    recorded failure is answered with a 200 whose body decodes or with a
    404.  A 404, also one that arrives after retried attempts, ends the
    call at once with [None], and no sleep follows it.  (Decoded bodies
    are JSON objects here; what the call returns for a 200 whose body is
    not an object is not stated.) *)
Theorem X3_get_returns_the_first_200_or_404
    (E : env) (url : str) (params : dict) (context : str) (w : world) :
  let out := outcome_at E GET url params w in
  let r := request_of GET url params w in
  let res := _get_with_retry E url params context w in
  (forall d,
      fst res = inr (Some d) <->
      exists k text,
        k < MAX_RETRIES
        /\ out k = Response 200 text (inr d)
        /\ forall j, j < k -> recorded_failure (out j) <> None)
  /\
  ((exists x, fst res = inr x) <->
   exists k,
     k < MAX_RETRIES
     /\ (forall j, j < k -> recorded_failure (out j) <> None)
     /\ ((exists text d, out k = Response 200 text (inr d))
         \/ (exists text json, out k = Response 404 text json)))
  /\
  (forall k text json,
      k < MAX_RETRIES ->
      out k = Response 404 text json ->
      (forall j, j < k -> recorded_failure (out j) <> None) ->
      res = (inr None, after w (firstn (2 * k + 1) (full_trace r)))).
Proof.
  cbv zeta.
  assert (forall k text json,
             k < MAX_RETRIES ->
             outcome_at E GET url params w k = Response 404 text json ->
             (forall j, j < k ->
                recorded_failure (outcome_at E GET url params w j) <> None) ->
             _get_with_retry E url params context w
             = (inr None,
                after w (firstn (2 * k + 1)
                           (full_trace (request_of GET url params w))))) as Hback.
  { intros k text json Hk Hout Hbefore.
    apply get_call_stops_at; [exact Hk | exact Hbefore |].
    apply get_verdict_not_found. exists text, json. exact Hout. }
  assert (forall k text d,
             k < MAX_RETRIES ->
             outcome_at E GET url params w k = Response 200 text (inr d) ->
             (forall j, j < k ->
                recorded_failure (outcome_at E GET url params w j) <> None) ->
             _get_with_retry E url params context w
             = (inr (Some d),
                after w (firstn (2 * k + 1)
                           (full_trace (request_of GET url params w))))) as Hdoc.
  { intros k text d Hk Hout Hbefore.
    apply get_call_stops_at; [exact Hk | exact Hbefore |].
    apply get_verdict_returns. exists text. exact Hout. }
  split; [|split; [|exact Hback]].
  - intros d. split.
    + intros Hret.
      destruct (get_call_cases E url params context w)
        as (k & Hk & Hbefore & [(x & Hv & Hres)|(_ & e & a & _ & Hres)]);
        rewrite Hres in Hret; cbn [fst] in Hret; [|discriminate Hret].
      subst x. apply get_verdict_returns in Hv. destruct Hv as [text Hv].
      exists k, text. repeat split; assumption.
    + intros (k & text & Hk & Hout & Hbefore).
      rewrite (Hdoc k text d Hk Hout Hbefore). reflexivity.
  - split.
    + intros [x Hret].
      destruct (get_call_cases E url params context w)
        as (k & Hk & Hbefore & [(y & Hv & Hres)|(_ & e & a & _ & Hres)]);
        rewrite Hres in Hret; cbn [fst] in Hret; [|discriminate Hret].
      subst y. exists k. split; [exact Hk|]. split; [exact Hbefore|].
      destruct x as [d|].
      * left. apply get_verdict_returns in Hv. destruct Hv as [text Hv].
        exists text, d. exact Hv.
      * right. apply get_verdict_not_found in Hv. exact Hv.
    + intros (k & Hk & Hbefore & [(text & d & Hout)|(text & json & Hout)]).
      * exists (Some d). rewrite (Hdoc k text d Hk Hout Hbefore). reflexivity.
      * exists None. rewrite (Hback k text json Hk Hout Hbefore). reflexivity.
Qed.

(** X4.  An exception raised by [_post_with_retry] or [_get_with_retry]
    always has its cause in the outcome of the attempt that ended the
    call: the status and text of a response, a timeout (as 504), a
    transport error (as 502 with its message), a body that failed to
    decode, or a foreign exception.  Hence the loops never raise an
    [IndexError] of their own from [RETRY_DELAYS], and the generic
    [SearchError(500, "All retries exhausted")] of the last line is never
    what a call raises on its own account. *)
Theorem X4_raised_exception_has_its_cause_in_an_outcome
    (E : env) (url : str) (payload : dict) (context : str) (w : world)
    (e : exn) :
  (fst (_post_with_retry E url payload context w) = inl e ->
   exists k,
     k < MAX_RETRIES
     /\ raised_by_post (outcome_at E POST url payload w k) e
     /\ forall j, j < k ->
          recorded_failure (outcome_at E POST url payload w j) <> None)
  /\
  (fst (_get_with_retry E url payload context w) = inl e ->
   exists k,
     k < MAX_RETRIES
     /\ raised_by_get (outcome_at E GET url payload w k) e
     /\ forall j, j < k ->
          recorded_failure (outcome_at E GET url payload w j) <> None).
Proof.
  split.
  - intros Hraise.
    destruct (post_call_cases E url payload context w)
      as (k & Hk & Hbefore & [(x & Hv & Hres)|(-> & e' & a & Hv & Hres)]);
      rewrite Hres in Hraise; cbn [fst] in Hraise.
    + subst x. exists k. repeat split; try assumption.
      apply post_verdict_raises. exact Hv.
    + injection Hraise as ->. exists 2. repeat split; try assumption.
      apply post_verdict_retries in Hv. tauto.
  - intros Hraise.
    destruct (get_call_cases E url payload context w)
      as (k & Hk & Hbefore & [(x & Hv & Hres)|(-> & e' & a & Hv & Hres)]);
      rewrite Hres in Hraise; cbn [fst] in Hraise.
    + subst x. exists k. repeat split; try assumption.
      apply get_verdict_raises. exact Hv.
    + injection Hraise as ->. exists 2. repeat split; try assumption.
      apply get_verdict_retries in Hv. tauto.
Qed.

(** X5.  When all three attempts fail at the transport level (timeouts
    or other httpx errors, in any mix), the call sends three requests,
    sleeps exactly twice, 1s then 3s, with no sleep after the final
    attempt, and raises the failure recorded for the third attempt. *)
Theorem X5_transport_failures_sleep_between_attempts_only
    (E : env) (url : str) (payload : dict) (context : str) (w : world)
    (Hfail : forall k r, k < MAX_RETRIES ->
               transport_failure (exchange E (w_sent w + k) r)) :
  (exists e,
      recorded_failure (outcome_at E POST url payload w 2) = Some e
      /\ _post_with_retry E url payload context w
         = (inl e,
            after w (firstn 5 (full_trace (request_of POST url payload w)))))
  /\
  (exists e,
      recorded_failure (outcome_at E GET url payload w 2) = Some e
      /\ _get_with_retry E url payload context w
         = (inl e,
            after w (firstn 5 (full_trace (request_of GET url payload w)))))
  /\ (forall r, sleeps (firstn 5 (full_trace r)) = [1; 3]%Z)
  /\ (forall r, attempts (firstn 5 (full_trace r)) = 3).
Proof.
  assert (forall o, transport_failure o -> recorded_failure o <> None) as Hrec.
  { intros o [->|[msg ->]]; discriminate. }
  assert (forall o, transport_failure o ->
                    exists e, recorded_failure o = Some e
                              /\ post_verdict o = Retries e false
                              /\ get_verdict o = Retries e false) as Hv.
  { intros o [->|[msg ->]]; eexists; repeat split. }
  assert (forall m k, k < MAX_RETRIES ->
                      transport_failure (outcome_at E m url payload w k)) as Hout.
  { intros m k Hk. apply Hfail. exact Hk. }
  unfold MAX_RETRIES in *.
  split; [|split; [|split; reflexivity]].
  - destruct (Hv _ (Hout POST 2 ltac:(lia))) as (e & He & Hp & _).
    exists e. split; [exact He|].
    apply (post_call_runs_out E url payload context w e false); [|exact Hp].
    intros j Hj. apply Hrec, Hout. lia.
  - destruct (Hv _ (Hout GET 2 ltac:(lia))) as (e & He & _ & Hg).
    exists e. split; [exact He|].
    apply (get_call_runs_out E url payload context w e false); [|exact Hg].
    intros j Hj. apply Hrec, Hout. lia.
Qed.

(* ================================================================== *)
(** * The request bodies                                                *)
(* ================================================================== *)

Lemma eqb_true_iff (a b : str) : eqb a b = true <-> a = b.
Proof.
  unfold eqb. destruct (list_eq_dec N.eq_dec a b); split; congruence.
Qed.

Lemma eqb_refl (a : str) : eqb a a = true.
Proof. apply eqb_true_iff. reflexivity. Qed.

(** Lookup after an assignment. *)
Lemma dict_get_set (k k' : str) (v : jvalue) (d : dict) :
  dict_get k (dict_set k' v d) = if eqb k' k then Some v else dict_get k d.
Proof.
  induction d as [|[a x] d IH].
  - cbn [dict_set dict_get]. destruct (eqb k' k); reflexivity.
  - cbn [dict_set dict_get].
    destruct (eqb a k') eqn:Hak'.
    + apply eqb_true_iff in Hak'. subst a. cbn [dict_get].
      destruct (eqb k' k); reflexivity.
    + cbn [dict_get]. rewrite IH.
      destruct (eqb a k) eqn:Hak; [|reflexivity].
      apply eqb_true_iff in Hak. subst a.
      destruct (eqb k' k) eqn:Hk'k; [|reflexivity].
      apply eqb_true_iff in Hk'k. subst k'.
      rewrite eqb_refl in Hak'. discriminate Hak'.
Qed.

Lemma dict_get_set_if_str (k k' : str) (value : option str) (d : dict) :
  dict_get k (set_if_str k' value d)
  = if eqb k' k && truthy_opt value then option_map JStr value
    else dict_get k d.
Proof.
  unfold set_if_str. destruct value as [v|]; cbn [truthy_opt option_map].
  - destruct (truthy v); rewrite ?dict_get_set;
      destruct (eqb k' k); reflexivity.
  - rewrite andb_false_r. reflexivity.
Qed.

Lemma dict_get_set_if_select (k k' : str) (select : option (list str))
    (d : dict) :
  dict_get k (set_if_select k' select d)
  = match select with
    | Some (f :: fs) =>
      if eqb k' k then Some (JStr (join (lit ",") (f :: fs)))
      else dict_get k d
    | _ => dict_get k d
    end.
Proof.
  unfold set_if_select. destruct select as [[|f fs]|]; try reflexivity.
  apply dict_get_set.
Qed.

Lemma post_call_world (E : env) (url : str) (body : dict) (context : str)
    (w : world) :
  exists n,
    1 <= n <= 6
    /\ snd (_post_with_retry E url body context w)
       = after w (firstn n (full_trace (request_of POST url body w))).
Proof.
  destruct (post_call_cases E url body context w)
    as (k & Hk & _ & [(x & _ & Hres)|(_ & e & a & _ & Hres)]);
    rewrite Hres; cbn [snd]; unfold MAX_RETRIES in *.
  - exists (2 * k + 1). split; [lia | reflexivity].
  - exists (if a then 6 else 5). split; [destruct a; lia | reflexivity].
Qed.

Lemma get_call_world (E : env) (url : str) (params : dict) (context : str)
    (w : world) :
  exists n,
    1 <= n <= 6
    /\ snd (_get_with_retry E url params context w)
       = after w (firstn n (full_trace (request_of GET url params w))).
Proof.
  destruct (get_call_cases E url params context w)
    as (k & Hk & _ & [(x & _ & Hres)|(_ & e & a & _ & Hres)]);
    rewrite Hres; cbn [snd]; unfold MAX_RETRIES in *.
  - exists (2 * k + 1). split; [lia | reflexivity].
  - exists (if a then 6 else 5). split; [destruct a; lia | reflexivity].
Qed.

Lemma schedule_prefix_requests (r : request) (n : nat) :
  1 <= n ->
  exists rest,
    firstn n (full_trace r) = EvSend r :: rest
    /\ Forall (is_request r) rest.
Proof.
  intros Hn.
  destruct n as [|[|[|[|[|[|n]]]]]]; [lia| | | | | |];
    cbn [firstn full_trace]; rewrite ?firstn_nil;
    eexists; (split; [reflexivity|]);
    repeat (first [apply Forall_nil | apply Forall_cons; [cbn; auto|]]).
Qed.

(** The events of a public call whose token request succeeded. *)
Lemma refreshed_post_trace (E : env) (url : str) (body : dict)
    (context : str) (w : world) (t : str) :
  get_token E (w_acquired w) = inr t ->
  let r := {| r_method := POST; r_url := url; r_payload := body;
              r_authorization := Some (lit "Bearer " ++ t) |} in
  exists rest,
    w_trace (snd ((_refresh_token E ;;; _post_with_retry E url body context) w))
    = w_trace w ++ EvGetToken SEARCH_SCOPE :: EvSend r :: rest
    /\ Forall (is_request r) rest.
Proof.
  intros Ht r. unfold bind, _refresh_token. rewrite Ht.
  destruct (post_call_world E url body context (refreshed t w)) as (n & Hn & Hw).
  destruct (schedule_prefix_requests
              (request_of POST url body (refreshed t w)) n ltac:(lia))
    as (rest & Hrest & Hall).
  exists rest. split; [|exact Hall].
  destruct (_post_with_retry E url body context (refreshed t w)) as [x w'].
  cbn [snd] in *. subst w'. rewrite Hrest.
  cbn [after w_trace refreshed]. rewrite <- app_assoc. reflexivity.
Qed.

Lemma refreshed_get_trace (E : env) (url : str) (params : dict)
    (context : str) (w : world) (t : str) :
  get_token E (w_acquired w) = inr t ->
  let r := {| r_method := GET; r_url := url; r_payload := params;
              r_authorization := Some (lit "Bearer " ++ t) |} in
  exists rest,
    w_trace (snd ((_refresh_token E ;;; _get_with_retry E url params context) w))
    = w_trace w ++ EvGetToken SEARCH_SCOPE :: EvSend r :: rest
    /\ Forall (is_request r) rest.
Proof.
  intros Ht r. unfold bind, _refresh_token. rewrite Ht.
  destruct (get_call_world E url params context (refreshed t w)) as (n & Hn & Hw).
  destruct (schedule_prefix_requests
              (request_of GET url params (refreshed t w)) n ltac:(lia))
    as (rest & Hrest & Hall).
  exists rest. split; [|exact Hall].
  destruct (_get_with_retry E url params context (refreshed t w)) as [x w'].
  cbn [snd] in *. subst w'. rewrite Hrest.
  cbn [after w_trace refreshed]. rewrite <- app_assoc. reflexivity.
Qed.

Lemma search_first_request
    (E : env) (index search_text query_type : str)
    (filter order_by semantic_config answers captions : option str)
    (select : option (list str)) (top skip : Z) (count : bool)
    (w : world) (t : str)
    (Htoken : get_token E (w_acquired w) = inr t) :
  exists body rest,
    let r := {| r_method := POST; r_url := search_url index;
                r_payload := body;
                r_authorization := Some (lit "Bearer " ++ t) |} in
    w_trace (snd (search E index search_text filter select top skip order_by
                    query_type semantic_config count answers captions w))
    = w_trace w ++ EvGetToken SEARCH_SCOPE :: EvSend r :: rest
    /\ Forall (is_request r) rest
    /\ dict_get (lit "search") body = Some (JStr search_text)
    /\ dict_get (lit "queryType") body = Some (JStr query_type)
    /\ dict_get (lit "top") body = Some (JInt top)
    /\ dict_get (lit "skip") body = Some (JInt skip)
    /\ dict_get (lit "count") body = Some (JBool count)
    /\ dict_get (lit "filter") body
       = (if truthy_opt filter then option_map JStr filter else None)
    /\ dict_get (lit "select") body
       = match select with
         | Some (f :: fs) => Some (JStr (join (lit ",") (f :: fs)))
         | _ => None
         end
    /\ dict_get (lit "orderby") body
       = (if truthy_opt order_by then option_map JStr order_by else None)
    /\ dict_get (lit "semanticConfiguration") body
       = (if truthy_opt semantic_config && eqb query_type (lit "semantic")
          then option_map JStr semantic_config else None)
    /\ dict_get (lit "answers") body
       = (if truthy_opt answers then option_map JStr answers else None)
    /\ dict_get (lit "captions") body
       = (if truthy_opt captions then option_map JStr captions else None).
Proof.
  unfold search. cbv zeta.
  match goal with
  | |- context [_post_with_retry E ?u ?b ?c] =>
    destruct (refreshed_post_trace E u b c w t Htoken) as (rest & Htr & Hall);
    exists b, rest
  end.
  cbv zeta. split; [exact Htr|]. split; [exact Hall|].
  destruct (truthy_opt semantic_config && eqb query_type (lit "semantic"))
    eqn:Hsem;
    repeat rewrite ?dict_get_set_if_str, ?dict_get_set_if_select;
    cbn [dict_get];
    repeat split;
    repeat match goal with
           | |- context [eqb (lit ?a) (lit ?b)] =>
             let v := eval vm_compute in (eqb (lit a) (lit b)) in
             change (eqb (lit a) (lit b)) with v
           end;
    cbn [andb];
    try reflexivity;
    try (destruct select as [[|f fs]|]; reflexivity);
    try (apply andb_true_iff in Hsem; destruct Hsem as [-> _]; reflexivity).
Qed.

(** X10.  Once its token is acquired, [search] sends, as its first and
    every later request, a POST to the index's search URL with the fresh
    bearer and a body that always carries [search], [queryType], [top],
    [skip] and [count]; [filter], [orderby], [answers] and [captions] are
    in the body exactly when given and not empty, [select] exactly when
    the field list is not empty (joined with commas), and
    [semanticConfiguration] exactly when it is given, not empty, and the
    query type is ["semantic"]. *)
Theorem X10_search_body_carries_what_was_given
    (E : env) (index search_text query_type : str)
    (filter order_by semantic_config answers captions : option str)
    (select : option (list str)) (top skip : Z) (count : bool)
    (w : world) (t : str)
    (Htoken : get_token E (w_acquired w) = inr t) :
  exists body rest,
    let r := {| r_method := POST; r_url := search_url index;
                r_payload := body;
                r_authorization := Some (lit "Bearer " ++ t) |} in
    w_trace (snd (search E index search_text filter select top skip order_by
                    query_type semantic_config count answers captions w))
    = w_trace w ++ EvGetToken SEARCH_SCOPE :: EvSend r :: rest
    /\ Forall (is_request r) rest
    /\ dict_get (lit "search") body = Some (JStr search_text)
    /\ dict_get (lit "queryType") body = Some (JStr query_type)
    /\ dict_get (lit "top") body = Some (JInt top)
    /\ dict_get (lit "skip") body = Some (JInt skip)
    /\ dict_get (lit "count") body = Some (JBool count)
    /\ dict_get (lit "filter") body
       = (if truthy_opt filter then option_map JStr filter else None)
    /\ dict_get (lit "select") body
       = match select with
         | Some (f :: fs) => Some (JStr (join (lit ",") (f :: fs)))
         | _ => None
         end
    /\ dict_get (lit "orderby") body
       = (if truthy_opt order_by then option_map JStr order_by else None)
    /\ dict_get (lit "semanticConfiguration") body
       = (if truthy_opt semantic_config && eqb query_type (lit "semantic")
          then option_map JStr semantic_config else None)
    /\ dict_get (lit "answers") body
       = (if truthy_opt answers then option_map JStr answers else None)
    /\ dict_get (lit "captions") body
       = (if truthy_opt captions then option_map JStr captions else None).
Proof.
  exact (search_first_request E index search_text query_type filter order_by
    semantic_config answers captions select top skip count w t Htoken).
Qed.

Lemma hybrid_first_request
    (E : env) (index search_text vector_fields vectorizer : str)
    (select : option (list str)) (top : Z)
    (semantic_config answers captions : option str)
    (w : world) (t : str)
    (Htoken : get_token E (w_acquired w) = inr t) :
  exists body rest,
    let r := {| r_method := POST; r_url := search_url index;
                r_payload := body;
                r_authorization := Some (lit "Bearer " ++ t) |} in
    w_trace (snd (hybrid_search E index search_text vector_fields vectorizer
                    select top semantic_config answers captions w))
    = w_trace w ++ EvGetToken SEARCH_SCOPE :: EvSend r :: rest
    /\ Forall (is_request r) rest
    /\ dict_get (lit "search") body = Some (JStr search_text)
    /\ dict_get (lit "queryType") body = Some (JStr (lit "semantic"))
    /\ dict_get (lit "top") body = Some (JInt top)
    /\ dict_get (lit "count") body = Some (JBool true)
    /\ dict_get (lit "vectorQueries") body
       = Some (JList [ JObj [ (lit "kind", JStr (lit "text"));
                              (lit "text", JStr search_text);
                              (lit "fields", JStr vector_fields);
                              (lit "k", JInt top) ] ])
    /\ dict_get (lit "skip") body = None
    /\ dict_get (lit "filter") body = None
    /\ dict_get (lit "orderby") body = None
    /\ dict_get (lit "select") body
       = match select with
         | Some (f :: fs) => Some (JStr (join (lit ",") (f :: fs)))
         | _ => None
         end
    /\ dict_get (lit "semanticConfiguration") body
       = (if truthy_opt semantic_config
          then option_map JStr semantic_config else None)
    /\ dict_get (lit "answers") body
       = (if truthy_opt answers then option_map JStr answers else None)
    /\ dict_get (lit "captions") body
       = (if truthy_opt captions then option_map JStr captions else None).
Proof.
  unfold hybrid_search. cbv zeta.
  match goal with
  | |- context [_post_with_retry E ?u ?b ?c] =>
    destruct (refreshed_post_trace E u b c w t Htoken) as (rest & Htr & Hall);
    exists b, rest
  end.
  cbv zeta. split; [exact Htr|]. split; [exact Hall|].
  repeat rewrite ?dict_get_set_if_str, ?dict_get_set_if_select;
    cbn [dict_get];
    repeat split;
    repeat match goal with
           | |- context [eqb (lit ?a) (lit ?b)] =>
             let v := eval vm_compute in (eqb (lit a) (lit b)) in
             change (eqb (lit a) (lit b)) with v
           end;
    cbn [andb];
    try reflexivity;
    try (destruct select as [[|f fs]|]; reflexivity).
Qed.

(** X21.  Once its token is acquired, [hybrid_search] sends, as its
    first and every later request, a POST to the same search URL as
    [search], with the fresh bearer and a semantic query body with
    [count] on: one vector query of kind ["text"] over [vector_fields]
    whose text is the search text and whose [k] is [top]; no [skip],
    [filter] or [orderby]; [select], [semanticConfiguration], [answers]
    and [captions] exactly when given and not empty.  The [vectorizer]
    argument has no effect at all on the call. *)
Theorem X21_hybrid_search_sends_one_text_vector_query
    (E : env) (index search_text vector_fields vectorizer : str)
    (select : option (list str)) (top : Z)
    (semantic_config answers captions : option str)
    (w : world) (t : str)
    (Htoken : get_token E (w_acquired w) = inr t) :
  let call := hybrid_search E index search_text vector_fields vectorizer
                select top semantic_config answers captions in
  (forall other,
      hybrid_search E index search_text vector_fields other select top
        semantic_config answers captions w
      = call w)
  /\
  exists body rest,
    let r := {| r_method := POST; r_url := search_url index;
                r_payload := body;
                r_authorization := Some (lit "Bearer " ++ t) |} in
    w_trace (snd (call w))
    = w_trace w ++ EvGetToken SEARCH_SCOPE :: EvSend r :: rest
    /\ Forall (is_request r) rest
    /\ dict_get (lit "search") body = Some (JStr search_text)
    /\ dict_get (lit "queryType") body = Some (JStr (lit "semantic"))
    /\ dict_get (lit "top") body = Some (JInt top)
    /\ dict_get (lit "count") body = Some (JBool true)
    /\ dict_get (lit "vectorQueries") body
       = Some (JList [ JObj [ (lit "kind", JStr (lit "text"));
                              (lit "text", JStr search_text);
                              (lit "fields", JStr vector_fields);
                              (lit "k", JInt top) ] ])
    /\ dict_get (lit "skip") body = None
    /\ dict_get (lit "filter") body = None
    /\ dict_get (lit "orderby") body = None
    /\ dict_get (lit "select") body
       = match select with
         | Some (f :: fs) => Some (JStr (join (lit ",") (f :: fs)))
         | _ => None
         end
    /\ dict_get (lit "semanticConfiguration") body
       = (if truthy_opt semantic_config
          then option_map JStr semantic_config else None)
    /\ dict_get (lit "answers") body
       = (if truthy_opt answers then option_map JStr answers else None)
    /\ dict_get (lit "captions") body
       = (if truthy_opt captions then option_map JStr captions else None).
Proof.
  cbv zeta. split; [reflexivity|].
  exact (hybrid_first_request E index search_text vector_fields vectorizer
           select top semantic_config answers captions w t Htoken).
Qed.

(* ================================================================== *)
(** * The endpoints                                                     *)
(* ================================================================== *)

Lemma handle_world (body : M http_response) (search_failed : str)
    (w : world) :
  snd (handle body search_failed w) = snd (body w).
Proof.
  unfold handle. destruct (body w) as [[e|r] w']; [destruct e|]; reflexivity.
Qed.

Lemma handle_result (body : M http_response) (search_failed : str)
    (w : world) :
  (exists r, fst (body w) = inr r /\ fst (handle body search_failed w) = r)
  \/ ((exists e, fst (body w) = inl e)
      /\ canned_failure search_failed (fst (handle body search_failed w))).
Proof.
  unfold handle, canned_failure.
  destruct (body w) as [[e|r] w']; cbn [fst].
  - right. split; [exists e; reflexivity|].
    destruct e; cbn [fst]; auto.
  - left. exists r. split; reflexivity.
Qed.

Lemma snd_bind_pure {A B} (c : M A) (k : A -> M B) (w : world) :
  (forall a w1, snd (k a w1) = w1) -> snd (bind c k w) = snd (c w).
Proof.
  intros Hk. unfold bind. destruct (c w) as [[e|a] w1]; [reflexivity|].
  apply Hk.
Qed.

Lemma snd_lift {A} (x : exn + A) (w : world) : snd (lift x w) = w.
Proof. destruct x; reflexivity. Qed.

Lemma format_all_objects (f : jvalue -> exn + jvalue) (docs : list jvalue) :
  (forall doc, is_object doc -> exists r, f doc = inr r) ->
  Forall is_object docs ->
  exists rs, format_all f docs = inr rs /\ length rs = length docs.
Proof.
  intros Hf. induction 1 as [|doc docs Hdoc _ IH].
  - exists []. split; reflexivity.
  - destruct (Hf doc Hdoc) as [r Hr]. destruct IH as (rs & Hrs & Hlen).
    exists (r :: rs). cbn [format_all]. rewrite Hr, Hrs.
    split; [reflexivity | cbn [length]; congruence].
Qed.

Section Endpoints.

Variable upper lower : str -> str.
Variable isdigit_char : char -> bool.
Variable format_detail : dict -> exn + jvalue.
Variable format_summary : jvalue -> exn + jvalue.

(** The part of a search endpoint after the search call changes nothing
    in the world. *)
Lemma search_pharmacies_world (E : env) (q city : option str)
    (emergency mail_order : option bool)
    (pharmacy_type postal_code : option str) (max_results : Z) (w : world) :
  (truthy_opt q || truthy_opt city || truthy_obool emergency
   || truthy_obool mail_order || truthy_opt pharmacy_type
   || truthy_opt postal_code) = true ->
  snd (search_pharmacies lower format_summary E q city emergency mail_order
         pharmacy_type postal_code max_results w)
  = snd (search E PHARMACIES_INDEX
           (match q with
            | Some q' => if truthy q' then q' else lit "*"
            | None => lit "*"
            end)
           (_build_pharmacy_filters lower city emergency mail_order
              pharmacy_type postal_code)
           (Some PHARMACY_SEARCH_FIELDS) max_results 0 None
           (if truthy_opt q then lit "semantic" else lit "simple")
           (Some PHARMACIES_SEMANTIC_CONFIG) true None None w).
Proof.
  intros Hgiven. unfold search_pharmacies. rewrite handle_world.
  assert (negb (truthy_opt q) && negb (truthy_opt city)
          && negb (truthy_obool emergency) && negb (truthy_obool mail_order)
          && negb (truthy_opt pharmacy_type) && negb (truthy_opt postal_code)
          = false) as ->.
  { destruct (truthy_opt q), (truthy_opt city), (truthy_obool emergency),
      (truthy_obool mail_order), (truthy_opt pharmacy_type),
      (truthy_opt postal_code); try reflexivity; discriminate Hgiven. }
  cbv zeta. apply snd_bind_pure. intros result w1.
  rewrite snd_bind_pure; [apply snd_lift|]. intros docs w2.
  rewrite snd_bind_pure; [apply snd_lift|]. intros pharmacies w3.
  reflexivity.
Qed.

Lemma search_trace_starts_with_token (E : env) (index search_text : str)
    (filter : option str) (select : option (list str)) (top skip : Z)
    (order_by : option str) (query_type : str)
    (semantic_config : option str) (count : bool)
    (answers captions : option str) (w : world) :
  exists tr,
    w_trace (snd (search E index search_text filter select top skip order_by
                    query_type semantic_config count answers captions w))
    = w_trace w ++ EvGetToken SEARCH_SCOPE :: tr.
Proof.
  unfold search. cbv zeta.
  match goal with
  | |- context [_post_with_retry E ?u ?b ?c] =>
    pose proof (refresh_then_quiet E (_post_with_retry E u b c)
                  (quiet_post_with_retry E u b c) w) as [Hfail Hok]
  end.
  destruct (get_token E (w_acquired w)) as [e|t] eqn:Ht.
  - destruct (Hfail e eq_refl) as [_ Htr]. exists []. exact Htr.
  - destruct (Hok t eq_refl) as (tr & Htr & _). exists tr. exact Htr.
Qed.

Lemma join_parts_truthy (parts : list str) :
  Forall (fun c : str => c <> []) parts ->
  (if truthy_opt (join_parts parts)
   then option_map JStr (join_parts parts) else None)
  = option_map JStr (join_parts parts).
Proof.
  intros Hall.
  destruct (join_parts parts) as [s|] eqn:Hj; [|reflexivity].
  destruct (join_parts_spec parts Hall) as [_ Hs].
  destruct (Hs s Hj) as [Hne _].
  cbn [truthy_opt]. rewrite (truthy_nonempty s Hne). reflexivity.
Qed.

Lemma drug_filter_truthy (atc holder dispensing form : option str)
    (doping available : option bool) :
  let f := _build_drug_filters upper lower atc holder dispensing doping
             available form in
  (if truthy_opt f then option_map JStr f else None) = option_map JStr f.
Proof.
  cbv zeta. apply join_parts_truthy.
  rewrite drug_filter_parts_concat.
  repeat (apply Forall_app; split); apply at_most_one_nonempty;
    auto using step_atc_one, step_holder_one, step_dispensing_one,
      step_doping_one, step_available_one, step_form_one.
Qed.

Lemma pharmacy_filter_truthy (city pharmacy_type postal_code : option str)
    (emergency mail_order : option bool) :
  let f := _build_pharmacy_filters lower city emergency mail_order
             pharmacy_type postal_code in
  (if truthy_opt f then option_map JStr f else None) = option_map JStr f.
Proof.
  cbv zeta. apply join_parts_truthy.
  rewrite pharmacy_filter_parts_concat.
  repeat (apply Forall_app; split); apply at_most_one_nonempty;
    auto using step_city_one, step_emergency_one, step_mail_order_one,
      step_pharmacy_type_one, step_postal_code_one.
Qed.

(** X11.  The pharmacy search needs one criterion that is truthy: with
    none ([q], [city], [type], [postalCode] absent or empty and both flags
    absent or false) it answers 400 and contacts nothing; with one, its
    first step is to ask for a token.  Once the token is there, it sends
    the filter of [_build_pharmacy_filters] unchanged; without a query
    text it searches for ["*"] with query type ["simple"] and sends no
    semantic configuration, and with one it searches for that text with
    query type ["semantic"] and the pharmacies' semantic configuration. *)
Theorem X11_pharmacy_search_needs_one_truthy_criterion
    (E : env) (q city : option str) (emergency mail_order : option bool)
    (pharmacy_type postal_code : option str) (max_results : Z) (w : world) :
  let given :=
    truthy_opt q || truthy_opt city || truthy_obool emergency
    || truthy_obool mail_order || truthy_opt pharmacy_type
    || truthy_opt postal_code in
  let res :=
    search_pharmacies lower format_summary E q city emergency mail_order
      pharmacy_type postal_code max_results w in
  (given = false ->
   res = (JSONResponse 400
            (error_content
               (lit "Zadejte alespoň jeden parametr: q, city, emergency, mailOrder, type, nebo postalCode.")),
          w))
  /\
  (given = true ->
   exists tr, w_trace (snd res) = w_trace w ++ EvGetToken SEARCH_SCOPE :: tr)
  /\
  (given = true ->
   forall t,
     get_token E (w_acquired w) = inr t ->
     exists body rest,
       let r := {| r_method := POST; r_url := search_url PHARMACIES_INDEX;
                   r_payload := body;
                   r_authorization := Some (lit "Bearer " ++ t) |} in
       w_trace (snd res)
       = w_trace w ++ EvGetToken SEARCH_SCOPE :: EvSend r :: rest
       /\ Forall (is_request r) rest
       /\ dict_get (lit "search") body
          = Some (JStr (match q with
                        | Some q' => if truthy q' then q' else lit "*"
                        | None => lit "*"
                        end))
       /\ dict_get (lit "queryType") body
          = Some (JStr (if truthy_opt q then lit "semantic" else lit "simple"))
       /\ dict_get (lit "semanticConfiguration") body
          = (if truthy_opt q
             then Some (JStr PHARMACIES_SEMANTIC_CONFIG) else None)
       /\ dict_get (lit "filter") body
          = option_map JStr
              (_build_pharmacy_filters lower city emergency mail_order
                 pharmacy_type postal_code)
       /\ dict_get (lit "top") body = Some (JInt max_results)).
Proof.
  cbv zeta. split; [|split].
  - intros Hnone. unfold search_pharmacies, handle.
    apply orb_false_iff in Hnone. destruct Hnone as [Hnone ->].
    apply orb_false_iff in Hnone. destruct Hnone as [Hnone ->].
    apply orb_false_iff in Hnone. destruct Hnone as [Hnone ->].
    apply orb_false_iff in Hnone. destruct Hnone as [Hnone ->].
    apply orb_false_iff in Hnone. destruct Hnone as [-> ->].
    reflexivity.
  - intros Hgiven. rewrite (search_pharmacies_world _ _ _ _ _ _ _ _ _ Hgiven).
    apply search_trace_starts_with_token.
  - intros Hgiven t Ht.
    rewrite (search_pharmacies_world _ _ _ _ _ _ _ _ _ Hgiven).
    destruct (search_first_request E PHARMACIES_INDEX
                (match q with
                 | Some q' => if truthy q' then q' else lit "*"
                 | None => lit "*"
                 end)
                (if truthy_opt q then lit "semantic" else lit "simple")
                (_build_pharmacy_filters lower city emergency mail_order
                   pharmacy_type postal_code)
                None (Some PHARMACIES_SEMANTIC_CONFIG) None None
                (Some PHARMACY_SEARCH_FIELDS) max_results 0 true w t Ht)
      as (body & rest & Htr & Hall & Hs & Hq & Htop & _ & _ & Hf & _ & _ & Hsem & _).
    exists body, rest. cbv zeta.
    split; [exact Htr|]. split; [exact Hall|]. split; [exact Hs|].
    split; [exact Hq|]. split.
    + rewrite Hsem. destruct (truthy_opt q); reflexivity.
    + split; [|exact Htop].
      rewrite Hf.
      exact (pharmacy_filter_truthy city pharmacy_type postal_code emergency
               mail_order).
Qed.

(** X12.  Once the token is there, the drug search sends a semantic query
    for [q] with the drugs' semantic configuration, the requested page
    size, and the filter of [_build_drug_filters] unchanged.  When the
    backend's first answer is a 200 whose documents are objects, the
    response lists one summary per document, in order, and [total] is the
    backend's [@odata.count] or, without one, the number of documents. *)
Theorem X12_drug_search_forwards_the_filter_and_counts_results
    (E : env) (q : str) (atc holder dispensing : option str)
    (doping available : option bool) (form : option str) (max_results : Z)
    (w : world) (t : str)
    (Htoken : get_token E (w_acquired w) = inr t) :
  let res :=
    search_drugs upper lower E q atc holder dispensing doping available form
      max_results w in
  (exists body rest,
      let r := {| r_method := POST; r_url := search_url DRUGS_INDEX;
                  r_payload := body;
                  r_authorization := Some (lit "Bearer " ++ t) |} in
      w_trace (snd res)
      = w_trace w ++ EvGetToken SEARCH_SCOPE :: EvSend r :: rest
      /\ Forall (is_request r) rest
      /\ dict_get (lit "search") body = Some (JStr q)
      /\ dict_get (lit "queryType") body = Some (JStr (lit "semantic"))
      /\ dict_get (lit "semanticConfiguration") body
         = Some (JStr Drugs.SEMANTIC_CONFIG)
      /\ dict_get (lit "filter") body
         = option_map JStr
             (_build_drug_filters upper lower atc holder dispensing doping
                available form)
      /\ dict_get (lit "top") body = Some (JInt max_results))
  /\
  (forall text result docs,
      (forall r, exchange E (w_sent w) r = Response 200 text (inr result)) ->
      dict_get_or (lit "value") (JList []) result = JList docs ->
      Forall is_object docs ->
      exists drugs,
        format_all Drugs._format_drug_summary docs = inr drugs
        /\ length drugs = length docs
        /\ fst res
           = Payload
               (JObj
                  [ (lit "total",
                     dict_get_or (lit "@odata.count")
                       (JInt (Z.of_nat (length docs))) result);
                    (lit "drugs", JList drugs) ])).
Proof.
  cbv zeta. split.
  - unfold search_drugs. rewrite handle_world. cbv zeta.
    rewrite snd_bind_pure.
    2:{ intros result w1.
        rewrite snd_bind_pure; [apply snd_lift|]. intros docs w2.
        rewrite snd_bind_pure; [apply snd_lift|]. intros drugs w3.
        reflexivity. }
    destruct (search_first_request E DRUGS_INDEX q (lit "semantic")
                (_build_drug_filters upper lower atc holder dispensing doping
                   available form)
                None (Some Drugs.SEMANTIC_CONFIG) None None
                (Some Drugs.SEARCH_FIELDS) max_results 0 true w t Htoken)
      as (body & rest & Htr & Hall & Hs & Hq & Htop & _ & _ & Hf & _ & _ & Hsem & _).
    exists body, rest. cbv zeta.
    split; [exact Htr|]. split; [exact Hall|]. split; [exact Hs|].
    split; [exact Hq|]. split; [exact Hsem|]. split; [|exact Htop].
    rewrite Hf.
    exact (drug_filter_truthy atc holder dispensing form doping available).
  - intros text result docs Hout Hvalue Hobjects.
    destruct (format_all_objects Drugs._format_drug_summary docs) as (drugs & Hd & Hlen).
    { intros doc [o ->]. eexists. reflexivity. }
    { exact Hobjects. }
    exists drugs. split; [exact Hd|]. split; [exact Hlen|].
    unfold search_drugs, handle. cbv zeta.
    unfold search. cbv zeta. unfold bind at 1 2. unfold _refresh_token.
    rewrite Htoken.
    match goal with
    | |- context [_post_with_retry E ?u ?b ?c (refreshed t w)] =>
      rewrite (post_call_stops_at E u b c (refreshed t w) 0 (inr result))
    end.
    + unfold bind, lift. rewrite Hvalue. cbn [iterate].
      cbv beta iota delta [ret]. rewrite Hd.
      cbv beta iota delta [ret fst]. rewrite Hlen. reflexivity.
    + unfold MAX_RETRIES. lia.
    + intros j Hj. lia.
    + unfold outcome_at. rewrite Nat.add_0_r. cbn [w_sent refreshed].
      rewrite Hout. reflexivity.
Qed.

(** X13.  What the four endpoints answer, as a function of what the
    search client gave them.  A detail endpoint refuses a code that is
    not all digits with its 400 text; otherwise a missing document gives
    the 404 text with the code as given, and a found one is shaped by the
    endpoint's formatter.  A search endpoint (the pharmacy search once a
    criterion is given) lists the shaped documents of the client's result
    under [drugs] or [pharmacies] with [total].  Every exception, of the
    client or of the shaping, is answered by [failure_answer]: 502 with
    the endpoint's own text for a [SearchError] of any status and detail,
    500 with the common text for anything else; so no status, detail or
    exception text is ever part of an answer. *)
Theorem X13_endpoints_answer_with_fixed_failure_texts
    (E : env) (code : str) (q city atc holder dispensing form : option str)
    (pharmacy_type postal_code : option str)
    (emergency mail_order doping available : option bool)
    (query : str) (max_results : Z) (w : world) :
  (let key := zfill 7 (strip code) in
   fst (get_drug_detail isdigit_char format_detail E code w)
   = if isdigit isdigit_char key then
       detail_answer
         (lit "Načtení detailu léku selhalo, zkuste to prosím znovu.")
         (lit "Léčivý přípravek s kódem " ++ code ++ lit " nebyl nalezen.")
         format_detail
         (fst (get_document E DRUGS_INDEX key (Some DRUG_DETAIL_FIELDS) w))
     else JSONResponse 400 (error_content (lit "Kód SÚKL musí být číslo.")))
  /\
  (let key := strip code in
   fst (get_pharmacy_detail isdigit_char E code w)
   = if isdigit isdigit_char key then
       detail_answer
         (lit "Načtení detailu lékárny selhalo, zkuste to prosím znovu.")
         (lit "Lékárna s kódem " ++ code ++ lit " nebyla nalezena.")
         (fun doc => inr (Pharmacies._format_pharmacy_detail doc))
         (fst (get_document E PHARMACIES_INDEX key
                 (Some Pharmacies.DETAIL_FIELDS) w))
     else
       JSONResponse 400
         (error_content (lit "Kód pracoviště musí být číslo.")))
  /\
  (let given :=
     truthy_opt q || truthy_opt city || truthy_obool emergency
     || truthy_obool mail_order || truthy_opt pharmacy_type
     || truthy_opt postal_code in
   fst (search_pharmacies lower format_summary E q city emergency
          mail_order pharmacy_type postal_code max_results w)
   = if given then
       search_answer
         (lit "Vyhledávání lékáren selhalo, zkuste to prosím znovu.")
         (lit "pharmacies") format_summary
         (fst (search E PHARMACIES_INDEX
                 (match q with
                  | Some q' => if truthy q' then q' else lit "*"
                  | None => lit "*"
                  end)
                 (_build_pharmacy_filters lower city emergency mail_order
                    pharmacy_type postal_code)
                 (Some PHARMACY_SEARCH_FIELDS) max_results 0 None
                 (if truthy_opt q then lit "semantic" else lit "simple")
                 (Some PHARMACIES_SEMANTIC_CONFIG) true None None w))
     else
       JSONResponse 400
         (error_content
            (lit "Zadejte alespoň jeden parametr: q, city, emergency, mailOrder, type, nebo postalCode.")))
  /\
  fst (search_drugs upper lower E query atc holder dispensing doping
         available form max_results w)
  = search_answer
      (lit "Vyhledávání léků selhalo, zkuste to prosím znovu.")
      (lit "drugs") Drugs._format_drug_summary
      (fst (search E DRUGS_INDEX query
              (_build_drug_filters upper lower atc holder dispensing doping
                 available form)
              (Some Drugs.SEARCH_FIELDS) max_results 0 None (lit "semantic")
              (Some Drugs.SEMANTIC_CONFIG) true None None w))
  /\
  (forall search_failed e,
      (forall status detail,
          e = SearchError status detail ->
          failure_answer search_failed e
          = JSONResponse 502 (error_content search_failed))
      /\ ((forall status detail, e <> SearchError status detail) ->
          failure_answer search_failed e
          = JSONResponse 500 (error_content (lit "Interní chyba serveru.")))).
Proof.
  assert (forall msg (e : exn) (w' : world),
             fst (match e with
                  | SearchError _ _ =>
                    (JSONResponse 502 (error_content msg), w')
                  | _ =>
                    (JSONResponse 500
                       (error_content (lit "Interní chyba serveru.")),
                     w')
                  end)
             = failure_answer msg e) as Hfail.
  { intros msg e w'. destruct e; reflexivity. }
  cbv zeta. split; [|split; [|split; [|split]]].
  - unfold get_drug_detail, handle, detail_answer.
    destruct (isdigit isdigit_char (zfill 7 (strip code))); cbn [negb];
      [|reflexivity].
    unfold bind, lift.
    destruct (get_document E DRUGS_INDEX (zfill 7 (strip code))
                (Some DRUG_DETAIL_FIELDS) w) as [[e|[doc|]] w']; cbn [fst].
    + apply Hfail.
    + destruct (format_detail doc) as [e|body]; [apply Hfail | reflexivity].
    + reflexivity.
  - unfold get_pharmacy_detail, handle, detail_answer.
    destruct (isdigit isdigit_char (strip code)); cbn [negb]; [|reflexivity].
    unfold bind.
    destruct (get_document E PHARMACIES_INDEX (strip code)
                (Some Pharmacies.DETAIL_FIELDS) w) as [[e|[doc|]] w'];
      cbn [fst].
    + apply Hfail.
    + reflexivity.
    + reflexivity.
  - unfold search_pharmacies, handle, search_answer, dict_get_or.
    destruct (truthy_opt q), (truthy_opt city), (truthy_obool emergency),
      (truthy_obool mail_order), (truthy_opt pharmacy_type),
      (truthy_opt postal_code); cbn [negb andb orb]; try reflexivity;
      cbv zeta; unfold bind, lift;
      match goal with
      | |- context [search ?a ?b ?c ?d ?e ?f ?g ?h ?i ?j ?k ?l ?m w] =>
        destruct (search a b c d e f g h i j k l m w) as [[e0|result] w']
      end; cbn [fst]; try apply Hfail;
      (destruct (iterate
                   match dict_get (lit "value") result with
                   | Some v => v
                   | None => JList []
                   end) as [e1|docs]; [apply Hfail|]);
      cbv beta iota delta [ret];
      (destruct (format_all format_summary docs) as [e2|items];
         [apply Hfail | reflexivity]).
  - unfold search_drugs, handle, search_answer. cbv zeta. unfold bind, lift.
    match goal with
    | |- context [search ?a ?b ?c ?d ?e ?f ?g ?h ?i ?j ?k ?l ?m w] =>
      destruct (search a b c d e f g h i j k l m w) as [[e0|result] w']
    end; cbn [fst]; [apply Hfail|].
    destruct (iterate (dict_get_or (lit "value") (JList []) result))
      as [e1|docs]; [apply Hfail|].
    cbv beta iota delta [ret].
    destruct (format_all Drugs._format_drug_summary docs) as [e2|items];
      [apply Hfail | reflexivity].
  - intros search_failed e. split.
    + intros status detail ->. reflexivity.
    + intros Hother. destruct e; try reflexivity.
      contradiction (Hother status detail). reflexivity.
Qed.

(** ** The detail lookups *)

Lemma get_document_events (E : env) (index key : str)
    (select : option (list str)) (w : world) :
  exists tr,
    w_trace (snd (get_document E index key select w))
    = w_trace w ++ EvGetToken SEARCH_SCOPE :: tr
    /\ Forall (lookup_of index key) tr.
Proof.
  destruct (get_token E (w_acquired w)) as [e|t] eqn:Ht.
  - exists []. split; [|constructor].
    unfold get_document, bind, _refresh_token. rewrite Ht. reflexivity.
  - destruct (refreshed_get_trace E (document_url index key)
                (document_params select)
                (lit "doc:" ++ index ++ lit "/" ++ key) w t Ht)
      as (rest & Htr & Hall).
    eexists. split; [exact Htr|].
    constructor; [split; reflexivity|].
    eapply Forall_impl; [|exact Hall].
    intros [scope|r|d] Hev; cbn in *; [exact I | subst r; split; reflexivity | exact I].
Qed.

Lemma zfill_length (width : nat) (s : str) : width <= length (zfill width s).
Proof.
  unfold zfill. destruct (Nat.leb_spec width (length s)) as [Hle|Hlt];
    [exact Hle|].
  destruct s as [|c rest].
  - rewrite repeat_length. cbn [length]. lia.
  - destruct ((c =? 43) || (c =? 45))%N; cbn [length];
      rewrite length_app, repeat_length; cbn [length] in *;
      unfold char in *; lia.
Qed.

(** On ASCII, [str.isdigit] accepts exactly the characters 0 to 9. *)
Hypothesis isdigit_ascii :
  forall c, is_ascii c = true -> isdigit_char c = is_ascii_digit c.

Lemma isdigit_no_quote (key : str) :
  isdigit isdigit_char key = true -> ~ In 39%N key.
Proof.
  unfold isdigit. intros H Hin.
  apply andb_true_iff in H. destruct H as [_ H].
  rewrite forallb_forall in H. specialize (H _ Hin).
  rewrite isdigit_ascii in H; [discriminate H | reflexivity].
Qed.

(** X14.  The key that a detail endpoint puts between the quotes of
    [docs('<key>')] is all digits and so holds no quote: every request of
    [get_drug_detail] is a GET for the stripped, zero-filled code, which
    has at least 7 characters, and every request of [get_pharmacy_detail]
    is a GET for the stripped code; a code that is not all digits causes
    no request at all. *)
Theorem X14_detail_lookups_send_digit_only_keys
    (E : env) (code : str) (w : world) :
  (let key := zfill 7 (strip code) in
   exists tr,
     w_trace (snd (get_drug_detail isdigit_char format_detail E code w))
     = w_trace w ++ tr
     /\ Forall (lookup_of DRUGS_INDEX key) tr
     /\ (tr <> [] ->
         isdigit isdigit_char key = true
         /\ 7 <= length key
         /\ ~ In 39%N key))
  /\
  (let key := strip code in
   exists tr,
     w_trace (snd (get_pharmacy_detail isdigit_char E code w))
     = w_trace w ++ tr
     /\ Forall (lookup_of PHARMACIES_INDEX key) tr
     /\ (tr <> [] ->
         isdigit isdigit_char key = true /\ ~ In 39%N key)).
Proof.
  cbv zeta. split.
  - unfold get_drug_detail. rewrite handle_world.
    destruct (isdigit isdigit_char (zfill 7 (strip code))) eqn:Hk; cbn [negb].
    + rewrite snd_bind_pure.
      2:{ intros [doc|] w1; [|reflexivity].
          rewrite snd_bind_pure; [apply snd_lift | reflexivity]. }
      destruct (get_document_events E DRUGS_INDEX (zfill 7 (strip code))
                  (Some DRUG_DETAIL_FIELDS) w) as (tr & Htr & Hall).
      eexists. split; [exact Htr|]. split.
      * constructor; [exact I | exact Hall].
      * intros _. split; [reflexivity|]. split; [apply zfill_length|].
        apply isdigit_no_quote. exact Hk.
    + exists []. cbn [ret snd]. rewrite app_nil_r.
      split; [reflexivity|]. split; [constructor|].
      intros H. contradiction H. reflexivity.
  - unfold get_pharmacy_detail. rewrite handle_world.
    destruct (isdigit isdigit_char (strip code)) eqn:Hk; cbn [negb].
    + rewrite snd_bind_pure.
      2:{ intros [doc|] w1; reflexivity. }
      destruct (get_document_events E PHARMACIES_INDEX (strip code)
                  (Some Pharmacies.DETAIL_FIELDS) w) as (tr & Htr & Hall).
      eexists. split; [exact Htr|]. split.
      * constructor; [exact I | exact Hall].
      * intros _. split; [reflexivity|].
        apply isdigit_no_quote. exact Hk.
    + exists []. cbn [ret snd]. rewrite app_nil_r.
      split; [reflexivity|]. split; [constructor|].
      intros H. contradiction H. reflexivity.
Qed.

(** X15.  The key of a pharmacy-detail lookup is the stripped code, not
    padded.  If it is not all digits, and in particular if the code is
    empty or blank, the answer is the 400 text and nothing is contacted;
    otherwise the document is looked up under the stripped code, a
    missing document gives the 404 text with the code as it was given,
    and a found one is formatted. *)
Theorem X15_pharmacy_detail_key_is_stripped_only
    (E : env) (code : str) (w : world) :
  let key := strip code in
  let res := get_pharmacy_detail isdigit_char E code w in
  let looked :=
    get_document E PHARMACIES_INDEX key (Some Pharmacies.DETAIL_FIELDS) w in
  let refused :=
    (JSONResponse 400 (error_content (lit "Kód pracoviště musí být číslo.")),
     w) in
  (isdigit isdigit_char key = false -> res = refused)
  /\ (Forall (fun c => isspace c = true) code -> res = refused)
  /\ (isdigit isdigit_char key = true ->
      snd res = snd looked
      /\ (fst looked = inr None ->
          fst res
          = JSONResponse 404
              (error_content
                 (lit "Lékárna s kódem " ++ code ++ lit " nebyla nalezena.")))
      /\ (forall doc,
             fst looked = inr (Some doc) ->
             fst res = Payload (Pharmacies._format_pharmacy_detail doc))).
Proof.
  cbv zeta.
  assert (isdigit isdigit_char (strip code) = false ->
          get_pharmacy_detail isdigit_char E code w
          = (JSONResponse 400
               (error_content (lit "Kód pracoviště musí být číslo.")), w))
    as Hrefuse.
  { intros Hk. unfold get_pharmacy_detail, handle. rewrite Hk. reflexivity. }
  split; [exact Hrefuse|]. split.
  - intros Hblank. apply Hrefuse. rewrite (strip_blank _ Hblank). reflexivity.
  - intros Hk. unfold get_pharmacy_detail, handle. rewrite Hk. cbn [negb].
    unfold bind.
    destruct (get_document E PHARMACIES_INDEX (strip code)
                (Some Pharmacies.DETAIL_FIELDS) w) as [[e|[doc|]] w'];
      cbn [fst snd].
    + split; [destruct e; reflexivity|]. split; [discriminate|].
      intros doc Hd. discriminate Hd.
    + split; [reflexivity|]. split; [discriminate|].
      intros doc' Hd. assert (doc' = doc) by congruence. subst doc'.
      reflexivity.
    + split; [reflexivity|]. split; [reflexivity|].
      intros doc Hd. discriminate Hd.
Qed.

(** X16.  An empty or blank drug code is not refused: stripped and
    zero-filled it becomes [0000000], which is all digits, so the token is
    asked for and the document [0000000] is looked up. *)
Theorem X16_blank_drug_code_is_looked_up_as_zeros
    (E : env) (code : str) (w : world)
    (Hblank : Forall (fun c => isspace c = true) code) :
  let res := get_drug_detail isdigit_char format_detail E code w in
  zfill 7 (strip code) = lit "0000000"
  /\ isdigit isdigit_char (zfill 7 (strip code)) = true
  /\ snd res
     = snd (get_document E DRUGS_INDEX (lit "0000000")
              (Some DRUG_DETAIL_FIELDS) w)
  /\ exists tr,
       w_trace (snd res) = w_trace w ++ EvGetToken SEARCH_SCOPE :: tr
       /\ Forall (lookup_of DRUGS_INDEX (lit "0000000")) tr.
Proof.
  cbv zeta.
  assert (zfill 7 (strip code) = lit "0000000") as Hkey
      by (rewrite (strip_blank _ Hblank); reflexivity).
  assert (isdigit isdigit_char (lit "0000000") = true) as Hdigits.
  { unfold isdigit. apply andb_true_iff. split; [reflexivity|].
    apply forallb_forall. intros c Hc.
    change (lit "0000000") with (repeat 48%N 7) in Hc.
    apply repeat_spec in Hc. rewrite Hc.
    rewrite isdigit_ascii; reflexivity. }
  rewrite Hkey. split; [reflexivity|]. split; [exact Hdigits|].
  assert (snd (get_drug_detail isdigit_char format_detail E code w)
          = snd (get_document E DRUGS_INDEX (lit "0000000")
                   (Some DRUG_DETAIL_FIELDS) w)) as Hw.
  { unfold get_drug_detail. rewrite handle_world, Hkey, Hdigits. cbn [negb].
    rewrite snd_bind_pure; [reflexivity|].
    intros [doc|] w1; [|reflexivity].
    rewrite snd_bind_pure; [apply snd_lift | reflexivity]. }
  split; [exact Hw|]. rewrite Hw.
  apply get_document_events.
Qed.

End Endpoints.

(* ================================================================== *)
(** * The drug detail record                                            *)
(* ================================================================== *)

Lemma zkraceno_length : length (lit " … (zkráceno)") = 13.
Proof. reflexivity. Qed.

(** X17.  In a drug detail the composition text ([slozeni]) of more than
    5000 characters is cut to its first 5000 characters followed by the
    13 characters [" … (zkráceno)"], a shorter one is passed on unchanged,
    and a missing or null one becomes the empty string; the record
    carries that text, and its [suklUrl] is the detail-page address
    followed by the code when [kodSukl] is a non-empty string, and null
    when [kodSukl] is missing, null or empty. *)
Theorem X17_composition_text_is_cut_at_5000
    (py_str : jvalue -> str) (unsliceable : exn) (doc : dict) :
  (forall s,
      dict_get (lit "slozeni") doc = Some (JStr s) ->
      exists cut,
        Drugs.detail_slozeni unsliceable doc = inr (JStr cut)
        /\ (5000 < length s -> cut = firstn 5000 s ++ lit " … (zkráceno)"
                               /\ length cut = 5000 + 13)
        /\ (length s <= 5000 -> cut = s))
  /\
  (dict_get (lit "slozeni") doc = None
   \/ dict_get (lit "slozeni") doc = Some JNull ->
   Drugs.detail_slozeni unsliceable doc = inr (JStr []))
  /\
  (forall slozeni,
      Drugs.detail_slozeni unsliceable doc = inr slozeni ->
      exists fields,
        Drugs._format_drug_detail py_str unsliceable doc = inr (JObj fields)
        /\ length fields = 25
        /\ dict_get (lit "slozeni") fields = Some slozeni
        /\ dict_get (lit "suklUrl") fields
           = Some (match dict_get (lit "kodSukl") doc with
                   | Some (JStr (c :: code)) =>
                     JStr (lit "https://prehledy.sukl.cz/prehled_leciv.html#/leciva/"
                             ++ c :: code)
                   | Some (JStr []) | Some JNull | None => JNull
                   | Some other =>
                     Drugs._build_detail_url py_str other
                   end)).
Proof.
  split; [|split].
  - intros s Hs. unfold Drugs.detail_slozeni, dict_get_or. rewrite Hs.
    cbv zeta. cbn [jtruthy].
    destruct s as [|c s'].
    + exists []. cbn [truthy length]. split; [reflexivity|].
      split; [intros H; inversion H | reflexivity].
    + cbn [truthy].
      destruct (Nat.ltb_spec 5000 (length (c :: s'))) as [Hlong|Hshort].
      * eexists. split; [reflexivity|].
        split; [|intros H; unfold char in *; lia].
        intros _. split; [reflexivity|].
        rewrite length_app, length_firstn, zkraceno_length.
        unfold char in *. rewrite Nat.min_l by lia. reflexivity.
      * exists (c :: s'). split; [reflexivity|].
        split; [intros H; unfold char in *; lia | reflexivity].
  - intros [Hs|Hs]; unfold Drugs.detail_slozeni, dict_get_or; rewrite Hs;
      reflexivity.
  - intros slozeni Hs. unfold Drugs._format_drug_detail. rewrite Hs.
    eexists. split; [reflexivity|]. split; [reflexivity|].
    split.
    + cbn [dict_get].
      repeat match goal with
             | |- context [eqb (lit ?a) (lit ?b)] =>
               let v := eval vm_compute in (eqb (lit a) (lit b)) in
               change (eqb (lit a) (lit b)) with v
             end.
      reflexivity.
    + cbn [dict_get].
      repeat match goal with
             | |- context [eqb (lit ?a) (lit ?b)] =>
               let v := eval vm_compute in (eqb (lit a) (lit b)) in
               change (eqb (lit a) (lit b)) with v
             end.
      cbv iota. f_equal. unfold dict_get_or, Drugs._build_detail_url.
      destruct (dict_get (lit "kodSukl") doc) as [[| | |[|c code]| |]|];
        reflexivity.
Qed.

(* ================================================================== *)
(** * The request middleware                                            *)
(* ================================================================== *)

(** X18.  The API-key gate of the middleware.  A request for [/health],
    or any request when no key is configured, reaches the application
    and its response gets the three headers.  Otherwise the provided key
    is the [api-key] header if that is not empty, else the [api_key]
    query parameter, else the empty string; when both keys are ASCII the
    request reaches the application exactly when they are equal, and is
    otherwise answered 401 without the application being run; when
    either key holds a non-ASCII character the comparison raises
    [TypeError], again without the application being run. *)
Theorem X18_api_key_gate_admits_equal_keys_only
    (response : Type) (unauthorized : response)
    (with_headers : str -> response -> response)
    (path expected_key : str) (header_key query_key : option str)
    (request_id : str) (call_next : world -> response * world) (w : world) :
  let res :=
    Main.request_middleware response unauthorized with_headers path expected_key
      header_key query_key request_id call_next w in
  let served :=
    (inr (with_headers request_id (fst (call_next w))), snd (call_next w)) in
  let provided := Main.provided_key header_key query_key in
  let ascii := forallb is_ascii provided && forallb is_ascii expected_key in
  (path = lit "/health" \/ expected_key = [] -> res = served)
  /\ (path <> lit "/health" -> expected_key <> [] -> ascii = true ->
      (provided = expected_key -> res = served)
      /\ (provided <> expected_key -> res = (inr unauthorized, w)))
  /\ (path <> lit "/health" -> expected_key <> [] -> ascii = false ->
      res = (inl TypeError, w))
  /\ (forall h, header_key = Some h -> h <> [] -> provided = h)
  /\ (header_key = None \/ header_key = Some [] ->
      provided = match query_key with Some q => q | None => [] end).
Proof.
  cbv zeta. unfold Main.request_middleware, Main.compare_digest.
  assert (forall a b : str, a <> b -> eqb a b = false) as Hneq.
  { intros a b Hab. destruct (eqb a b) eqn:Heq; [|reflexivity].
    apply eqb_true_iff in Heq. contradiction. }
  split; [|split; [|split; [|split]]].
  - intros [Hp|Hk]; [rewrite Hp, eqb_refl; reflexivity|].
    rewrite Hk. destruct (negb (eqb path (lit "/health"))); reflexivity.
  - intros Hpath Hkey Hascii.
    rewrite (Hneq _ _ Hpath), (truthy_nonempty _ Hkey), Hascii. cbn [negb].
    split.
    + intros Heq. rewrite Heq, eqb_refl. reflexivity.
    + intros Hne. rewrite (Hneq _ _ Hne). reflexivity.
  - intros Hpath Hkey Hascii.
    rewrite (Hneq _ _ Hpath), (truthy_nonempty _ Hkey), Hascii. reflexivity.
  - intros h Hhk Hh. rewrite Hhk. unfold Main.provided_key. cbn [truthy_opt].
    rewrite (truthy_nonempty _ Hh). reflexivity.
  - intros [Hh|Hh]; rewrite Hh; unfold Main.provided_key;
      cbn [truthy_opt truthy]; destruct query_key as [[|c q]|]; reflexivity.
Qed.

(** ** The caller of the request log *)

Lemma in_lstrip (c : char) (s : str) : In c (lstrip s) -> In c s.
Proof.
  induction s as [|a s IH]; [intros []|].
  cbn [lstrip]. destruct (isspace a); [|auto].
  intros H. right. exact (IH H).
Qed.

Lemma in_strip (c : char) (s : str) : In c (strip s) -> In c s.
Proof.
  unfold strip, rstrip. intros H.
  apply in_rev in H. apply in_lstrip in H. apply in_rev in H.
  apply in_lstrip in H. exact H.
Qed.

Lemma before_comma_no_comma (s : str) : ~ In 44%N (Main.before_comma s).
Proof.
  induction s as [|c s IH]; [intros []|].
  cbn [Main.before_comma]. destruct (N.eqb_spec c 44) as [->|Hne];
    [intros []|].
  intros [H|H]; [contradiction | exact (IH H)].
Qed.

(** X19.  The [caller] logged for a request is never empty and never
    holds a comma: it is the stripped text before the first comma of
    [x-forwarded-for], and ["unknown"] when the header is absent or that
    text is blank. *)
Theorem X19_caller_is_never_empty_and_has_no_comma
    (x_forwarded_for : option str) :
  let caller := Main.caller_of x_forwarded_for in
  let first :=
    strip (Main.before_comma
             (match x_forwarded_for with Some v => v | None => [] end)) in
  caller <> []
  /\ ~ In 44%N caller
  /\ (first <> [] -> caller = first)
  /\ (first = [] -> caller = lit "unknown")
  /\ (x_forwarded_for = None -> caller = lit "unknown").
Proof.
  cbv zeta. unfold Main.caller_of. cbv zeta.
  destruct (strip (Main.before_comma
                     match x_forwarded_for with Some v => v | None => [] end))
    as [|c first] eqn:Hfirst; cbn [truthy].
  - repeat split.
    + discriminate.
    + vm_compute. intuition discriminate.
    + intros H. contradiction H. reflexivity.
  - split; [discriminate|]. split.
    + intros Hin. rewrite <- Hfirst in Hin. apply in_strip in Hin.
      exact (before_comma_no_comma _ Hin).
    + split; [reflexivity|]. split; [discriminate|].
      intros ->. discriminate Hfirst.
Qed.

(* ================================================================== *)
(** * The structured log                                                *)
(* ================================================================== *)

Lemma dict_get_not_in (k : str) (d : dict) :
  ~ In k (map fst d) -> dict_get k d = None.
Proof.
  induction d as [|[a x] d IH]; [reflexivity|].
  cbn [map fst dict_get In]. intros H.
  destruct (eqb a k) eqn:Heq.
  - apply eqb_true_iff in Heq. subst a. contradiction H. left. reflexivity.
  - apply IH. intros Hin. apply H. right. exact Hin.
Qed.

Lemma dict_get_update (k : str) (extra : dict) :
  NoDup (map fst extra) ->
  forall entry,
    dict_get k (Logger.dict_update entry extra)
    = match dict_get k extra with
      | Some v => Some v
      | None => dict_get k entry
      end.
Proof.
  unfold Logger.dict_update.
  induction extra as [|[a x] extra IH]; intros Hnd entry; [reflexivity|].
  cbn [map fst] in Hnd. inversion Hnd as [|? ? Hnotin Hnd']; subst.
  cbn [fold_left fst snd dict_get]. rewrite (IH Hnd'), dict_get_set.
  destruct (eqb a k) eqn:Heq; [|reflexivity].
  apply eqb_true_iff in Heq. subst a.
  rewrite (dict_get_not_in _ _ Hnotin). reflexivity.
Qed.

Lemma extra_of_keys (kwargs : dict) :
  NoDup (map fst kwargs) -> NoDup (map fst (Logger.extra_of kwargs)).
Proof.
  unfold Logger.extra_of.
  induction kwargs as [|[a x] kwargs IH]; intros Hnd; [constructor|].
  cbn [map fst] in Hnd. inversion Hnd as [|? ? Hnotin Hnd']; subst.
  cbn [filter snd]. destruct (negb (Logger.is_none x)); [|exact (IH Hnd')].
  cbn [map fst]. constructor; [|exact (IH Hnd')].
  intros Hin. apply Hnotin.
  apply in_map_iff in Hin. destruct Hin as [[a' x'] [Ha Hin]].
  apply filter_In in Hin. destruct Hin as [Hin _].
  apply in_map_iff. exists (a', x'). split; assumption.
Qed.

Lemma dict_get_extra_of (k : str) (kwargs : dict) :
  NoDup (map fst kwargs) ->
  dict_get k (Logger.extra_of kwargs)
  = match dict_get k kwargs with
    | Some v => if Logger.is_none v then None else Some v
    | None => None
    end.
Proof.
  unfold Logger.extra_of.
  induction kwargs as [|[a x] kwargs IH]; intros Hnd; [reflexivity|].
  cbn [map fst] in Hnd. inversion Hnd as [|? ? Hnotin Hnd']; subst.
  cbn [filter snd dict_get].
  destruct (eqb a k) eqn:Heq.
  - apply eqb_true_iff in Heq. subst a.
    destruct (Logger.is_none x); cbn [negb dict_get].
    + rewrite (IH Hnd'), (dict_get_not_in _ _ Hnotin). reflexivity.
    + rewrite eqb_refl. reflexivity.
  - destruct (negb (Logger.is_none x)); cbn [dict_get]; rewrite ?Heq;
      exact (IH Hnd').
Qed.

Lemma bound_twice_spec (params : list str) (kwargs : dict) :
  Logger.bound_twice params kwargs = true
  <-> exists k, In k params /\ In k (map fst kwargs).
Proof.
  unfold Logger.bound_twice. rewrite existsb_exists. split.
  - intros ([k v] & Hin & Hex). apply existsb_exists in Hex.
    destruct Hex as (p & Hp & Heq). apply eqb_true_iff in Heq.
    cbn [fst] in Heq. subst p. exists k. split; [exact Hp|].
    apply in_map_iff. exists (k, v). split; [reflexivity | exact Hin].
  - intros (k & Hp & Hin). apply in_map_iff in Hin.
    destruct Hin as ([k' v] & Hk & Hin). cbn [fst] in Hk. subst k'.
    exists (k, v). split; [exact Hin|]. apply existsb_exists.
    exists k. split; [exact Hp | apply eqb_refl].
Qed.

(** X20.  A call of the logger ([debug], [info], [warn], [error]) with a
    keyword field named [self], [level] or [msg] raises [TypeError]: the
    name is bound twice.  Any other call makes an entry whose [level] is
    the lower-cased level name and whose [msg] is the message; the entry
    holds every field given whose value is not [None], with that value,
    and leaves out the fields given as [None]; only [ts] can be replaced
    by a field of that name. *)
Theorem X20_log_entry_drops_none_fields
    (ts msg : str) (l : Logger.level) (kwargs : dict)
    (Hkeys : NoDup (map fst kwargs)) :
  let base :=
    [ (lit "ts", JStr ts);
      (lit "level", JStr (lower_ascii (Logger.levelname l)));
      (lit "msg", JStr msg) ] in
  let clash :=
    exists k,
      In k [lit "self"; lit "level"; lit "msg"] /\ In k (map fst kwargs) in
  (clash -> Logger.log_entry ts l msg kwargs = inl TypeError)
  /\
  (~ clash ->
   exists entry,
     Logger.log_entry ts l msg kwargs = inr entry
     /\ dict_get (lit "level") entry
        = Some (JStr (lower_ascii (Logger.levelname l)))
     /\ dict_get (lit "msg") entry = Some (JStr msg)
     /\ forall k,
          dict_get k entry
          = match dict_get k kwargs with
            | Some v => if Logger.is_none v then dict_get k base else Some v
            | None => dict_get k base
            end).
Proof.
  cbv zeta.
  assert (forall k,
             dict_get k (Logger.format_entry ts l msg (Logger.extra_of kwargs))
             = match dict_get k kwargs with
               | Some v =>
                 if Logger.is_none v
                 then dict_get k
                        [ (lit "ts", JStr ts);
                          (lit "level",
                           JStr (lower_ascii (Logger.levelname l)));
                          (lit "msg", JStr msg) ]
                 else Some v
               | None =>
                 dict_get k
                   [ (lit "ts", JStr ts);
                     (lit "level", JStr (lower_ascii (Logger.levelname l)));
                     (lit "msg", JStr msg) ]
               end) as Hentry.
  { intros k. unfold Logger.format_entry. cbv zeta.
    rewrite (dict_get_update k _ (extra_of_keys _ Hkeys)).
    rewrite (dict_get_extra_of k _ Hkeys).
    destruct (dict_get k kwargs) as [v|]; [|reflexivity].
    destruct (Logger.is_none v); reflexivity. }
  split.
  - intros (k & Hreserved & Hin). unfold Logger.log_entry, Logger._log.
    destruct (Logger.bound_twice [lit "self"; lit "msg"] kwargs);
      [reflexivity|].
    assert (Logger.bound_twice [lit "self"; lit "level"; lit "msg"] kwargs
            = true) as ->; [|reflexivity].
    apply bound_twice_spec. exists k. split; assumption.
  - intros Hfree.
    assert (Logger.bound_twice [lit "self"; lit "level"; lit "msg"] kwargs
            = false) as Hlog.
    { destruct (Logger.bound_twice [lit "self"; lit "level"; lit "msg"] kwargs)
        eqn:Hb; [|reflexivity].
      apply bound_twice_spec in Hb. contradiction. }
    assert (Logger.bound_twice [lit "self"; lit "msg"] kwargs = false)
      as Hinfo.
    { destruct (Logger.bound_twice [lit "self"; lit "msg"] kwargs) eqn:Hb;
        [|reflexivity].
      apply bound_twice_spec in Hb. destruct Hb as (k & Hp & Hin).
      contradiction Hfree. exists k. split; [|exact Hin].
      destruct Hp as [<-|[<-|[]]]; cbn [In]; auto. }
    assert (forall k, In k [lit "self"; lit "level"; lit "msg"] ->
                      dict_get k kwargs = None) as Hnone.
    { intros k Hk. apply dict_get_not_in. intros Hin.
      apply Hfree. exists k. split; assumption. }
    exists (Logger.format_entry ts l msg (Logger.extra_of kwargs)).
    unfold Logger.log_entry, Logger._log. rewrite Hinfo, Hlog.
    split; [reflexivity|].
    split; [|split; [|exact Hentry]].
    + rewrite Hentry, (Hnone (lit "level")) by (cbn [In]; auto).
      reflexivity.
    + rewrite Hentry, (Hnone (lit "msg")) by (cbn [In]; auto).
      reflexivity.
Qed.

(* ================================================================== *)
(** * The document search                                               *)
(* ================================================================== *)

(** X22.  The document search is one hybrid query with fixed options:
    once the token is there, its first and every later request is a POST
    to the search URL of the index [sukl-documents] whose body asks for
    [q], at most [maxResults] results and as many nearest neighbours over
    [chunk_vector], the five selected fields, the semantic configuration
    [sukl-semantic], extractive answers and captions.  When the token
    cannot be acquired nothing is sent.  The answer is the shaping of
    what that query returned; an exception of the query or of the shaping
    is answered by [failure_answer] with the endpoint's text. *)
Theorem X22_document_search_is_one_hybrid_query
    (format_response : dict -> exn + jvalue)
    (E : env) (q : str) (max_results : Z) (w : world) :
  let res := search_documents format_response E q max_results w in
  let failed :=
    lit "Vyhledávání v SPC dokumentech selhalo, zkuste to prosím znovu." in
  let asked :=
    hybrid_search E DOCUMENTS_INDEX q (lit "chunk_vector")
      (lit "openai-vectorizer") (Some SELECT_FIELDS) max_results
      (Some DOCUMENTS_SEMANTIC_CONFIG) (Some (lit "extractive|count-3"))
      (Some (lit "extractive|highlight-true")) w in
  (forall t,
      get_token E (w_acquired w) = inr t ->
      exists body rest,
        let r := {| r_method := POST; r_url := search_url DOCUMENTS_INDEX;
                    r_payload := body;
                    r_authorization := Some (lit "Bearer " ++ t) |} in
        w_trace (snd res)
        = w_trace w ++ EvGetToken SEARCH_SCOPE :: EvSend r :: rest
        /\ Forall (is_request r) rest
        /\ dict_get (lit "search") body = Some (JStr q)
        /\ dict_get (lit "queryType") body = Some (JStr (lit "semantic"))
        /\ dict_get (lit "top") body = Some (JInt max_results)
        /\ dict_get (lit "vectorQueries") body
           = Some (JList [ JObj [ (lit "kind", JStr (lit "text"));
                                  (lit "text", JStr q);
                                  (lit "fields", JStr (lit "chunk_vector"));
                                  (lit "k", JInt max_results) ] ])
        /\ dict_get (lit "select") body
           = Some (JStr (lit "chunk_id,parent_id,chunk,title,drug_codes"))
        /\ dict_get (lit "semanticConfiguration") body
           = Some (JStr (lit "sukl-semantic"))
        /\ dict_get (lit "answers") body
           = Some (JStr (lit "extractive|count-3"))
        /\ dict_get (lit "captions") body
           = Some (JStr (lit "extractive|highlight-true")))
  /\
  (forall e,
      get_token E (w_acquired w) = inl e ->
      w_trace (snd res) = w_trace w ++ [EvGetToken SEARCH_SCOPE]
      /\ fst res = failure_answer failed e)
  /\ snd res = snd asked
  /\ fst res
     = match fst asked with
       | inl e => failure_answer failed e
       | inr result =>
         match format_response result with
         | inl e => failure_answer failed e
         | inr response => Payload response
         end
       end.
Proof.
  cbv zeta.
  assert (snd (search_documents format_response E q max_results w)
          = snd (hybrid_search E DOCUMENTS_INDEX q (lit "chunk_vector")
                   (lit "openai-vectorizer") (Some SELECT_FIELDS) max_results
                   (Some DOCUMENTS_SEMANTIC_CONFIG)
                   (Some (lit "extractive|count-3"))
                   (Some (lit "extractive|highlight-true")) w)) as Hw.
  { unfold search_documents. rewrite handle_world.
    rewrite snd_bind_pure; [reflexivity|].
    intros result w1.
    rewrite snd_bind_pure; [apply snd_lift | reflexivity]. }
  assert (fst (search_documents format_response E q max_results w)
          = match
              fst (hybrid_search E DOCUMENTS_INDEX q (lit "chunk_vector")
                     (lit "openai-vectorizer") (Some SELECT_FIELDS)
                     max_results (Some DOCUMENTS_SEMANTIC_CONFIG)
                     (Some (lit "extractive|count-3"))
                     (Some (lit "extractive|highlight-true")) w)
            with
            | inl e =>
              failure_answer
                (lit "Vyhledávání v SPC dokumentech selhalo, zkuste to prosím znovu.")
                e
            | inr result =>
              match format_response result with
              | inl e =>
                failure_answer
                  (lit "Vyhledávání v SPC dokumentech selhalo, zkuste to prosím znovu.")
                  e
              | inr response => Payload response
              end
            end) as Hres.
  { unfold search_documents, handle, bind, lift.
    match goal with
    | |- context [hybrid_search ?a ?b ?c ?d ?e ?f ?g ?h ?i ?j w] =>
      destruct (hybrid_search a b c d e f g h i j w) as [[e0|result] w1]
    end; cbn [fst].
    - destruct e0; reflexivity.
    - destruct (format_response result) as [e1|response];
        [destruct e1; reflexivity | reflexivity]. }
  split; [|split; [|split; [exact Hw | exact Hres]]].
  - intros t Ht. rewrite Hw.
    destruct (hybrid_first_request E DOCUMENTS_INDEX q (lit "chunk_vector")
                (lit "openai-vectorizer") (Some SELECT_FIELDS) max_results
                (Some DOCUMENTS_SEMANTIC_CONFIG)
                (Some (lit "extractive|count-3"))
                (Some (lit "extractive|highlight-true")) w t Ht)
      as (body & rest & Htr & Hall & Hs & Hq & Htop & _ & Hv & _ & _ & _
          & Hsel & Hsem & Ha & Hc).
    exists body, rest. cbv zeta.
    split; [exact Htr|]. split; [exact Hall|]. split; [exact Hs|].
    split; [exact Hq|]. split; [exact Htop|]. split; [exact Hv|].
    split; [exact Hsel|]. split; [exact Hsem|]. split; [exact Ha | exact Hc].
  - intros e He. split.
    + rewrite Hw. unfold hybrid_search, bind, _refresh_token. cbv zeta.
      rewrite He. reflexivity.
    + rewrite Hres. unfold hybrid_search, bind, _refresh_token. cbv zeta.
      rewrite He. reflexivity.
Qed.

(* ================================================================== *)
(** * The fields a response is made from                                *)
(* ================================================================== *)

Lemma dict_get_or_agree (fields : list str) (d1 d2 : dict) :
  (forall k, In k fields -> dict_get k d1 = dict_get k d2) ->
  forall k default,
    In k fields -> dict_get_or k default d1 = dict_get_or k default d2.
Proof.
  intros H k default Hk. unfold dict_get_or. rewrite (H k Hk). reflexivity.
Qed.

Ltac in_fields :=
  cbv [Drugs.SEARCH_FIELDS DRUG_DETAIL_FIELDS PHARMACY_SEARCH_FIELDS
       Pharmacies.DETAIL_FIELDS map In];
  repeat first [left; reflexivity | right].

(** X23.  A response is made from selected fields only: two documents
    that agree on the fields of the [select] list of a query are shaped
    alike by the formatter of that query, for the drug search
    ([SEARCH_FIELDS]), the drug detail ([DETAIL_FIELDS]), the pharmacy
    search and the pharmacy detail.  So no formatter reads a field that
    the backend was not asked for. *)
Theorem X23_formatters_read_selected_fields_only
    (py_str : jvalue -> str) (unsliceable : exn) (d1 d2 : dict) :
  let agree fields :=
    forall k, In k fields -> dict_get k d1 = dict_get k d2 in
  (agree Drugs.SEARCH_FIELDS ->
   Drugs._format_drug_summary (JObj d1) = Drugs._format_drug_summary (JObj d2))
  /\ (agree DRUG_DETAIL_FIELDS ->
      Drugs._format_drug_detail py_str unsliceable d1
      = Drugs._format_drug_detail py_str unsliceable d2)
  /\ (agree PHARMACY_SEARCH_FIELDS ->
      Pharmacies._format_pharmacy_summary (JObj d1)
      = Pharmacies._format_pharmacy_summary (JObj d2))
  /\ (agree Pharmacies.DETAIL_FIELDS ->
      Pharmacies._format_pharmacy_detail d1
      = Pharmacies._format_pharmacy_detail d2).
Proof.
  cbv zeta. split; [|split; [|split]]; intros H.
  - pose proof (dict_get_or_agree _ d1 d2 H) as Hg.
    unfold Drugs._format_drug_summary.
    rewrite !Hg by in_fields. reflexivity.
  - pose proof (dict_get_or_agree _ d1 d2 H) as Hg.
    unfold Drugs._format_drug_detail, Drugs.detail_slozeni.
    rewrite !Hg by in_fields. reflexivity.
  - pose proof (dict_get_or_agree _ d1 d2 H) as Hg.
    unfold Pharmacies._format_pharmacy_summary.
    rewrite !Hg by in_fields. reflexivity.
  - pose proof (dict_get_or_agree _ d1 d2 H) as Hg.
    unfold Pharmacies._format_pharmacy_detail.
    rewrite !Hg by in_fields. reflexivity.
Qed.

(* ================================================================== *)
(** * The properties at concrete inputs                                 *)
(* ================================================================== *)

(** The string functions on inputs whose Python results are known. *)

Example lit_accent : lit "Kód" = [75; 243; 100]%N.
Proof. reflexivity. Qed.

Example replace_ex : replace (lit "'") (lit "''") (lit "O'Brien") = lit "O''Brien".
Proof. reflexivity. Qed.

Example replace_multi : replace (lit "ab") (lit "x") (lit "ababa") = lit "xxa".
Proof. reflexivity. Qed.

Example replace_empty : replace [] (lit "-") (lit "abc") = lit "-a-b-c-".
Proof. reflexivity. Qed.

Example zfill_ex : zfill 7 (lit "123") = lit "0000123".
Proof. reflexivity. Qed.

Example zfill_sign : zfill 7 (lit "-12") = lit "-000012".
Proof. reflexivity. Qed.

Example strip_ex : strip (lit "  n02  ") = lit "n02".
Proof. reflexivity. Qed.

Example isspace_ex :
  map isspace [9; 32; 160; 8203; 48]%N = [true; true; true; false; false].
Proof. reflexivity. Qed.

Example zfill_long : zfill 7 (lit "12345678") = lit "12345678".
Proof. reflexivity. Qed.

Example zfill_empty : zfill 7 [] = lit "0000000".
Proof. reflexivity. Qed.

Example join_ex :
  join (lit " and ") [lit "a"; lit "b"; lit "c"] = lit "a and b and c".
Proof. reflexivity. Qed.

(** C2 as stated fails for the pharmacy city: for the city [O'Brien] the
    only clause is the equality [mesto eq 'O''Brien'], and no clause of
    the builder is a [search.ismatch] predicate. *)
Lemma C2_city_clause_is_not_ismatch :
  pharmacy_filter_parts lower_ascii (Some (lit "O'Brien")) None None None None
  = [lit "mesto eq 'O''Brien'"]
  /\ ~ (exists value field,
           In (ismatch_clause value field)
              (pharmacy_filter_parts lower_ascii (Some (lit "O'Brien"))
                 None None None None)).
Proof.
  split; [reflexivity|].
  intros [value [field [H|[]]]].
  vm_compute in H. discriminate H.
Qed.

Lemma C2_witness :
  In (lit "search.ismatch('O''Brien', 'drzitelNazev')")
     (drug_filter_parts upper_ascii lower_ascii
        None (Some (lit "O'Brien")) None None None None)
  /\ In (lit "search.ismatch('O''Brien', 'formaNazev')")
        (drug_filter_parts upper_ascii lower_ascii
           None None None None None (Some (lit "O'Brien")))
  /\ In (lit "mesto eq 'O''Brien'")
        (pharmacy_filter_parts lower_ascii
           (Some (lit "O'Brien")) None None None None).
Proof.
  apply (C2_free_text_values_are_quote_doubled upper_ascii lower_ascii
           None None None None None None None None None None
           (lit "O'Brien")).
  discriminate.
Defined.

Lemma C3_witness :
  drug_filter_parts upper_ascii lower_ascii
    (Some (lit " n02be01 ")) None None None None None
  = [lit "atc eq 'N02BE01'"].
Proof.
  apply (C3_atc_clause_by_length_and_alphabet upper_ascii lower_ascii
           (lit " n02be01 ") None None None None None).
  - discriminate.
  - discriminate.
  - repeat (constructor; [first [left; vm_compute; split; discriminate
                                | right; vm_compute; split; discriminate]|]).
    constructor.
  - vm_compute. lia.
Defined.

Example atc_prefix_example :
  _build_drug_filters upper_ascii lower_ascii
    (Some (lit "n02")) None None None None None
  = Some (lit "search.ismatch('N02*', 'atc')").
Proof. reflexivity. Qed.

Example atc_malformed_example :
  _build_drug_filters upper_ascii lower_ascii
    (Some (lit "N02$")) None None None None None
  = None.
Proof. reflexivity. Qed.

Example drug_filters_example :
  _build_drug_filters upper_ascii lower_ascii
    (Some (lit "N02BE01")) (Some (lit "O'Brien")) (Some (lit "OTC"))
    (Some false) (Some true) (Some (lit "tableta"))
  = Some (lit "atc eq 'N02BE01' and search.ismatch('O''Brien', 'drzitelNazev') and vydej eq 'F' and doping eq false and dodavky eq '1' and search.ismatch('tableta', 'formaNazev')").
Proof. reflexivity. Qed.

(** A backend that answers 400 once. *)
Lemma C4_witness :
  let E := scripted (fun _ => inr (lit "t"))
             (fun _ => Response 400 (lit "bad request") (inl TypeError)) in
  fst (_post_with_retry E (lit "/u") [] (lit "c") fresh_world)
  = inl (SearchError 400 (lit "bad request"))
  /\ w_trace (snd (_post_with_retry E (lit "/u") [] (lit "c") fresh_world))
     = [EvSend (request_of POST (lit "/u") [] fresh_world)].
Proof.
  cbv zeta.
  apply (C4_non_retryable_status_raises_at_once
           (scripted (fun _ => inr (lit "t"))
              (fun _ => Response 400 (lit "bad request") (inl TypeError)))
           (lit "/u") [] (lit "c") fresh_world
           400%Z (lit "bad request") (inl TypeError)).
  - discriminate.
  - simpl. intuition discriminate.
  - reflexivity.
Defined.

Lemma C5_witness :
  let E := scripted (fun _ => inr (lit "t"))
             (fun _ => Response 404 (lit "no such document") (inl TypeError)) in
  fst (get_document E (lit "sukl-drugs") (lit "0000123") None fresh_world)
  = inr None.
Proof.
  cbv zeta.
  apply (C5_get_404_returns_not_found
           (scripted (fun _ => inr (lit "t"))
              (fun _ => Response 404 (lit "no such document") (inl TypeError)))
           (lit "sukl-drugs") (lit "0000123") None fresh_world
           (lit "t") (lit "no such document") (inl TypeError)).
  - reflexivity.
  - reflexivity.
Defined.

(** Timeouts on the first two attempts, 503 on the third: a POST call and
    a GET call each send three requests and raise the 503. *)
Lemma C6_witness :
  let E := scripted (fun _ => inr (lit "t"))
             (fun n =>
                match n with
                | 2 => Response 503 (lit "busy") (inl TypeError)
                | _ => TimeoutException
                end) in
  let post := _post_with_retry E (lit "/u") [] (lit "c") fresh_world in
  let get := _get_with_retry E (lit "/u") [] (lit "c") fresh_world in
  fst post = inl (SearchError 503 (lit "busy"))
  /\ attempts (w_trace (snd post)) = 3
  /\ fst get = inl (SearchError 503 (lit "busy"))
  /\ attempts (w_trace (snd get)) = 3.
Proof.
  cbv zeta.
  assert (forall m k, k < MAX_RETRIES ->
            recorded_failure
              (outcome_at
                 (scripted (fun _ => inr (lit "t"))
                    (fun n =>
                       match n with
                       | 2 => Response 503 (lit "busy") (inl TypeError)
                       | _ => TimeoutException
                       end))
                 m (lit "/u") [] fresh_world k) <> None) as Hall.
  { intros m k Hk. unfold MAX_RETRIES in Hk.
    destruct k as [|[|[|k]]]; [discriminate | discriminate | discriminate | lia]. }
  destruct (C6_exhausted_raises_last_recorded_failure
              (scripted (fun _ => inr (lit "t"))
                 (fun n =>
                    match n with
                    | 2 => Response 503 (lit "busy") (inl TypeError)
                    | _ => TimeoutException
                    end))
              (lit "/u") [] (lit "c") fresh_world)
    as (_ & _ & Hpost & Hget & _).
  destruct (Hpost (Hall POST)) as (e & Hrec & Hraise & Hn).
  destruct (Hget (Hall GET)) as (e' & Hrec' & Hraise' & Hn').
  vm_compute in Hrec. injection Hrec as <-.
  vm_compute in Hrec'. injection Hrec' as <-.
  split; [exact Hraise|]. split; [exact Hn|].
  split; [exact Hraise' | exact Hn'].
Defined.

(** A credential source that refuses: nothing is sent, nothing is slept. *)
Lemma C7_witness :
  let E := scripted (fun _ => inl (AuthError (lit "unavailable")))
             (fun _ => TimeoutException) in
  let w := {| w_token := Some (lit "old");
              w_authorization := Some (lit "Bearer old");
              w_acquired := 1; w_sent := 1; w_trace := [] |} in
  let res := get_document E (lit "sukl-drugs") (lit "0000123") None w in
  fst res = inl (AuthError (lit "unavailable"))
  /\ w_trace (snd res) = [EvGetToken SEARCH_SCOPE].
Proof.
  cbv zeta.
  apply (proj2 (proj2 (C7_token_acquired_per_call_and_failure_not_retried
                         (scripted
                            (fun _ => inl (AuthError (lit "unavailable")))
                            (fun _ => TimeoutException))
                         (lit "sukl-drugs") (lit "0000123") [] [] [] []
                         None None None None None None 0%Z 0%Z true))
               {| w_token := Some (lit "old");
                  w_authorization := Some (lit "Bearer old");
                  w_acquired := 1; w_sent := 1; w_trace := [] |}).
  reflexivity.
Defined.

Lemma C8_witness :
  Documents.chunk_content [(lit "chunk", JStr (repeat 97%N 2500))]
  = inr (JStr (firstn 2000 (repeat 97%N 2500) ++ [8230%N]))
  /\ length (firstn 2000 (repeat 97%N 2500) ++ [8230%N]) = 2001.
Proof.
  apply (C8_long_chunk_is_cut_to_2000_and_ellipsis
           [(lit "chunk", JStr (repeat 97%N 2500))] (repeat 97%N 2500)).
  - reflexivity.
  - rewrite repeat_length. lia.
Defined.

Lemma C9_witness :
  let E := scripted (fun _ => inr (lit "t")) (fun _ => TimeoutException) in
  fst (search_pharmacies lower_ascii (fun v => inr v) E
         None None (Some false) None None None 10%Z fresh_world)
  = JSONResponse 400
      (error_content
         (lit "Zadejte alespoň jeden parametr: q, city, emergency, mailOrder, type, nebo postalCode."))
  /\ _build_pharmacy_filters lower_ascii None (Some false) None None None
     = Some (lit "pohotovost eq false").
Proof.
  cbv zeta.
  destruct (C9_false_flag_alone_is_rejected lower_ascii (fun v => inr v)
              (scripted (fun _ => inr (lit "t")) (fun _ => TimeoutException))
              (Some false) None 10%Z fresh_world)
    as [H400 _].
  - left. reflexivity.
  - discriminate.
  - discriminate.
  - rewrite H400. split; reflexivity.
Defined.

(** The key [123] is looked up as [0000123]. *)
Lemma C10_witness :
  let E := scripted (fun _ => inr (lit "t"))
             (fun _ => Response 404 (lit "missing") (inl TypeError)) in
  let res := get_drug_detail is_ascii_digit (fun d => inr (JObj d)) E
               (lit " 123 ") fresh_world in
  zfill 7 (strip (lit " 123 ")) = lit "0000123"
  /\ snd res
     = snd (get_document E DRUGS_INDEX (lit "0000123")
              (Some DRUG_DETAIL_FIELDS) fresh_world)
  /\ attempts (w_trace (snd res)) = 1.
Proof.
  cbv zeta.
  destruct (C10_detail_key_is_stripped_and_zero_padded
              is_ascii_digit (fun d => inr (JObj d))
              (fun c _ => eq_refl)
              (scripted (fun _ => inr (lit "t"))
                 (fun _ => Response 404 (lit "missing") (inl TypeError)))
              (lit " 123 ") fresh_world)
    as [_ [Hlook _]].
  destruct (Hlook eq_refl) as [Hsnd _].
  split; [reflexivity|]. split; [exact Hsnd|].
  rewrite Hsnd. reflexivity.
Defined.

(** A 404 that arrives after a retried 503 still gives [None]: two
    requests, one sleep of one second. *)
Example not_found_after_retry :
  let E := scripted (fun _ => inr (lit "t"))
             (fun n =>
                match n with
                | 0 => Response 503 (lit "busy") (inl TypeError)
                | _ => Response 404 (lit "missing") (inl TypeError)
                end) in
  let res := get_document E (lit "sukl-drugs") (lit "0000123") None
               fresh_world in
  fst res = inr None
  /\ attempts (w_trace (snd res)) = 2
  /\ sleeps (w_trace (snd res)) = [1%Z].
Proof. cbv zeta. repeat split. Qed.

(** 500 twice, then 200: three requests, sleeps of 1s and 3s, and the
    decoded body is returned. *)
Example success_on_third_attempt :
  let E := scripted (fun _ => inr (lit "t"))
             (fun n =>
                match n with
                | 2 => Response 200 (lit "{}") (inr [])
                | _ => Response 500 (lit "boom") (inl TypeError)
                end) in
  let res := _post_with_retry E (lit "/u") [] (lit "c") fresh_world in
  fst res = inr []
  /\ attempts (w_trace (snd res)) = 3
  /\ sleeps (w_trace (snd res)) = [1; 3]%Z.
Proof. cbv zeta. repeat split. Qed.

(** A drug-detail lookup of [123] asks for the document [0000123]; a key
    with a sign or a letter is refused without any request. *)
Example detail_lookup_url :
  let E := scripted (fun _ => inr (lit "t"))
             (fun _ => Response 404 (lit "missing") (inl TypeError)) in
  w_trace (snd (get_drug_detail is_ascii_digit (fun d => inr (JObj d)) E
                  (lit "123") fresh_world))
  = [ EvGetToken SEARCH_SCOPE;
      EvSend {| r_method := GET;
                r_url := lit "/indexes/sukl-drugs/docs('0000123')";
                r_payload :=
                  document_params (Some DRUG_DETAIL_FIELDS);
                r_authorization := Some (lit "Bearer t") |} ].
Proof. reflexivity. Qed.

Example detail_rejects_non_digits :
  let E := scripted (fun _ => inr (lit "t")) (fun _ => TimeoutException) in
  map (fun kod =>
         get_drug_detail is_ascii_digit (fun d => inr (JObj d)) E kod
           fresh_world)
      [lit "-12"; lit "12a"]
  = [ (JSONResponse 400 (error_content (lit "Kód SÚKL musí být číslo.")),
       fresh_world);
      (JSONResponse 400 (error_content (lit "Kód SÚKL musí být číslo.")),
       fresh_world) ].
Proof. reflexivity. Qed.

(* ================================================================== *)
(** * The further properties at concrete inputs                         *)
(* ================================================================== *)

(** Three timeouts: the call raises the 504 of the last one after
    sleeping 1s and 3s, with no sleep after the third attempt. *)
Lemma X5_witness :
  let E := scripted (fun _ => inr (lit "t")) (fun _ => TimeoutException) in
  let res := _post_with_retry E (lit "/u") [] (lit "c") fresh_world in
  fst res = inl (SearchError 504 (lit "Request timeout"))
  /\ sleeps (w_trace (snd res)) = [1; 3]%Z
  /\ attempts (w_trace (snd res)) = 3.
Proof.
  cbv zeta.
  destruct (X5_transport_failures_sleep_between_attempts_only
              (scripted (fun _ => inr (lit "t")) (fun _ => TimeoutException))
              (lit "/u") [] (lit "c") fresh_world
              (fun _ _ _ => or_introl eq_refl))
    as [[e [Hrec Hpost]] _].
  rewrite Hpost. vm_compute in Hrec. injection Hrec as <-.
  repeat split.
Defined.

(** The holder [O'Brien] is written [O''Brien] and read back. *)
Lemma X7_witness :
  read_literal (lit "'O''Brien', 'drzitelNazev')")
  = Some (lit "O'Brien", lit ", 'drzitelNazev')").
Proof.
  refine (proj1 (X7_escaped_value_reads_back_as_the_input
                   (lit "O'Brien") _)
            (lit ", 'drzitelNazev')") _).
  - discriminate.
  - discriminate.
Defined.

(** A postal code given with blanks around it. *)
Lemma X8_witness :
  exists literal,
    step_postal_code (Some (lit " 110 00 ")) [] = [lit "psc eq " ++ literal]
    /\ read_literal literal = Some (lit "110 00", []).
Proof.
  refine (proj1 (X8_postal_code_is_compared_stripped (lit " 110 00 ") _)).
  discriminate.
Defined.

(** A semantic query with a filter: the first request after the token is
    the POST to the index, and its body carries the filter. *)
Lemma X10_witness :
  let E := scripted (fun _ => inr (lit "t"))
             (fun _ => Response 200 (lit "{}") (inr [])) in
  exists body rest,
    w_trace (snd (search E (lit "sukl-drugs") (lit "ibuprofen")
                    (Some (lit "doping eq false")) None 10 0 None
                    (lit "semantic") (Some (lit "drugs-semantic")) true
                    None None fresh_world))
    = EvGetToken SEARCH_SCOPE
      :: EvSend {| r_method := POST;
                   r_url := search_url (lit "sukl-drugs");
                   r_payload := body;
                   r_authorization := Some (lit "Bearer t") |}
      :: rest
    /\ dict_get (lit "filter") body = Some (JStr (lit "doping eq false"))
    /\ dict_get (lit "orderby") body = None.
Proof.
  cbv zeta.
  destruct (X10_search_body_carries_what_was_given
              (scripted (fun _ => inr (lit "t"))
                 (fun _ => Response 200 (lit "{}") (inr [])))
              (lit "sukl-drugs") (lit "ibuprofen") (lit "semantic")
              (Some (lit "doping eq false")) None
              (Some (lit "drugs-semantic")) None None None 10%Z 0%Z true
              fresh_world (lit "t") eq_refl)
    as (body & rest & Htr & _ & _ & _ & _ & _ & _ & Hf & _ & Ho & _).
  exists body, rest.
  split; [exact Htr|]. split; [exact Hf | exact Ho].
Defined.

(** A drug search by ATC code: the filter of the builder is in the body. *)
Lemma X12_witness :
  let E := scripted (fun _ => inr (lit "t"))
             (fun _ => Response 200 (lit "{}") (inr [])) in
  exists body rest,
    w_trace (snd (search_drugs upper_ascii lower_ascii E (lit "ibuprofen")
                    (Some (lit "n02be01")) None None None None None 10
                    fresh_world))
    = EvGetToken SEARCH_SCOPE
      :: EvSend {| r_method := POST;
                   r_url := search_url DRUGS_INDEX;
                   r_payload := body;
                   r_authorization := Some (lit "Bearer t") |}
      :: rest
    /\ dict_get (lit "filter") body = Some (JStr (lit "atc eq 'N02BE01'")).
Proof.
  cbv zeta.
  destruct (X12_drug_search_forwards_the_filter_and_counts_results
              upper_ascii lower_ascii
              (scripted (fun _ => inr (lit "t"))
                 (fun _ => Response 200 (lit "{}") (inr [])))
              (lit "ibuprofen") (Some (lit "n02be01")) None None None None
              None 10%Z fresh_world (lit "t") eq_refl)
    as [(body & rest & Htr & _ & _ & _ & _ & Hf & _) _].
  exists body, rest. split; [exact Htr | exact Hf].
Defined.

(** The drug code [ 123 ] is looked up as [0000123], by GET only. *)
Lemma X14_witness :
  let E := scripted (fun _ => inr (lit "t"))
             (fun _ => Response 404 (lit "missing") (inl TypeError)) in
  exists tr,
    w_trace (snd (get_drug_detail is_ascii_digit (fun d => inr (JObj d)) E
                    (lit " 123 ") fresh_world))
    = tr
    /\ Forall (lookup_of DRUGS_INDEX (lit "0000123")) tr.
Proof.
  cbv zeta.
  destruct (X14_detail_lookups_send_digit_only_keys
              is_ascii_digit (fun d => inr (JObj d)) (fun c _ => eq_refl)
              (scripted (fun _ => inr (lit "t"))
                 (fun _ => Response 404 (lit "missing") (inl TypeError)))
              (lit " 123 ") fresh_world)
    as [(tr & Htr & Hall & _) _].
  exists tr. split; [exact Htr | exact Hall].
Defined.

(** Two blanks as a drug code: the document [0000000] is asked for. *)
Lemma X16_witness :
  let E := scripted (fun _ => inr (lit "t"))
             (fun _ => Response 404 (lit "missing") (inl TypeError)) in
  let res := get_drug_detail is_ascii_digit (fun d => inr (JObj d)) E
               (lit "  ") fresh_world in
  snd res
  = snd (get_document E DRUGS_INDEX (lit "0000000")
           (Some DRUG_DETAIL_FIELDS) fresh_world)
  /\ attempts (w_trace (snd res)) = 1.
Proof.
  cbv zeta.
  destruct (X16_blank_drug_code_is_looked_up_as_zeros
              is_ascii_digit (fun d => inr (JObj d)) (fun c _ => eq_refl)
              (scripted (fun _ => inr (lit "t"))
                 (fun _ => Response 404 (lit "missing") (inl TypeError)))
              (lit "  ") fresh_world)
    as (_ & _ & Hsnd & _).
  - repeat constructor.
  - split; [exact Hsnd|]. rewrite Hsnd. reflexivity.
Defined.

(** A request log entry without a query string: [status] is kept,
    [query] is left out. *)
Lemma X20_witness :
  let kwargs := [ (lit "status", JInt 200); (lit "query", JNull) ] in
  exists entry,
    Logger.log_entry (lit "2024-01-01T00:00:00+00:00") Logger.INFO
      (lit "http_request") kwargs
    = inr entry
    /\ dict_get (lit "level") entry = Some (JStr (lit "info"))
    /\ dict_get (lit "status") entry = Some (JInt 200)
    /\ dict_get (lit "query") entry = None.
Proof.
  cbv zeta.
  assert (NoDup (map fst [ (lit "status", JInt 200); (lit "query", JNull) ]))
    as Hkeys.
  { cbn [map fst]. constructor.
    - intros [H|[]]. vm_compute in H. discriminate H.
    - constructor; [intros [] | constructor]. }
  destruct (X20_log_entry_drops_none_fields
              (lit "2024-01-01T00:00:00+00:00") (lit "http_request")
              Logger.INFO _ Hkeys) as [_ Hentry].
  destruct Hentry as (entry & Hcall & Hlevel & _ & Hfields).
  - intros (k & Hreserved & Hin). cbn [map fst In] in Hreserved, Hin.
    destruct Hreserved as [<-|[<-|[<-|[]]]];
      destruct Hin as [H|[H|[]]]; vm_compute in H; discriminate H.
  - exists entry. split; [exact Hcall|]. split; [exact Hlevel|].
    split; [exact (Hfields (lit "status")) | exact (Hfields (lit "query"))].
Defined.

(** A field named [level] is a second value for the parameter of [_log]. *)
Example log_level_keyword_is_refused :
  Logger.log_entry (lit "2024-01-01T00:00:00+00:00") Logger.INFO
    (lit "http_request") [ (lit "level", JStr (lit "debug")) ]
  = inl TypeError.
Proof. reflexivity. Qed.

(** A hybrid query with the defaults of [search_documents]. *)
Lemma X21_witness :
  let E := scripted (fun _ => inr (lit "t"))
             (fun _ => Response 200 (lit "{}") (inr [])) in
  exists body rest,
    w_trace (snd (hybrid_search E (lit "sukl-documents") (lit "ibuprofen")
                    (lit "chunk_vector") (lit "openai-vectorizer") None 5
                    (Some (lit "sukl-semantic")) (Some (lit "extractive|count-3"))
                    None fresh_world))
    = EvGetToken SEARCH_SCOPE
      :: EvSend {| r_method := POST;
                   r_url := search_url (lit "sukl-documents");
                   r_payload := body;
                   r_authorization := Some (lit "Bearer t") |}
      :: rest
    /\ dict_get (lit "answers") body = Some (JStr (lit "extractive|count-3"))
    /\ dict_get (lit "captions") body = None.
Proof.
  cbv zeta.
  destruct (X21_hybrid_search_sends_one_text_vector_query
              (scripted (fun _ => inr (lit "t"))
                 (fun _ => Response 200 (lit "{}") (inr [])))
              (lit "sukl-documents") (lit "ibuprofen") (lit "chunk_vector")
              (lit "openai-vectorizer") None 5%Z (Some (lit "sukl-semantic"))
              (Some (lit "extractive|count-3")) None fresh_world (lit "t")
              eq_refl)
    as [_ (body & rest & Htr & _ & _ & _ & _ & _ & _ & _ & _ & _ & _ & _ & Ha & Hc)].
  exists body, rest.
  split; [exact Htr|]. split; [exact Ha | exact Hc].
Defined.

(** Further runs of the added functions. *)

Example middleware_rejects_wrong_key :
  Main.request_middleware nat 401 (fun _ r => r) (lit "/api/drugs/search")
    (lit "secret") (Some (lit "guess")) (Some (lit "secret")) (lit "id")
    (fun w => (200, w)) fresh_world
  = (inr 401, fresh_world).
Proof. reflexivity. Qed.

Example middleware_query_key_is_used_without_header :
  Main.request_middleware nat 401 (fun _ r => r) (lit "/api/drugs/search")
    (lit "secret") None (Some (lit "secret")) (lit "id")
    (fun w => (200, w)) fresh_world
  = (inr 200, fresh_world).
Proof. reflexivity. Qed.

Example caller_examples :
  map Main.caller_of
    [ Some (lit "10.0.0.1, 10.0.0.2"); Some (lit " , 10.0.0.2"); None ]
  = [ lit "10.0.0.1"; lit "unknown"; lit "unknown" ].
Proof. reflexivity. Qed.
